(** * Enrolment Dates Field Checker: a shallow embedding and its properties

    The program reads two CSV exports (the Enrolment Dates report and the
    Custom Fields report), extracts dates and student ids from their
    columns, compares the two row sets by student id and writes the rows
    whose dates differ.  This file embeds the functions of
    [Enrolment_Dates_Field_Checker.py] and proves the properties stated
    about them.

    Layout: Python values and exceptions, text primitives, the pure
    column extractors, the matcher, the validator and the file
    operations over an explicit world, the pipeline stages over a store
    of mutable list objects, and last the workflow that runs them. *)

From Stdlib Require Import ZArith List String Ascii Lia Bool.
From stdpp Require Import base list strings.
Import ListNotations.

Open Scope string_scope.
Open Scope list_scope.
Open Scope Z_scope.

(** ** Exceptions and results *)

(** The exceptions the embedded functions can raise. *)
Inductive exn : Type :=
| IndexError
| AttributeError
| TypeError
| ValueError
| EOFError
| IOError
| SystemExit.

Inductive result (A : Type) : Type :=
| Ok (a : A)
| Raise (e : exn).

Arguments Ok {A} a.
Arguments Raise {A} e.

Definition res_bind {A B : Type} (r : result A) (k : A -> result B) : result B :=
  match r with
  | Ok a => k a
  | Raise e => Raise e
  end.

Declare Scope res_scope.
Delimit Scope res_scope with res.
Notation "x <- e ;; k" := (res_bind e (fun x => k))
  (at level 100, e at next level, right associativity) : res_scope.

(** ** Python sequences *)

(** A row of a report: the fields that [csv.reader] yields, all [str]. *)
Abbreviation row := (list string) (only parsing).

(** Index normalisation of [seq[i]]: a negative [i] counts from the end,
    anything outside [-len, len) is an [IndexError]. *)
Definition norm_index (len : nat) (i : Z) : option nat :=
  if (0 <=? i) && (i <? Z.of_nat len) then Some (Z.to_nat i)
  else if (i <? 0) && (- Z.of_nat len <=? i) then Some (Z.to_nat (Z.of_nat len + i))
  else None.

(** [l[i]] *)
Definition getitem {A : Type} (l : list A) (i : Z) : result A :=
  match norm_index (length l) i with
  | Some n =>
      match l !! n with
      | Some a => Ok a
      | None => Raise IndexError
      end
  | None => Raise IndexError
  end.

(** ** Python text *)

(** A [string] holds 8-bit characters.  An ASCII text is held
    character by character.  Python cuts a [str] by character and its
    class [\d] has decimal digits beyond ASCII; the model cuts by 8-bit
    character and knows the ten ASCII digits.  The two agree on ASCII
    text, and at every cut that falls on an ASCII delimiter; the
    theorems that cut a text at a fixed width, or search it for a digit,
    are stated for ASCII text (see [ascii_text]). *)

(** [s.find(sub)]: the lowest index at which [sub] occurs, or -1. *)
Definition str_find (sub s : string) : Z :=
  match String.index 0 sub s with
  | Some n => Z.of_nat n
  | None => -1
  end.

(** A bound of a slice: negative bounds count from the end, and every
    bound is clamped to [0, len]. *)
Definition slice_bound (len i : Z) : Z :=
  if i <? 0 then Z.max 0 (len + i) else Z.min i len.

(** [s[lo:hi]]; an omitted bound is [None].  The bounds count 8-bit
    characters, which are the characters of an ASCII text. *)
Definition slice (s : string) (lo hi : option Z) : string :=
  let len := Z.of_nat (String.length s) in
  let a := match lo with Some i => slice_bound len i | None => 0 end in
  let b := match hi with Some i => slice_bound len i | None => len end in
  substring (Z.to_nat a) (Z.to_nat (b - a)) s.

(** [sub in s] *)
Definition str_contains (sub s : string) : bool :=
  match String.index 0 sub s with
  | Some _ => true
  | None => false
  end.

(** The class [\d] on ASCII text: the ten decimal digits.  (On a [str]
    the class also has the decimal digits of other scripts, none of
    which is an ASCII character.) *)
Definition is_digit (c : ascii) : bool :=
  (48 <=? nat_of_ascii c)%nat && (nat_of_ascii c <=? 57)%nat.

(** [re.search('\d', s)]: the position of the first digit, the match's
    [start()], or [None] when there is no match. *)
Fixpoint search_digit (s : string) : option nat :=
  match s with
  | EmptyString => None
  | String c s' =>
      if is_digit c then Some 0%nat
      else match search_digit s' with
           | Some n => Some (S n)
           | None => None
           end
  end.

(** ** Column extractors *)

Section Extractors.
Local Open Scope res_scope.

(** [extract_date(date)] *)
Definition extract_date (date : string) : string :=
  let separator := "/" in
  let date_part := slice date None (Some 10) in
  let day := slice date_part (Some 8) (Some 10) in
  let month := slice date_part (Some 5) (Some 7) in
  let year := slice date_part (Some 0) (Some 4) in
  day +:+ separator +:+ month +:+ separator +:+ year.

(** [extract_student_id(student, data_pos)] *)
Definition extract_student_id (student : row) (data_pos : Z) : result string :=
  text <- getitem student data_pos;;
  let start := str_find "FitNZ" text in
  let finish := start + 9 in
  text' <- getitem student data_pos;;
  Ok (slice text' (Some start) (Some finish)).

(** [extract_course_date(student, data_pos, date_text)] *)
Definition extract_course_date (student : row) (data_pos : Z) (date_text : string)
  : result string :=
  text <- getitem student data_pos;;
  let date_text := str_find date_text text in
  text' <- getitem student data_pos;;
  let remaining := slice text' (Some date_text) None in
  match search_digit remaining with
  | None => Raise AttributeError
  | Some date_start =>
      let date_remaining := slice remaining (Some (Z.of_nat date_start)) None in
      let first_slash := str_find "/" date_remaining in
      let day := slice date_remaining None (Some first_slash) in
      let date_remaining_month := slice date_remaining (Some (first_slash + 1)) None in
      let second_slash := str_find "/" date_remaining_month in
      let month := slice date_remaining_month None (Some second_slash) in
      let year :=
        slice date_remaining_month (Some (second_slash + 1)) (Some (second_slash + 5)) in
      let course_date := day +:+ "/" +:+ month +:+ "/" +:+ year in
      Ok course_date
  end.

End Extractors.

(** ** Matcher *)

Section Matcher.
Local Open Scope res_scope.

(** The inner loop of [compare] for one [student]: the secondary rows
    are scanned in order and the loop is left ([break]) at the first
    row whose id equals the student's, after appending to [changes]
    when the dates differ. *)
Fixpoint compare_student (student : row) (custom_field : list row)
    (e_pos c_pos es_pos cs_pos : Z) (changes : list row) : result (list row) :=
  match custom_field with
  | [] => Ok changes
  | c_student :: rest =>
      sid <- getitem student es_pos;;
      cid <- getitem c_student cs_pos;;
      if String.eqb sid cid then
        sdate <- getitem student e_pos;;
        cdate <- getitem c_student c_pos;;
        if negb (String.eqb sdate cdate) then
          id <- getitem student es_pos;;
          date <- getitem student e_pos;;
          let changed_student := [id; date] in
          Ok (changes ++ [changed_student])
        else Ok changes
      else compare_student student rest e_pos c_pos es_pos cs_pos changes
  end.

(** The outer loop of [compare], threading [changes]. *)
Fixpoint compare_loop (enrolment custom_field : list row)
    (e_pos c_pos es_pos cs_pos : Z) (changes : list row) : result (list row) :=
  match enrolment with
  | [] => Ok changes
  | student :: rest =>
      changes' <- compare_student student custom_field e_pos c_pos es_pos cs_pos changes;;
      compare_loop rest custom_field e_pos c_pos es_pos cs_pos changes'
  end.

(** [compare(enrolment, custom_field, e_pos, c_pos, es_pos=0, cs_pos=0)];
    the two defaulted positions are passed explicitly. *)
Definition compare (enrolment custom_field : list row) (e_pos c_pos es_pos cs_pos : Z)
  : result (list row) :=
  compare_loop enrolment custom_field e_pos c_pos es_pos cs_pos [].

End Matcher.

(** ** Course codes *)

(** The newline character and the one-character text holding it. *)
Definition nl_char : ascii := ascii_of_nat 10.
Definition nl : string := String nl_char EmptyString.

(** The items of the pattern [.+\(.+-.+-.+\)]: [.+] (one or more
    characters other than a newline) and literal characters. *)
Inductive pat_item : Type :=
| AnyPlus
| Lit (c : ascii).

(** Does the pattern match a prefix of [s]?  Every item consumes at
    least one character. *)
Fixpoint match_here (s : string) (p : list pat_item) {struct s} : bool :=
  match p with
  | [] => true
  | Lit c :: p' =>
      match s with
      | EmptyString => false
      | String d s' => if Ascii.eqb c d then match_here s' p' else false
      end
  | AnyPlus :: p' =>
      match s with
      | EmptyString => false
      | String d s' =>
          if Ascii.eqb d nl_char then false
          else match_here s' (AnyPlus :: p') || match_here s' p'
      end
  end.

(** [re.search(p, s)] as a truth value: a match at some position. *)
Fixpoint re_search (p : list pat_item) (s : string) : bool :=
  match_here s p ||
  match s with
  | EmptyString => false
  | String _ s' => re_search p s'
  end.

Definition course_code_pattern : list pat_item :=
  [AnyPlus; Lit "("; AnyPlus; Lit "-"; AnyPlus; Lit "-"; AnyPlus; Lit ")"]%char.

(** [s.index(sub)]: as [find], but a [ValueError] when absent. *)
Definition str_index (sub s : string) : result Z :=
  match String.index 0 sub s with
  | Some n => Ok (Z.of_nat n)
  | None => Raise ValueError
  end.

Section CourseCode.
Local Open Scope res_scope.

(** [extract_course_code(course)] *)
Definition extract_course_code (course : string) : result string :=
  if re_search course_code_pattern course then
    start <- str_index "(" course;;
    Ok (slice course (Some (start + 1)) (Some (-1)))
  else Ok "Skip".

End CourseCode.

(** ** State and exceptions *)

(** A computation over a state [St]: it yields a value or raises, and
    leaves a state behind in both cases. *)
Definition M (St A : Type) : Type := St -> result A * St.

Definition ret {St A : Type} (a : A) : M St A := fun s => (Ok a, s).

Definition raise {St A : Type} (e : exn) : M St A := fun s => (Raise e, s).

Definition lift {St A : Type} (r : result A) : M St A := fun s => (r, s).

Definition bind {St A B : Type} (m : M St A) (k : A -> M St B) : M St B :=
  fun s =>
    match m s with
    | (Ok a, s') => k a s'
    | (Raise e, s') => (Raise e, s')
    end.

Declare Scope st_scope.
Delimit Scope st_scope with st.
Notation "x <- e ;; k" := (bind e (fun x => k))
  (at level 100, e at next level, right associativity) : st_scope.
Notation "e ;; k" := (bind e (fun _ => k))
  (at level 100, right associativity) : st_scope.

(** [for x in xs: body(x)] over a sequence that the body does not change. *)
Fixpoint for_each {St A : Type} (xs : list A) (body : A -> M St unit) : M St unit :=
  match xs with
  | [] => ret tt
  | x :: rest => bind (body x) (fun _ => for_each rest body)
  end.

(** ** The world of the file operations *)

(** A readable CSV file: its first line, which [readline] consumes, and
    the records that [csv.reader] yields from the lines after it. *)
Record csv_file : Type := {
  header_line : string;
  records : list row
}.

Record World : Type := {
  stdin : list string;                    (* lines the operator will enter *)
  stdout : list string;                   (* text written to the console *)
  csv_files : list (string * csv_file);   (* files that open for reading *)
  locked : list string;                   (* names that do not open for writing *)
  disk : list (string * string);          (* files written: name and content *)
  clock : nat -> string;                  (* successive readings of strftime *)
  ticks : nat                             (* readings taken so far *)
}.

Definition set_stdin (w : World) (v : list string) : World :=
  {| stdin := v; stdout := stdout w; csv_files := csv_files w; locked := locked w;
     disk := disk w; clock := clock w; ticks := ticks w |}.

Definition set_stdout (w : World) (v : list string) : World :=
  {| stdin := stdin w; stdout := v; csv_files := csv_files w; locked := locked w;
     disk := disk w; clock := clock w; ticks := ticks w |}.

Definition set_disk (w : World) (v : list (string * string)) : World :=
  {| stdin := stdin w; stdout := stdout w; csv_files := csv_files w; locked := locked w;
     disk := v; clock := clock w; ticks := ticks w |}.

Definition set_ticks (w : World) (v : nat) : World :=
  {| stdin := stdin w; stdout := stdout w; csv_files := csv_files w; locked := locked w;
     disk := disk w; clock := clock w; ticks := v |}.

(** Lookup in a table keyed by names: the first entry of that name. *)
Fixpoint assoc {A : Type} (name : string) (table : list (string * A)) : option A :=
  match table with
  | [] => None
  | (k, v) :: rest => if String.eqb name k then Some v else assoc name rest
  end.

(** The table with [name] bound to [v], replacing a former entry. *)
Fixpoint assoc_set {A : Type} (name : string) (v : A) (table : list (string * A))
  : list (string * A) :=
  match table with
  | [] => [(name, v)]
  | (k, old) :: rest =>
      if String.eqb name k then (k, v) :: rest else (k, old) :: assoc_set name v rest
  end.

(** The content of a written file; a file never written reads as absent. *)
Definition file_content (name : string) (w : World) : option string :=
  assoc name (disk w).

Section Console.
Local Open Scope st_scope.

(** [print(s)] *)
Definition print (s : string) : M World unit :=
  fun w => (Ok tt, set_stdout w (stdout w ++ [s +:+ nl])).

(** [input(prompt)]: the prompt is written, a line is read; the end of
    the input is an [EOFError]. *)
Definition input (prompt : string) : M World string :=
  fun w =>
    let w' := set_stdout w (stdout w ++ [prompt]) in
    match stdin w' with
    | [] => (Raise EOFError, w')
    | line :: rest => (Ok line, set_stdin w' rest)
    end.

(** [generate_time_string()] *)
Definition generate_time_string : M World string :=
  fun w =>
    let time_str := clock w (ticks w) in
    (Ok time_str, set_ticks w (S (ticks w))).

(** [open(name, 'w')]: an [IOError] for a name that does not open,
    otherwise the file is created or truncated. *)
Definition open_w (name : string) : M World unit :=
  fun w =>
    if existsb (String.eqb name) (locked w) then (Raise IOError, w)
    else (Ok tt, set_disk w (assoc_set name "" (disk w))).

(** [f.write(s)] on the file open under [name]. *)
Definition write (name s : string) : M World unit :=
  fun w =>
    match assoc name (disk w) with
    | Some content => (Ok tt, set_disk w (assoc_set name (content +:+ s) (disk w)))
    | None => (Raise ValueError, w)
    end.

(** [try: m / except IOError: handler / else: body] *)
Definition try_io {A B : Type} (m : M World A) (handler : M World B) (body : A -> M World B)
  : M World B :=
  fun w =>
    match m w with
    | (Ok a, w') => body a w'
    | (Raise IOError, w') => handler w'
    | (Raise e, w') => (Raise e, w')
    end.

End Console.

(** ** Validator *)

Section Validator.

(** The scan of [check_ed]: one pass over the rows, in which a missing
    Student Name adds to [warnings] and a missing Course, Enrolment Date
    or Expiry Date adds to [errors].  The fields are [str], so the test
    [in (None, '')] is the test for the empty text. *)
Fixpoint check_ed_scan (report_data : list row) (errors warnings : list string)
  : result (list string * list string) :=
  match report_data with
  | [] => Ok (errors, warnings)
  | student :: rest =>
      (name <- getitem student 1;;
       warnings1 <-
         (if String.eqb name "" then
            id <- getitem student 0;;
            Ok (warnings ++
                ["Student Name is missing for student with Student ID " +:+ id])
          else Ok warnings);;
       course <- getitem student 2;;
       errors1 <-
         (if String.eqb course "" then
            id <- getitem student 0;;
            Ok (errors ++ ["Course is missing for student with Student ID " +:+ id])
          else Ok errors);;
       enrolment_date <- getitem student 3;;
       errors2 <-
         (if String.eqb enrolment_date "" then
            id <- getitem student 0;;
            Ok (errors1 ++
                ["Enrolment Date is missing for student with Student ID " +:+ id])
          else Ok errors1);;
       expiry_date <- getitem student 4;;
       errors3 <-
         (if String.eqb expiry_date "" then
            id <- getitem student 0;;
            Ok (errors2 ++
                ["Expiry Date is missing for student with Student ID " +:+ id])
          else Ok errors2);;
       check_ed_scan rest errors3 warnings1)%res
  end.

Local Open Scope st_scope.

(** [save_error_log(source, error_log, file_name)] *)
Definition save_error_log (source : string) (error_log : list string) (file_name : string)
  : M World unit :=
  try_io (open_w file_name)
    (print "Error log could not be saved as it is not accessible.")
    (fun _ =>
       open_w file_name;;
       write file_name (source +:+ nl);;
       for_each error_log (fun line => write file_name (line +:+ nl));;
       print ("Error log has been saved to " +:+ file_name)).

(** [process_error_log(errors, source)]: it reports the errors, saves
    them and ends in [raise SystemExit]. *)
Definition process_error_log (errors : list string) (source : string) : M World unit :=
  print (nl +:+ "The following errors have been identified in the " +:+ source
         +:+ " data: " +:+ nl);;
  for_each errors (fun line => print line);;
  current_time <- generate_time_string;;
  let error_file := "Error_log_" +:+ "_" +:+ current_time +:+ ".txt" in
  print (nl +:+ "The errors have been saved to the error log file." +:+ nl);;
  save_error_log source errors error_file;;
  print "The program will now close. Please correct errors before trying again.";;
  _ <- input "Press enter key to exit. ";;
  raise SystemExit.

(** [check_ed(report_data)] *)
Definition check_ed (report_data : list row) : M World (bool * list string) :=
  scanned <- lift (check_ed_scan report_data []
                     [nl +:+ "Enrolment Dates (Learning Platform) Report Warnings:" +:+ nl]);;
  let errors := fst scanned in
  let warnings := snd scanned in
  (if (0 <? length errors)%nat
   then process_error_log errors "Enrolment Dates (Learning Platform) Report"
   else ret tt);;
  if (1 <? length warnings)%nat then ret (true, warnings) else ret (false, warnings).

End Validator.

(** ** Loading a report *)

Section Loader.

(** The loop over the records of the reader in [load_data]: the rows
    with a non-empty first field are appended to [read_data]. *)
Fixpoint read_rows (reader : list row) (read_data : list row) : result (list row) :=
  match reader with
  | [] => Ok read_data
  | r :: rest =>
      (first <- getitem r 0;;
       if negb (String.eqb first "") then read_rows rest (read_data ++ [r])
       else read_rows rest read_data)%res
  end.

Local Open Scope st_scope.

(** [open(name, 'r')] *)
Definition open_r (name : string) : M World csv_file :=
  fun w =>
    match assoc name (csv_files w) with
    | Some file => (Ok file, w)
    | None => (Raise IOError, w)
    end.

(** The [while valid_file is False] loop of [load_data].  Every pass
    that fails to open the file reads a line of input, so the recursion
    is on [lines], the input still unread; [input] raises at its end,
    before the last case can be reached. *)
Fixpoint load_loop (lines : list string) (file_name source : string)
    (read_data : list row) : M World (list row) :=
  try_io (open_r (file_name +:+ ".csv"))
    (print "The file does not exist. Check file name.";;
     file_name' <- input "What is the name of the file? ";;
     match lines with
     | [] => raise EOFError
     | _ :: rest => load_loop rest file_name' source read_data
     end)
    (fun file =>
       read_data' <- lift (read_rows (records file) read_data);;
       (if String.eqb source "ed"
        then (_ <- check_ed read_data';; ret tt)
        else ret tt);;
       ret read_data').

(** [load_data(file_name, source)] *)
Definition load_data (file_name source : string)
  : M World (list row * bool * list string) :=
  let warnings : list string := [] in
  read_data <- (fun w => load_loop (stdin w) file_name source [] w);;
  if (0 <? length warnings)%nat then ret (read_data, true, warnings)
  else ret (read_data, false, warnings).

End Loader.

(** ** Saving the changes *)

Section Saver.

(** The inner loop of [save_data_upload]: [line = line + element + ',']. *)
Fixpoint build_line (item : row) (line : string) : string :=
  match item with
  | [] => line
  | element :: rest => build_line rest (line +:+ element +:+ ",")
  end.

(** The outer loop: each item adds its line, less the final comma, and a
    newline to [save_data]. *)
Fixpoint build_save_data (i_data : list row) (save_data : string) : string :=
  match i_data with
  | [] => save_data
  | item :: rest =>
      let line := build_line item "" in
      let line_to_save := slice line None (Some (-1)) in
      build_save_data rest (save_data +:+ line_to_save +:+ nl)
  end.

Local Open Scope st_scope.

(** [save_data_upload(i_data, headings, d_name)].  The [except] branch
    cannot complete a pass of the loop: after the prompt, the statement
    [+ '.txt'] applies unary plus to a [str], a [TypeError]; so the
    body of [while file_available is not True] runs once. *)
Definition save_data_upload (i_data : list row) (headings d_name : string) : M World unit :=
  time_now <- generate_time_string;;
  let f_name := d_name +:+ time_now +:+ ".txt" in
  try_io (open_w f_name)
    (print "The file is not accessible. Try a different file name.";;
     _ <- input (nl +:+ "What file would you like to save to? --> ");;
     raise TypeError)
    (fun _ =>
       open_w f_name;;
       write f_name (headings +:+ nl);;
       let save_data := build_save_data i_data "" in
       write f_name save_data;;
       ret tt);;
  print (d_name +:+ " has been saved to " +:+ f_name).

End Saver.

(** ** Operator dialogue and the warning log *)

Section Dialogue.
Local Open Scope st_scope.

(** The loop of [check_repeat]: it asks until the answer is 'y' or 'n'.
    Every pass reads a line, so the recursion is on [lines], the input
    still unread; [input] raises at its end, before the last case can
    be reached. *)
Fixpoint check_repeat_loop (lines : list string) : M World bool :=
  repeat <- input (nl +:+ "Do you want to prepare another file? y/n --> ");;
  if negb (String.eqb repeat "y") && negb (String.eqb repeat "n") then
    print (nl +:+ "That is not a valid answer! Please try again.");;
    match lines with
    | [] => raise EOFError
    | _ :: rest => check_repeat_loop rest
    end
  else if String.eqb repeat "y" then ret true
  else ret false.

(** [check_repeat()] *)
Definition check_repeat : M World bool :=
  fun w => check_repeat_loop (stdin w) w.

(** The loop of [check_review_warnings], of the same shape. *)
Fixpoint check_review_loop (lines : list string) : M World bool :=
  review <- input (nl +:+ "Do you want to view the warning messages? y/n --> ");;
  if negb (String.eqb review "y" || String.eqb review "n") then
    print (nl +:+ "That is not a valid answer! Please try again.");;
    match lines with
    | [] => raise EOFError
    | _ :: rest => check_review_loop rest
    end
  else if String.eqb review "y" then ret true
  else ret false.

(** [check_review_warnings()] *)
Definition check_review_warnings : M World bool :=
  fun w => check_review_loop (stdin w) w.

(** [confirm_files(o_file, r_files)] *)
Definition confirm_files (o_file : string) (r_files : list string) : M World unit :=
  let num_files := length r_files in
  let text_f := if (num_files =? 1)%nat then "this file is" else "these files are" in
  print (nl +:+ "To process the " +:+ o_file +:+ " the following files are required:" +:+ nl);;
  for_each r_files (fun file => print file);;
  print (nl +:+ "Please make sure that " +:+ text_f
         +:+ " in the required folder and are updated correctly before proceeding.");;
  _ <- input (nl +:+ "Press the enter key to continue processing the " +:+ o_file
              +:+ " file --> ");;
  ret tt.

(** [save_warning_log(warning_log, file_name)] *)
Definition save_warning_log (warning_log : list string) (file_name : string) : M World unit :=
  try_io (open_w file_name)
    (print "Warning log could not be saved as it is not accessible.")
    (fun _ =>
       open_w file_name;;
       for_each warning_log (fun line => write file_name (line +:+ nl));;
       print ("Warnings log has been saved to " +:+ file_name)).

(** [process_warning_log(warnings, required)] *)
Definition process_warning_log (warnings : list string) (required : bool) : M World unit :=
  if negb required then ret tt
  else
    print (nl +:+ "There were errors found in one or more of the data sources. "
           +:+ "You should check these errors and correct if necessary before "
           +:+ "using the generated files. If you correct the files, it is "
           +:+ "recommended that you run this program again to generate new "
           +:+ "output files from the correct data.");;
    review <- check_review_warnings;;
    (if review then for_each warnings (fun line => print line) else ret tt);;
    current_time <- generate_time_string;;
    let warning_file := "Warning_log_" +:+ "_" +:+ current_time +:+ ".txt" in
    print (nl +:+ "The warnings have been saved to the warning log file." +:+ nl);;
    save_warning_log warnings warning_file.

End Dialogue.

(** ** Pipeline stages over mutable lists *)

(** Python lists are objects: a stage receives a reference to a list of
    references to rows, and an update of a row is seen through every
    reference to it.  The store holds the objects; a reference is an
    index into it, and a new object takes the next free index. *)
Module Obj.

Abbreviation loc := nat (only parsing).

Inductive obj : Type :=
| Row (fields : row)
| RowList (items : list loc).

Abbreviation heap := (list obj) (only parsing).

Section Stages.
Local Open Scope st_scope.

(** A new list object. *)
Definition alloc (o : obj) : M heap loc :=
  fun h => (Ok (length h), h ++ [o]).

(** The fields of the row at [l]. *)
Definition read_row (l : loc) : M heap row :=
  fun h =>
    match h !! l with
    | Some (Row fields) => (Ok fields, h)
    | _ => (Raise TypeError, h)
    end.

(** The items of the list of rows at [l]. *)
Definition read_list (l : loc) : M heap (list loc) :=
  fun h =>
    match h !! l with
    | Some (RowList items) => (Ok items, h)
    | _ => (Raise TypeError, h)
    end.

Definition store (l : loc) (o : obj) : M heap unit :=
  fun h => (Ok tt, <[l := o]> h).

(** [student.append(v)] *)
Definition row_append (l : loc) (v : string) : M heap unit :=
  fields <- read_row l;;
  store l (Row (fields ++ [v])).

(** [student[i] = v] *)
Definition row_setitem (l : loc) (i : Z) (v : string) : M heap unit :=
  fields <- read_row l;;
  match norm_index (length fields) i with
  | Some n => store l (Row (<[n := v]> fields))
  | None => raise IndexError
  end.

(** [students.append(student)] *)
Definition list_append (l : loc) (x : loc) : M heap unit :=
  items <- read_list l;;
  store l (RowList (items ++ [x])).

(** [list(students)]: a new list object with the same items. *)
Definition list_copy (l : loc) : M heap loc :=
  items <- read_list l;;
  alloc (RowList items).

(** [add_end_date(students, data_pos)] *)
Definition add_end_date (students : loc) (data_pos : Z) : M heap loc :=
  updated_students <- list_copy students;;
  let text := "Course End Date" in
  items <- read_list updated_students;;
  for_each items (fun student =>
    fields <- read_row student;;
    end_date <- lift (extract_course_date fields data_pos text);;
    row_append student end_date);;
  ret updated_students.

(** [add_start_date(students, data_pos)] *)
Definition add_start_date (students : loc) (data_pos : Z) : M heap loc :=
  updated_students <- list_copy students;;
  let text := "Course Start Date" in
  items <- read_list updated_students;;
  for_each items (fun student =>
    fields <- read_row student;;
    start_date <- lift (extract_course_date fields data_pos text);;
    row_append student start_date);;
  ret updated_students.

(** [add_student_id(students, data_pos)] *)
Definition add_student_id (students : loc) (data_pos : Z) : M heap loc :=
  updated_students <- list_copy students;;
  items <- read_list updated_students;;
  for_each items (fun student =>
    fields <- read_row student;;
    student_id <- lift (extract_student_id fields data_pos);;
    row_append student student_id);;
  ret updated_students.

(** [clean_date(students, date_pos)] *)
Definition clean_date (students : loc) (date_pos : Z) : M heap loc :=
  updated_students <- alloc (RowList []);;
  items <- read_list students;;
  for_each items (fun student =>
    fields <- read_row student;;
    date <- lift (getitem fields date_pos);;
    row_setitem student date_pos (extract_date date);;
    list_append updated_students student);;
  ret updated_students.

(** [extract_students(students, data_pos)] *)
Definition extract_students (students : loc) (data_pos : Z) : M heap loc :=
  updated_students <- alloc (RowList []);;
  items <- read_list students;;
  for_each items (fun student =>
    fields <- read_row student;;
    text <- lift (getitem fields data_pos);;
    if str_contains "FitNZ" text then list_append updated_students student
    else ret tt);;
  ret updated_students.

(** [get_courses(students, course_pos)] *)
Definition get_courses (students : loc) (course_pos : Z) : M heap loc :=
  updated_students <- alloc (RowList []);;
  items <- read_list students;;
  for_each items (fun student =>
    fields <- read_row student;;
    course <- lift (getitem fields course_pos);;
    code <- lift (extract_course_code course);;
    if negb (String.eqb code "Skip") then list_append updated_students student
    else ret tt);;
  ret updated_students.

(** [strip_cf_data(data)] *)
Definition strip_cf_data (data : loc) : M heap loc :=
  updated_data <- alloc (RowList []);;
  items <- read_list data;;
  for_each items (fun student =>
    updated_student <- alloc (Row []);;
    fields <- read_row student;;
    v5 <- lift (getitem fields 5);;
    row_append updated_student v5;;
    v6 <- lift (getitem fields 6);;
    row_append updated_student v6;;
    v7 <- lift (getitem fields 7);;
    row_append updated_student v7;;
    list_append updated_data updated_student);;
  ret updated_data.

(** The inner loop of [compare] for the row object [student]. *)
Fixpoint compare_student (changes student : loc) (custom_field : list loc)
    (e_pos c_pos es_pos cs_pos : Z) : M heap unit :=
  match custom_field with
  | [] => ret tt
  | c_student :: rest =>
      s_fields <- read_row student;;
      sid <- lift (getitem s_fields es_pos);;
      c_fields <- read_row c_student;;
      cid <- lift (getitem c_fields cs_pos);;
      if String.eqb sid cid then
        sdate <- lift (getitem s_fields e_pos);;
        cdate <- lift (getitem c_fields c_pos);;
        if negb (String.eqb sdate cdate) then
          id <- lift (getitem s_fields es_pos);;
          date <- lift (getitem s_fields e_pos);;
          changed_student <- alloc (Row [id; date]);;
          list_append changes changed_student
        else ret tt
      else compare_student changes student rest e_pos c_pos es_pos cs_pos
  end.

(** [compare(enrolment, custom_field, e_pos, c_pos, es_pos, cs_pos)] *)
Definition compare (enrolment custom_field : loc) (e_pos c_pos es_pos cs_pos : Z)
  : M heap loc :=
  changes <- alloc (RowList []);;
  e_items <- read_list enrolment;;
  c_items <- read_list custom_field;;
  for_each e_items (fun student =>
    compare_student changes student c_items e_pos c_pos es_pos cs_pos);;
  ret changes.

End Stages.

(** Between two stores, every object of the first outside [changed] is
    still there, unchanged, and no reference has been lost. *)
Definition keeps_except (changed : loc -> Prop) (h h' : heap) : Prop :=
  (length h <= length h')%nat /\
  forall (l : loc) (o : obj), ~ changed l -> h !! l = Some o -> h' !! l = Some o.

(** Only objects made since the store had [n] objects may change. *)
Definition keeps_old (n : nat) (h h' : heap) : Prop :=
  (n <= length h)%nat -> keeps_except (fun l => (n <= l)%nat) h h'.

(** A stage that is pure with respect to the list at [input]: when it
    returns, its result is a list object that did not exist before, and
    the input list and every row in it are as they were. *)
Definition pure_stage (input : loc) (m : M heap loc) : Prop :=
  forall (h h' : heap) (items : list loc) (res : loc),
    h !! input = Some (RowList items) ->
    m h = (Ok res, h') ->
    h !! res = None /\
    h' !! input = Some (RowList items) /\
    forall (l : loc) (fields : row),
      In l items -> h !! l = Some (Row fields) -> h' !! l = Some (Row fields).

(** A stage that changes nothing that existed before it ran. *)
Definition preserving_stage (m : M heap loc) : Prop :=
  forall (h h' : heap) (res : loc),
    m h = (Ok res, h') ->
    h !! res = None /\ keeps_except (fun _ => False) h h'.

(** A stage that updates the rows of its input in place: when it
    returns, its result is a new list object of the same rows as the
    input, the input list object is as it was, and so is every object
    that is not a row of the input; each row of the input is now
    [update] of what it was. *)
Definition updating_stage (update : row -> row -> Prop) (input : loc) (m : M heap loc)
  : Prop :=
  forall (h h' : heap) (items : list loc) (res : loc),
    h !! input = Some (RowList items) ->
    m h = (Ok res, h') ->
    h !! res = None /\
    h' !! res = Some (RowList items) /\
    h' !! input = Some (RowList items) /\
    keeps_except (fun l => In l items) h h' /\
    forall (l : loc) (fields : row),
      In l items -> h !! l = Some (Row fields) ->
      exists fields' : row, h' !! l = Some (Row fields') /\ update fields fields'.

(** The row has gained fields at its end. *)
Definition extended (fields fields' : row) : Prop :=
  exists extra : row, extra <> [] /\ fields' = fields ++ extra.

(** The row has the same columns, and only column [pos] may differ. *)
Definition overwritten_at (pos : Z) (fields fields' : row) : Prop :=
  length fields' = length fields /\
  forall n j : nat,
    norm_index (length fields) pos = Some n -> j <> n -> fields' !! j = fields !! j.

(** The references [locs] lead, in the store [h], to the rows [rows]. *)
Definition rows_at (h : heap) (locs : list loc) (rows : list row) : Prop :=
  Forall2 (fun l fields => h !! l = Some (Row fields)) locs rows.

(** A store of one list of one Enrolment Dates row, and one of one
    Custom Fields row. *)
Definition ed_store : heap :=
  [Row ["FitNZ0001"; "A Student"; "Personal Training (PT-01-ONL)"; "2020-06-15 00:00:00";
        "2021-06-15 00:00:00"];
   RowList [0%nat]].

Definition cf_store : heap :=
  [Row ["17"; "a"; "b";
        "FitNZ0001 Course Start Date: 15/06/2020 Course End Date: 15/06/2021"; "c"];
   RowList [0%nat]].

End Obj.

(** ** The workflow *)

(** [process_enrolment_dates] talks to the operator and the files, and
    passes list objects from stage to stage: it runs in a world and a
    store. *)
Section Workflow.
Local Open Scope st_scope.

Definition in_world {A : Type} (m : M World A) : M (World * list Obj.obj) A :=
  fun env =>
    match m (fst env) with
    | (r, w') => (r, (w', snd env))
    end.

Definition in_store {A : Type} (m : M (list Obj.obj) A) : M (World * list Obj.obj) A :=
  fun env =>
    match m (snd env) with
    | (r, h') => (r, (fst env, h'))
    end.

(** The rows that [load_data] has read are new row objects, and the
    list it returns is a new list object of them. *)
Fixpoint new_rows (rows : list row) : M (list Obj.obj) (list nat) :=
  match rows with
  | [] => ret []
  | r :: rest =>
      l <- Obj.alloc (Obj.Row r);;
      ls <- new_rows rest;;
      ret (l :: ls)
  end.

Definition new_list (rows : list row) : M (list Obj.obj) nat :=
  items <- new_rows rows;;
  Obj.alloc (Obj.RowList items).

(** The rows that a list object leads to, as the loops of
    [save_data_upload] find them. *)
Fixpoint read_rows_at (items : list nat) : M (list Obj.obj) (list row) :=
  match items with
  | [] => ret []
  | l :: rest =>
      r <- Obj.read_row l;;
      rs <- read_rows_at rest;;
      ret (r :: rs)
  end.

Definition read_all (l : nat) : M (list Obj.obj) (list row) :=
  items <- Obj.read_list l;;
  read_rows_at items.

(** [process_enrolment_dates()] *)
Definition process_enrolment_dates : M (World * list Obj.obj) unit :=
  let warnings := [nl +:+ "Processing Enrolment Dates Warnings:" +:+ nl] in
  let warnings_to_process := false in
  in_world (print (nl +:+ "Enrolment Dates data."));;
  let required_files := ["Enrolments (Learning Platform)"; "Custom Fields"] in
  in_world (confirm_files "Enrolment Dates Report" required_files);;
  ed_file_name <-
    in_world (input (nl +:+ "What is the name of the Enrolment Dates file? --> "));;
  loaded_ed <- in_world (load_data ed_file_name "ed");;
  raw_ed_data <- in_store (new_list (fst (fst loaded_ed)));;
  ed_data <- in_store (Obj.get_courses raw_ed_data 2);;
  ed_data <- in_store (Obj.clean_date ed_data 3);;
  ed_data <- in_store (Obj.clean_date ed_data 4);;
  cf_file_name <-
    in_world (input (nl +:+ "What is the name of the Custom Fields file? --> "));;
  loaded_cf <- in_world (load_data cf_file_name "cf");;
  raw_cf_data <- in_store (new_list (fst (fst loaded_cf)));;
  cf_data <- in_store (Obj.extract_students raw_cf_data 3);;
  cf_data <- in_store (Obj.add_student_id cf_data 3);;
  cf_data <- in_store (Obj.add_start_date cf_data 3);;
  cf_data <- in_store (Obj.add_end_date cf_data 3);;
  cf_data <- in_store (Obj.strip_cf_data cf_data);;
  start_change <- in_store (Obj.compare ed_data cf_data 3 1 0 0);;
  end_change <- in_store (Obj.compare ed_data cf_data 4 2 0 0);;
  let headings := "Student ID,Start Date" in
  start_rows <- in_store (read_all start_change);;
  in_world (save_data_upload start_rows headings "Start_Changes_");;
  let headings := "Student ID,End Date" in
  end_rows <- in_store (read_all end_change);;
  in_world (save_data_upload end_rows headings "End_Changes_");;
  in_world (process_warning_log warnings warnings_to_process).

End Workflow.

(** ** Vocabulary of the statements *)

(** [sub] occurs in [s] at position [n]. *)
Definition occurs_at (sub s : string) (n : nat) : Prop :=
  substring n (String.length sub) s = sub.

(** [n] is the position of the first occurrence of [sub] in [s]. *)
Definition first_occurrence (sub s : string) (n : nat) : Prop :=
  occurs_at sub s n /\ forall p : nat, (p < n)%nat -> ~ occurs_at sub s p.

(** Every character of [s] passes the test [f]. *)
Fixpoint str_forall (f : ascii -> bool) (s : string) : bool :=
  match s with
  | EmptyString => true
  | String c s' => f c && str_forall f s'
  end.

(** An ASCII text: every character is below 128.  Here a character of
    the model is a character of the Python [str], a width counts the
    same characters, and the only decimal digits are '0' to '9'. *)
Definition ascii_text (s : string) : Prop :=
  str_forall (fun c => (nat_of_ascii c <? 128)%nat) s = true.

Definition no_digit (s : string) : Prop :=
  str_forall (fun c => negb (is_digit c)) s = true.

Definition no_slash (s : string) : Prop :=
  str_forall (fun c => negb (Ascii.eqb c "/")) s = true.

Definition starts_with_digit (s : string) : Prop :=
  match s with
  | EmptyString => False
  | String c _ => is_digit c = true
  end.

(** The value of a column that is known to exist. *)
Definition field (r : row) (i : Z) : string :=
  match getitem r i with
  | Ok v => v
  | Raise _ => ""
  end.

Definition has_col (r : row) (i : Z) : Prop :=
  exists v : string, getitem r i = Ok v.

(** The ids of a primary and a secondary row are equal. *)
Definition same_id (es_pos cs_pos : Z) (student c_student : row) : bool :=
  String.eqb (field student es_pos) (field c_student cs_pos).

(** The matcher in the words of its description: for a primary row, the
    first secondary row of the same id is found; when found and the
    dates differ, a change record of the primary id and date is
    emitted; when found and equal, or not found, nothing is. *)
Definition diff_row (secondary : list row) (e_pos c_pos es_pos cs_pos : Z) (student : row)
  : list row :=
  match List.find (same_id es_pos cs_pos student) secondary with
  | Some c_student =>
      if String.eqb (field student e_pos) (field c_student c_pos) then []
      else [[field student es_pos; field student e_pos]]
  | None => []
  end.

Definition diff_by_id (primary secondary : list row) (e_pos c_pos es_pos cs_pos : Z)
  : list row :=
  flat_map (diff_row secondary e_pos c_pos es_pos cs_pos) primary.

(** The content of a changes file in the words of its description: the
    header line, then one line per change record, its fields joined by
    commas. *)
Definition upload_content (headings : string) (i_data : list row) : string :=
  headings +:+ nl +:+
  String.concat "" (map (fun item => String.concat "," item +:+ nl) i_data).

(** A record whose first field exists and is not empty. *)
Definition first_nonempty (r : row) : bool :=
  match r with
  | [] => false
  | first :: _ => negb (String.eqb first "")
  end.

(** Some row of [secondary] has the id of [student]. *)
Definition has_match (secondary : list row) (es_pos cs_pos : Z) (student : row) : Prop :=
  exists (c_student : row) (id : string),
    In c_student secondary /\
    getitem student es_pos = Ok id /\
    getitem c_student cs_pos = Ok id.

(** A row of the Enrolment Dates report in which the Course, the
    Enrolment Date or the Expiry Date is empty. *)
Definition missing_required (student : row) : Prop :=
  getitem student 2 = Ok "" \/ getitem student 3 = Ok "" \/ getitem student 4 = Ok "".

(** A computation that returns from every world and reads no input. *)
Definition returns_quietly {A : Type} (m : M World A) : Prop :=
  forall w : World, exists (a : A) (w' : World),
    m w = (Ok a, w') /\ stdin w' = stdin w /\ csv_files w' = csv_files w.

(** ** Sample data *)

Definition sample_world : World :=
  {| stdin := ["ed"; ""]; stdout := []; csv_files := []; locked := ["Locked_200101-000000.txt"];
     disk := []; clock := fun _ => "200101-000000"; ticks := 0 |}.

(** An Enrolment Dates file with one record, whose Student Name is
    empty and whose other columns are filled. *)
Definition ed_missing_name : list row :=
  [["FitNZ0001"; ""; "Personal Training (PT-01-ONL)"; "2020-06-15 00:00:00";
    "2021-06-15 00:00:00"]].

(** A world with one readable file, "enrolments.csv", of the given
    records, and an operator who answers one prompt. *)
Definition world_with (recs : list row) : World :=
  {| stdin := [""];
     stdout := [];
     csv_files :=
       [("enrolments.csv",
         {| header_line := "Student ID,Student,Course,Enrolment Date,Expiry Date";
            records := recs |})];
     locked := [];
     disk := [];
     clock := fun _ => "200101-000000";
     ticks := 0 |}.

Definition ed_world : World := world_with ed_missing_name.

(** Custom Fields records, of which the second has an empty first field. *)
Definition cf_records : list row :=
  [["17"; "a"; "b"; "FitNZ0001 Course Start Date: 15/06/2020"];
   [""; "a"; "b"; "no id"];
   ["19"; "a"; "b"; "FitNZ0003"]].

(** An Enrolment Dates record without a Course. *)
Definition ed_missing_course : list row :=
  [["FitNZ0002"; "A Student"; ""; "2020-06-15 00:00:00"; "2021-06-15 00:00:00"]].

(** ** Vocabulary of the further properties *)

Definition no_newline (s : string) : Prop :=
  str_forall (fun c => negb (Ascii.eqb c nl_char)) s = true.

Definition no_paren (s : string) : Prop :=
  str_forall (fun c => negb (Ascii.eqb c "(")) s = true.

(** A change record that a pair of rows accounts for: a primary row and
    a secondary row of the same id whose dates differ, the record being
    the id and date of the primary row. *)
Definition accounted_for (primary secondary : list row) (e_pos c_pos es_pos cs_pos : Z)
    (record : row) : Prop :=
  exists (student c_student : row) (id date cdate : string),
    In student primary /\ In c_student secondary /\
    getitem student es_pos = Ok id /\ getitem c_student cs_pos = Ok id /\
    getitem student e_pos = Ok date /\ getitem c_student c_pos = Ok cdate /\
    date <> cdate /\ record = [id; date].

(** What [compare] may report for one primary row: nothing, or one
    change record, which this row and a secondary row account for. *)
Definition reported (secondary : list row) (e_pos c_pos es_pos cs_pos : Z)
    (student : row) (part : list row) : Prop :=
  part = [] \/
  exists record : row,
    part = [record] /\
    accounted_for [student] secondary e_pos c_pos es_pos cs_pos record.

(** The messages that [check_ed] has for one row: the warning for an
    empty Student Name, and the errors for an empty Course, Enrolment
    Date and Expiry Date, in this order. *)
Definition row_warnings (student : row) : list string :=
  if String.eqb (field student 1) "" then
    ["Student Name is missing for student with Student ID " +:+ field student 0]
  else [].

Definition row_errors (student : row) : list string :=
  (if String.eqb (field student 2) "" then
     ["Course is missing for student with Student ID " +:+ field student 0]
   else []) ++
  (if String.eqb (field student 3) "" then
     ["Enrolment Date is missing for student with Student ID " +:+ field student 0]
   else []) ++
  (if String.eqb (field student 4) "" then
     ["Expiry Date is missing for student with Student ID " +:+ field student 0]
   else []).

(** The lines of a log, each closed by a newline. *)
Definition log_lines (lines : list string) : string :=
  String.concat "" (map (fun line => line +:+ nl) lines).

(** A line that is neither of the two answers. *)
Definition not_an_answer (line : string) : Prop := line <> "y" /\ line <> "n".

(** Two worlds with the same files and clock: only the console differs. *)
Definition same_files (w w' : World) : Prop :=
  csv_files w' = csv_files w /\ locked w' = locked w /\ disk w' = disk w /\
  clock w' = clock w /\ ticks w' = ticks w.

(** ** Rows in the store *)

(** The list object at [l] is a list of the distinct row objects
    [items], whose fields are [rows]. *)
Definition holds (h : list Obj.obj) (l : nat) (items : list nat) (rows : list row) : Prop :=
  h !! l = Some (Obj.RowList items) /\ List.NoDup items /\ Obj.rows_at h items rows.

(** Every object of [h] that is not among [changed] is the same in [h']. *)
Definition unchanged_outside (changed : list nat) (h h' : list Obj.obj) : Prop :=
  (length h <= length h')%nat /\
  forall x : nat, (x < length h)%nat -> ~ In x changed -> h' !! x = h !! x.

Definition value_of (r : result string) : string :=
  match r with
  | Ok v => v
  | Raise _ => ""
  end.

(** The rows that the two filters keep. *)
Definition has_marker (pos : Z) (r : row) : bool := str_contains "FitNZ" (field r pos).

Definition has_course_code (pos : Z) (r : row) : bool :=
  re_search course_code_pattern (field r pos).

(** What the updating stages make of a row. *)
Definition with_student_id (pos : Z) (r : row) : row :=
  r ++ [value_of (extract_student_id r pos)].

Definition with_course_date (pos : Z) (label : string) (r : row) : row :=
  r ++ [value_of (extract_course_date r pos label)].

Definition cleaned (pos : Z) (r : row) : row :=
  match norm_index (length r) pos with
  | Some n => <[n := extract_date (field r pos)]> r
  | None => r
  end.

(** The three columns that [strip_cf_data] takes. *)
Definition stripped (r : row) : row := [field r 5; field r 6; field r 7].

(** A store of one list of two Custom Fields rows, of which the second
    has no student id, and one of two Enrolment Dates rows, of which
    the second has no course code. *)
Definition cf_row_marked : row :=
  ["17"; "a"; "b"; "FitNZ0001 Course Start Date: 15/06/2020 Course End Date: 15/06/2021"; "c"].

Definition cf_row_plain : row := ["18"; "a"; "b"; "no id here"; "c"].

Definition ed_row_coded : row :=
  ["FitNZ0001"; "A Student"; "Personal Training (PT-01-ONL)"; "2020-06-15 00:00:00";
   "2021-06-15 00:00:00"].

Definition ed_row_plain : row :=
  ["FitNZ0002"; "B Student"; "Induction"; "2020-07-01 00:00:00"; "2021-07-01 00:00:00"].

Definition cf_two_store : list Obj.obj :=
  [Obj.Row cf_row_marked; Obj.Row cf_row_plain; Obj.RowList [0%nat; 1%nat]].

Definition ed_two_store : list Obj.obj :=
  [Obj.Row ed_row_coded; Obj.Row ed_row_plain; Obj.RowList [0%nat; 1%nat]].

(** A world in which the workflow finds its two reports: the operator
    presses enter and names them.  The Custom Fields row of the student
    has the start date of the Enrolment Dates row and another end
    date. *)
Definition cf_row_late : row :=
  ["17"; "a"; "b"; "FitNZ0001 Course Start Date: 15/06/2020 Course End Date: 16/06/2021"; "c"].

Definition flow_world : World :=
  {| stdin := [""; "enrolments"; "custom"];
     stdout := [];
     csv_files :=
       [("enrolments.csv",
         {| header_line := "Student ID,Student,Course,Enrolment Date,Expiry Date";
            records := [ed_row_coded; ed_row_plain] |});
        ("custom.csv",
         {| header_line := "Id,First,Second,Details,Last";
            records := [cf_row_late; cf_row_plain] |})];
     locked := [];
     disk := [];
     clock := fun _ => "200101-000000";
     ticks := 0 |}.

(** ** The records of the workflow *)

(** What the stages of the workflow make of a Custom Fields row: the
    student id and the two dates are appended, and the columns 5, 6 and
    7 of the result are taken. *)
Definition cf_student (r : row) : row :=
  stripped (with_course_date 3 "Course End Date"
              (with_course_date 3 "Course Start Date" (with_student_id 3 r))).

Definition cf_students (rows : list row) : list row :=
  map cf_student (List.filter (has_marker 3) rows).

(** And of the Enrolment Dates rows. *)
Definition ed_students (rows : list row) : list row :=
  map (cleaned 4) (map (cleaned 3) (List.filter (has_course_code 2) rows)).

(** A Custom Fields row of at least five columns from whose column 3
    the student id and the two dates can be taken. *)
Definition cf_ready (r : row) : Prop :=
  (5 <= length r)%nat /\
  (exists v : string, extract_student_id r 3 = Ok v) /\
  (exists v : string, extract_course_date r 3 "Course Start Date" = Ok v) /\
  (exists v : string, extract_course_date r 3 "Course End Date" = Ok v).

(** The records of a report that [load_data] keeps. *)
Definition loaded (file : csv_file) : list row :=
  List.filter first_nonempty (records file).

(** * Properties *)

(** ** Text *)

#[local] Arguments String.append !s1 s2 : simpl nomatch.

Lemma str_length_app (a b : string) :
  String.length (a +:+ b) = (String.length a + String.length b)%nat.
Proof.
  induction a as [|c a IH]; simpl; [reflexivity|].
  now rewrite IH.
Qed.

Lemma str_app_assoc (a b c : string) : (a +:+ b) +:+ c = a +:+ (b +:+ c).
Proof.
  induction a as [|x a IH]; simpl; [reflexivity|].
  now rewrite IH.
Qed.

Lemma str_app_empty_r (a : string) : a +:+ "" = a.
Proof.
  induction a as [|x a IH]; simpl; [reflexivity|].
  now rewrite IH.
Qed.

Lemma substring_past_end (s : string) (n m : nat) :
  (String.length s <= n)%nat -> substring n m s = "".
Proof.
  revert n m.
  induction s as [|c s IH]; intros n m Hn.
  - destruct n, m; reflexivity.
  - destruct n as [|n]; simpl in Hn; [lia|].
    simpl. apply IH. lia.
Qed.

Lemma substring_clamp (s : string) (n m : nat) :
  (String.length s <= n + m)%nat ->
  substring n m s = substring n (String.length s - n) s.
Proof.
  revert n m.
  induction s as [|c s IH]; intros n m Hn.
  - destruct n, m; reflexivity.
  - destruct n as [|n].
    + destruct m as [|m]; simpl in Hn; [lia|].
      simpl. f_equal.
      rewrite (IH 0%nat m) by (simpl; lia).
      now rewrite Nat.sub_0_r.
    + simpl. apply IH. simpl in Hn. lia.
Qed.

Lemma substring_app_take (a b : string) :
  substring 0 (String.length a) (a +:+ b) = a.
Proof.
  induction a as [|c a IH]; simpl.
  - destruct b; reflexivity.
  - now rewrite IH.
Qed.

Lemma substring_app_skip (a b : string) (n m : nat) :
  substring (String.length a + n) m (a +:+ b) = substring n m b.
Proof.
  induction a as [|c a IH]; simpl; [reflexivity|].
  exact IH.
Qed.

Lemma substring_whole (s : string) : substring 0 (String.length s) s = s.
Proof.
  rewrite <- (str_app_empty_r s) at 2.
  apply substring_app_take.
Qed.

(** A slice with bounds counted from the start is the substring between
    them. *)
Lemma slice_between (s : string) (lo hi : Z) :
  0 <= lo -> 0 <= hi ->
  slice s (Some lo) (Some hi) = substring (Z.to_nat lo) (Z.to_nat hi - Z.to_nat lo) s.
Proof.
  intros Hlo Hhi. unfold slice, slice_bound.
  destruct (Z.ltb_spec lo 0) as [?|_]; [lia|].
  destruct (Z.ltb_spec hi 0) as [?|_]; [lia|].
  set (len := String.length s).
  destruct (Z.le_gt_cases (Z.of_nat len) lo) as [Hout|Hin].
  - rewrite (substring_past_end s (Z.to_nat lo)) by (fold len; lia).
    apply substring_past_end. fold len. lia.
  - rewrite Z.min_l by lia.
    destruct (Z.le_gt_cases hi (Z.of_nat len)) as [Hh|Hh].
    + rewrite Z.min_l by lia. f_equal. lia.
    + rewrite Z.min_r by lia.
      rewrite (substring_clamp s (Z.to_nat lo) (Z.to_nat hi - Z.to_nat lo))
        by (fold len; lia).
      f_equal. fold len. lia.
Qed.

Lemma slice_upto (s : string) (hi : Z) :
  0 <= hi -> slice s None (Some hi) = substring 0 (Z.to_nat hi) s.
Proof.
  intros Hhi. unfold slice, slice_bound.
  destruct (Z.ltb_spec hi 0) as [?|_]; [lia|].
  set (len := String.length s).
  destruct (Z.le_gt_cases hi (Z.of_nat len)) as [Hh|Hh].
  - rewrite Z.min_l by lia. f_equal. lia.
  - rewrite Z.min_r by lia.
    rewrite (substring_clamp s 0 (Z.to_nat hi)) by (fold len; lia).
    f_equal. fold len. lia.
Qed.

Lemma slice_from (s : string) (lo : Z) :
  0 <= lo ->
  slice s (Some lo) None = substring (Z.to_nat lo) (String.length s - Z.to_nat lo) s.
Proof.
  intros Hlo. unfold slice, slice_bound.
  destruct (Z.ltb_spec lo 0) as [?|_]; [lia|].
  set (len := String.length s).
  destruct (Z.le_gt_cases (Z.of_nat len) lo) as [Hout|Hin].
  - rewrite (substring_past_end s (Z.to_nat lo)) by (fold len; lia).
    apply substring_past_end. fold len. lia.
  - rewrite Z.min_l by lia. f_equal. lia.
Qed.

(** Dropping the text before a position of an append. *)
Lemma slice_from_app (a b : string) :
  slice (a +:+ b) (Some (Z.of_nat (String.length a))) None = b.
Proof.
  rewrite slice_from by lia.
  rewrite Nat2Z.id, str_length_app.
  replace (String.length a + String.length b - String.length a)%nat
    with (String.length b) by lia.
  rewrite <- (Nat.add_0_r (String.length a)) at 1.
  rewrite substring_app_skip. apply substring_whole.
Qed.

Lemma slice_upto_app (a b : string) :
  slice (a +:+ b) None (Some (Z.of_nat (String.length a))) = a.
Proof.
  rewrite slice_upto by lia.
  rewrite Nat2Z.id. apply substring_app_take.
Qed.

(** [line[:-1]] removes a final character. *)
Lemma slice_drop_last (s : string) (c : ascii) :
  slice (s +:+ String c "") None (Some (-1)) = s.
Proof.
  unfold slice, slice_bound.
  change (-1 <? 0) with true. cbv iota.
  rewrite str_length_app. simpl String.length.
  rewrite Z.max_r by lia.
  replace (Z.to_nat (Z.of_nat (String.length s + 1) + -1 - 0)) with (String.length s) by lia.
  apply substring_app_take.
Qed.

Lemma slice_empty (lo hi : option Z) : slice "" lo hi = "".
Proof.
  unfold slice. apply substring_past_end. simpl. lia.
Qed.

(** [find] returns the position of the first occurrence. *)
Lemma str_find_first (sub s : string) (n : nat) :
  first_occurrence sub s n -> str_find sub s = Z.of_nat n.
Proof.
  intros [Hocc Hfirst]. unfold str_find.
  destruct (index 0 sub s) as [m|] eqn:Hidx.
  - f_equal.
    pose proof (index_correct1 _ _ _ _ Hidx) as Hm.
    pose proof (index_correct2 _ _ _ _ Hidx) as Hbefore.
    destruct (Nat.lt_trichotomy m n) as [Hlt|[Heq|Hgt]]; [|exact Heq|].
    + exfalso. exact (Hfirst m Hlt Hm).
    + exfalso. apply (Hbefore n); [lia|exact Hgt|exact Hocc].
  - exfalso.
    destruct sub as [|c sub].
    + apply index_correct4 in Hidx. lia.
    + apply (index_correct3 _ n _ _ Hidx); [discriminate|lia|exact Hocc].
Qed.

Lemma occurs_at_app (pre sub post : string) :
  occurs_at sub (pre +:+ sub +:+ post) (String.length pre).
Proof.
  unfold occurs_at.
  rewrite <- (Nat.add_0_r (String.length pre)).
  rewrite substring_app_skip. apply substring_app_take.
Qed.

(** The first [c] of a text that starts with a part free of [c]. *)
Lemma str_find_char (c : ascii) (a b : string) :
  str_forall (fun d => negb (Ascii.eqb d c)) a = true ->
  str_find (String c "") (a +:+ String c b) = Z.of_nat (String.length a).
Proof.
  intros Ha. unfold str_find.
  assert (index 0 (String c "") (a +:+ String c b) = Some (String.length a)) as ->;
    [|reflexivity].
  induction a as [|d a IH].
  - simpl.
    destruct (ascii_dec c c) as [_|Hne]; [|congruence].
    destruct b; reflexivity.
  - simpl in Ha. apply andb_prop in Ha as [Hd Ha].
    apply negb_true_iff, Ascii.eqb_neq in Hd.
    simpl. destruct (ascii_dec c d) as [->|_]; [congruence|].
    now rewrite (IH Ha).
Qed.

Lemma search_digit_app (gap rest : string) :
  no_digit gap -> starts_with_digit rest ->
  search_digit (gap +:+ rest) = Some (String.length gap).
Proof.
  unfold no_digit. intros Hgap Hrest.
  induction gap as [|c gap IH].
  - destruct rest as [|d rest]; [contradiction|].
    simpl in *. now rewrite Hrest.
  - simpl in Hgap. apply andb_prop in Hgap as [Hc Hgap].
    apply negb_true_iff in Hc.
    simpl. rewrite Hc. now rewrite (IH Hgap).
Qed.

(** ** Column extractors *)

Example extract_date_iso : extract_date "2020-06-15T00:00:00" = "15/06/2020".
Proof. reflexivity. Qed.

Example extract_date_short : extract_date "2020-06" = "/06/2020".
Proof. reflexivity. Qed.

(** C6: for every text whose first ten characters are a four-character
    year, a separator, a two-character month, a separator and a
    two-character day ("YYYY-MM-DD"), all of them ASCII characters as
    the digits of a date are, [extract_date] returns the day, the month
    and the year in this order, separated by '/'.  What follows the
    first ten characters is any text. *)
Theorem extract_date_reorders (year month day rest : string) :
  ascii_text year -> ascii_text month -> ascii_text day ->
  String.length year = 4%nat ->
  String.length month = 2%nat ->
  String.length day = 2%nat ->
  extract_date (year +:+ "-" +:+ month +:+ "-" +:+ day +:+ rest)
  = day +:+ "/" +:+ month +:+ "/" +:+ year.
Proof.
  intros _ _ _ Hy Hm Hd.
  destruct year as [|y1 [|y2 [|y3 [|y4 [|? ?]]]]]; try discriminate Hy.
  destruct month as [|m1 [|m2 [|? ?]]]; try discriminate Hm.
  destruct day as [|d1 [|d2 [|? ?]]]; try discriminate Hd.
  unfold extract_date.
  rewrite slice_upto by lia.
  rewrite !slice_between by lia.
  destruct rest; reflexivity.
Qed.

Lemma extract_date_reorders_witness :
  extract_date ("2020" +:+ "-" +:+ "06" +:+ "-" +:+ "15" +:+ "T00:00:00")
  = "15" +:+ "/" +:+ "06" +:+ "/" +:+ "2020".
Proof.
  apply (extract_date_reorders "2020" "06" "15" "T00:00:00"); reflexivity.
Defined.

Example extract_student_id_ref :
  extract_student_id ["a"; "b"; "c"; "ref FitNZ1234 other"] 3 = Ok "FitNZ1234".
Proof. reflexivity. Qed.

Example extract_student_id_no_marker :
  extract_student_id ["a"; "b"; "c"; "no marker in this text"] 3 = Ok "".
Proof. reflexivity. Qed.

(** C9: for every text in which the marker "FitNZ" occurs, first at the
    end of [pre], and is followed by at least four characters, of which
    the first four are ASCII characters, [extract_student_id] returns
    the marker and the four characters after it, nine characters in
    all.  What precedes the marker and what follows the four characters
    is any text. *)
Theorem extract_student_id_marker (student : row) (data_pos : Z)
    (pre four rest : string) :
  getitem student data_pos = Ok (pre +:+ "FitNZ" +:+ four +:+ rest) ->
  (forall p : nat, (p < String.length pre)%nat ->
     ~ occurs_at "FitNZ" (pre +:+ "FitNZ" +:+ four +:+ rest) p) ->
  ascii_text four ->
  String.length four = 4%nat ->
  extract_student_id student data_pos = Ok ("FitNZ" +:+ four)
  /\ String.length ("FitNZ" +:+ four) = 9%nat.
Proof.
  intros Hget Hfirst _ Hfour.
  split; [|rewrite str_length_app, Hfour; reflexivity].
  unfold extract_student_id. rewrite Hget. simpl res_bind.
  rewrite (str_find_first "FitNZ" _ (String.length pre)).
  2:{ split; [|exact Hfirst].
      apply (occurs_at_app pre "FitNZ" (four +:+ rest)). }
  f_equal.
  rewrite slice_between by lia.
  replace (Z.to_nat (Z.of_nat (String.length pre) + 9) - Z.to_nat (Z.of_nat (String.length pre)))%nat
    with 9%nat by lia.
  rewrite Nat2Z.id.
  rewrite <- (Nat.add_0_r (String.length pre)).
  rewrite substring_app_skip.
  destruct four as [|f1 [|f2 [|f3 [|f4 [|? ?]]]]]; try discriminate Hfour.
  destruct rest; reflexivity.
Qed.

Lemma extract_student_id_marker_witness :
  extract_student_id ["a"; "b"; "c"; "ref FitNZ1234 other"] 3 = Ok ("FitNZ" +:+ "1234")
  /\ String.length ("FitNZ" +:+ "1234") = 9%nat.
Proof.
  apply (extract_student_id_marker ["a"; "b"; "c"; "ref FitNZ1234 other"] 3
           "ref " "1234" " other").
  - reflexivity.
  - intros p Hp. unfold occurs_at.
    simpl in Hp.
    destruct p as [|[|[|[|p]]]]; [discriminate ..|lia].
  - reflexivity.
  - reflexivity.
Defined.

Example extract_course_date_start :
  extract_course_date ["x"; "... Course Start Date: 03/04/2021 ..."] 1 "Course Start Date"
  = Ok "03/04/2021".
Proof. reflexivity. Qed.

Example extract_course_date_no_digit :
  extract_course_date ["x"; "Course Start Date: unknown"] 1 "Course Start Date"
  = Raise AttributeError.
Proof. reflexivity. Qed.

(** C5: for every text in which the label occurs, first at the end of
    [pre], in which the first digit at or after that position starts a
    part of the shape day '/' month '/' year, where day and month hold
    no '/' and the year is four characters, [extract_course_date]
    returns day + '/' + month + '/' + year.  The text from the label up
    to the first digit, [gap], and the year are ASCII text: there the
    digits are '0' to '9' and four characters are four 8-bit
    characters.  What precedes the label, the day, the month and what
    follows the year are any text. *)
Theorem extract_course_date_labeled (student : row) (data_pos : Z)
    (label pre gap day month year tail : string) :
  getitem student data_pos
  = Ok (pre +:+ gap +:+ day +:+ "/" +:+ month +:+ "/" +:+ year +:+ tail) ->
  first_occurrence label
    (pre +:+ gap +:+ day +:+ "/" +:+ month +:+ "/" +:+ year +:+ tail)
    (String.length pre) ->
  ascii_text gap ->
  no_digit gap ->
  starts_with_digit day ->
  no_slash day ->
  no_slash month ->
  ascii_text year ->
  String.length year = 4%nat ->
  extract_course_date student data_pos label
  = Ok (day +:+ "/" +:+ month +:+ "/" +:+ year).
Proof.
  intros Hget Hlabel _ Hgap Hdigit Hday Hmonth _ Hyear.
  unfold extract_course_date. rewrite Hget. unfold res_bind.
  rewrite (str_find_first label _ (String.length pre) Hlabel).
  rewrite slice_from_app.
  rewrite (search_digit_app gap);
    [|exact Hgap|destruct day; [contradiction|exact Hdigit]].
  rewrite slice_from_app.
  set (after_day := month +:+ "/" +:+ year +:+ tail).
  assert (str_find "/" (day +:+ "/" +:+ after_day) = Z.of_nat (String.length day))
    as Hfirst by exact (str_find_char "/" day after_day Hday).
  rewrite !Hfirst, slice_upto_app.
  assert (slice (day +:+ "/" +:+ after_day) (Some (Z.of_nat (String.length day) + 1)) None
          = after_day) as Hrest.
  { rewrite <- (str_app_assoc day "/" after_day).
    replace (Z.of_nat (String.length day) + 1)
      with (Z.of_nat (String.length (day +:+ "/")))
      by (rewrite str_length_app; simpl; lia).
    apply slice_from_app. }
  rewrite !Hrest. subst after_day.
  set (after_month := year +:+ tail).
  assert (str_find "/" (month +:+ "/" +:+ after_month) = Z.of_nat (String.length month))
    as Hsecond by exact (str_find_char "/" month after_month Hmonth).
  rewrite !Hsecond, slice_upto_app.
  rewrite slice_between by lia.
  replace (Z.to_nat (Z.of_nat (String.length month) + 5)
           - Z.to_nat (Z.of_nat (String.length month) + 1))%nat with 4%nat by lia.
  replace (Z.to_nat (Z.of_nat (String.length month) + 1))
    with (String.length month + 1)%nat by lia.
  rewrite substring_app_skip. subst after_month.
  destruct year as [|y1 [|y2 [|y3 [|y4 [|? ?]]]]]; try discriminate Hyear.
  destruct tail; reflexivity.
Qed.

Lemma extract_course_date_labeled_witness :
  extract_course_date ["x"; "... Course Start Date: 03/04/2021 ..."] 1 "Course Start Date"
  = Ok ("03" +:+ "/" +:+ "04" +:+ "/" +:+ "2021").
Proof.
  apply (extract_course_date_labeled ["x"; "... Course Start Date: 03/04/2021 ..."] 1
           "Course Start Date" "... " "Course Start Date: " "03" "04" "2021" " ...").
  - reflexivity.
  - split; [reflexivity|].
    intros p Hp. unfold occurs_at. simpl in Hp.
    destruct p as [|[|[|[|p]]]]; [discriminate ..|lia].
  - reflexivity.
  - reflexivity.
  - reflexivity.
  - reflexivity.
  - reflexivity.
  - reflexivity.
  - reflexivity.
Defined.

(** ** Matcher *)

Lemma getitem_field (r : row) (i : Z) (v : string) :
  getitem r i = Ok v -> field r i = v.
Proof. unfold field. now intros ->. Qed.

Example compare_differs :
  compare [["1"; "01/01/2020"]] [["1"; "02/01/2020"]] 1 1 0 0 = Ok [["1"; "01/01/2020"]].
Proof. reflexivity. Qed.

Example compare_identical :
  compare [["1"; "01/01/2020"]] [["1"; "01/01/2020"]] 1 1 0 0 = Ok [].
Proof. reflexivity. Qed.

Example compare_disjoint :
  compare [["1"; "01/01/2020"]] [["2"; "02/01/2020"]] 1 1 0 0 = Ok [].
Proof. reflexivity. Qed.

Example compare_first_match_equal :
  compare [["1"; "01/01/2020"]] [["1"; "01/01/2020"]; ["1"; "02/01/2020"]] 1 1 0 0 = Ok [].
Proof. reflexivity. Qed.

Example compare_short_row :
  compare [["1"; "01/01/2020"]] [[]; ["1"; "02/01/2020"]] 1 1 0 0 = Raise IndexError.
Proof. reflexivity. Qed.

Section MatcherFacts.
Variables e_pos c_pos es_pos cs_pos : Z.

Lemma compare_student_diff_row (student : row) (secondary changes : list row) :
  has_col student es_pos -> has_col student e_pos ->
  Forall (fun r => has_col r cs_pos /\ has_col r c_pos) secondary ->
  compare_student student secondary e_pos c_pos es_pos cs_pos changes
  = Ok (changes ++ diff_row secondary e_pos c_pos es_pos cs_pos student).
Proof.
  intros [sid Hsid] [sdate Hsdate] Hsec.
  induction Hsec as [|c_student rest [[cid Hcid] [cdate Hcdate]] _ IH].
  - simpl. now rewrite app_nil_r.
  - unfold diff_row. simpl. unfold same_id.
    rewrite Hsid, Hcid. simpl.
    rewrite (getitem_field _ _ _ Hsid), (getitem_field _ _ _ Hcid).
    destruct (String.eqb sid cid).
    + rewrite Hsdate, Hcdate. simpl.
      rewrite (getitem_field _ _ _ Hsdate), (getitem_field _ _ _ Hcdate).
      destruct (String.eqb sdate cdate); simpl.
      * now rewrite app_nil_r.
      * reflexivity.
    + rewrite IH. unfold diff_row, same_id.
      now rewrite (getitem_field _ _ _ Hsid).
Qed.

Lemma compare_loop_diff_by_id (primary secondary changes : list row) :
  Forall (fun r => has_col r es_pos /\ has_col r e_pos) primary ->
  Forall (fun r => has_col r cs_pos /\ has_col r c_pos) secondary ->
  compare_loop primary secondary e_pos c_pos es_pos cs_pos changes
  = Ok (changes ++ diff_by_id primary secondary e_pos c_pos es_pos cs_pos).
Proof.
  intros Hprim Hsec. revert changes.
  induction Hprim as [|student rest [Hid Hdate] _ IH]; intros changes.
  - simpl. now rewrite app_nil_r.
  - simpl. rewrite compare_student_diff_row by assumption.
    simpl. rewrite IH. now rewrite app_assoc.
Qed.

End MatcherFacts.

(** C1: on rows that hold the id and date columns, [compare] returns,
    for each primary row in order, what the first secondary row of the
    same id decides: a change record of the primary id and date when
    the dates differ, nothing when they are equal, and nothing when no
    secondary row has that id.  In particular a primary row "1" of date
    01/01/2020 against a secondary row "1" of date 02/01/2020 gives the
    one record of "1" and 01/01/2020, and equal dates or disjoint ids
    give the empty list. *)
Theorem compare_diff_by_id (primary secondary : list row) (e_pos c_pos es_pos cs_pos : Z) :
  Forall (fun r => has_col r es_pos /\ has_col r e_pos) primary ->
  Forall (fun r => has_col r cs_pos /\ has_col r c_pos) secondary ->
  compare primary secondary e_pos c_pos es_pos cs_pos
  = Ok (diff_by_id primary secondary e_pos c_pos es_pos cs_pos)
  /\ compare [["1"; "01/01/2020"]] [["1"; "02/01/2020"]] 1 1 0 0
     = Ok [["1"; "01/01/2020"]]
  /\ compare [["1"; "01/01/2020"]] [["1"; "01/01/2020"]] 1 1 0 0 = Ok []
  /\ compare [["1"; "01/01/2020"]] [["2"; "02/01/2020"]] 1 1 0 0 = Ok [].
Proof.
  intros Hprim Hsec.
  split; [|repeat split; reflexivity].
  unfold compare.
  now rewrite compare_loop_diff_by_id.
Qed.

Lemma compare_diff_by_id_witness :
  compare [["1"; "01/01/2020"]; ["2"; "05/05/2020"]; ["3"; "07/07/2020"]]
          [["2"; "05/05/2020"]; ["1"; "02/01/2020"]; ["1"; "01/01/2020"]] 1 1 0 0
  = Ok [["1"; "01/01/2020"]].
Proof.
  refine (proj1 (compare_diff_by_id
            [["1"; "01/01/2020"]; ["2"; "05/05/2020"]; ["3"; "07/07/2020"]]
            [["2"; "05/05/2020"]; ["1"; "02/01/2020"]; ["1"; "01/01/2020"]] 1 1 0 0 _ _)).
  - repeat constructor; eexists; reflexivity.
  - repeat constructor; eexists; reflexivity.
Defined.

Section FirstMatch.
Variables e_pos c_pos es_pos cs_pos : Z.

(** Once a row of the student's id has been met, the rows after it are
    not looked at. *)
Lemma compare_student_stops (student : row) (scanned post : list row) (changes : list row) :
  has_match scanned es_pos cs_pos student ->
  compare_student student (scanned ++ post) e_pos c_pos es_pos cs_pos changes
  = compare_student student scanned e_pos c_pos es_pos cs_pos changes.
Proof.
  intros (c & id & Hin & Hsid & Hcid).
  induction scanned as [|c' scanned IH]; [destruct Hin|].
  simpl. rewrite Hsid. simpl.
  destruct (getitem c' cs_pos) as [cid'|err] eqn:Hcid'; simpl; [|reflexivity].
  destruct (String.eqb_spec id cid') as [Heq|Hne]; [reflexivity|].
  apply IH.
  destruct Hin as [->|Hin]; [|exact Hin].
  congruence.
Qed.

Lemma compare_loop_stops (primary scanned post post' : list row) (changes : list row) :
  Forall (has_match scanned es_pos cs_pos) primary ->
  compare_loop primary (scanned ++ post) e_pos c_pos es_pos cs_pos changes
  = compare_loop primary (scanned ++ post') e_pos c_pos es_pos cs_pos changes.
Proof.
  intros Hprim. revert changes.
  induction Hprim as [|student rest Hmatch _ IH]; intros changes; [reflexivity|].
  simpl. rewrite !compare_student_stops by exact Hmatch.
  destruct (compare_student student scanned e_pos c_pos es_pos cs_pos changes);
    simpl; [apply IH|reflexivity].
Qed.

(** A row whose id differs from the student's is passed over. *)
Lemma compare_student_skips (student r : row) (sid rid : string)
    (before after : list row) (changes : list row) :
  getitem student es_pos = Ok sid ->
  getitem r cs_pos = Ok rid ->
  sid <> rid ->
  compare_student student (before ++ r :: after) e_pos c_pos es_pos cs_pos changes
  = compare_student student (before ++ after) e_pos c_pos es_pos cs_pos changes.
Proof.
  intros Hsid Hrid Hne.
  induction before as [|b before IH]; simpl.
  - rewrite Hsid, Hrid. simpl.
    now destruct (String.eqb_spec sid rid).
  - now rewrite IH.
Qed.

(** A later row with the id of an earlier one changes nothing. *)
Lemma compare_student_duplicate (student first dup : row) (id : string)
    (before between after : list row) (changes : list row) :
  getitem first cs_pos = Ok id ->
  getitem dup cs_pos = Ok id ->
  compare_student student (before ++ first :: between ++ dup :: after)
    e_pos c_pos es_pos cs_pos changes
  = compare_student student (before ++ first :: between ++ after)
      e_pos c_pos es_pos cs_pos changes.
Proof.
  intros Hfirst Hdup.
  induction before as [|b before IH]; simpl.
  - destruct (getitem student es_pos) as [sid|err] eqn:Hsid; simpl; [|reflexivity].
    rewrite Hfirst. simpl.
    destruct (String.eqb_spec sid id) as [Heq|Hne]; [reflexivity|].
    now apply (compare_student_skips student dup sid id).
  - now rewrite IH.
Qed.

Lemma compare_loop_duplicate (primary : list row) (first dup : row) (id : string)
    (before between after : list row) (changes : list row) :
  getitem first cs_pos = Ok id ->
  getitem dup cs_pos = Ok id ->
  compare_loop primary (before ++ first :: between ++ dup :: after)
    e_pos c_pos es_pos cs_pos changes
  = compare_loop primary (before ++ first :: between ++ after)
      e_pos c_pos es_pos cs_pos changes.
Proof.
  intros Hfirst Hdup. revert changes.
  induction primary as [|student rest IH]; intros changes; [reflexivity|].
  simpl. rewrite (compare_student_duplicate student first dup id) by assumption.
  destruct (compare_student student (before ++ first :: between ++ after)
              e_pos c_pos es_pos cs_pos changes); simpl; [apply IH|reflexivity].
Qed.

End FirstMatch.

(** C7: [compare] looks, for each primary row, at the secondary rows up
    to the first one of the same id only.  When every primary row has a
    row of its id among [scanned], the result is the same whatever
    follows [scanned]; and a secondary row [dup] that repeats the id of
    an earlier row [first] can be removed without changing the
    result. *)
Theorem compare_first_match_only
    (primary scanned post post' : list row)
    (others before between after : list row) (first dup : row) (id : string)
    (e_pos c_pos es_pos cs_pos : Z) :
  Forall (has_match scanned es_pos cs_pos) primary ->
  getitem first cs_pos = Ok id ->
  getitem dup cs_pos = Ok id ->
  compare primary (scanned ++ post) e_pos c_pos es_pos cs_pos
  = compare primary (scanned ++ post') e_pos c_pos es_pos cs_pos
  /\ compare others (before ++ first :: between ++ dup :: after) e_pos c_pos es_pos cs_pos
     = compare others (before ++ first :: between ++ after) e_pos c_pos es_pos cs_pos.
Proof.
  intros Hprim Hfirst Hdup. unfold compare. split.
  - now apply compare_loop_stops.
  - now apply compare_loop_duplicate with (id := id).
Qed.

Lemma compare_first_match_only_witness :
  compare [["1"; "01/01/2020"]] ([["2"; "x"]; ["1"; "02/01/2020"]] ++ [["1"; "01/01/2020"]]) 1 1 0 0
  = compare [["1"; "01/01/2020"]] ([["2"; "x"]; ["1"; "02/01/2020"]] ++ []) 1 1 0 0
  /\ compare [["1"; "01/01/2020"]; ["3"; "y"]]
       ([] ++ ["1"; "02/01/2020"] :: [["3"; "z"]] ++ ["1"; "01/01/2020"] :: []) 1 1 0 0
     = compare [["1"; "01/01/2020"]; ["3"; "y"]]
         ([] ++ ["1"; "02/01/2020"] :: [["3"; "z"]] ++ []) 1 1 0 0.
Proof.
  apply (compare_first_match_only
           [["1"; "01/01/2020"]] [["2"; "x"]; ["1"; "02/01/2020"]]
           [["1"; "01/01/2020"]] []
           [["1"; "01/01/2020"]; ["3"; "y"]] [] [["3"; "z"]] []
           ["1"; "02/01/2020"] ["1"; "01/01/2020"] "1" 1 1 0 0).
  - constructor; [|constructor].
    exists ["1"; "02/01/2020"], "1".
    split; [right; left; reflexivity|split; reflexivity].
  - reflexivity.
  - reflexivity.
Defined.

(** ** Saving the changes *)

Lemma assoc_set_same {A : Type} (name : string) (v : A) (table : list (string * A)) :
  assoc name (assoc_set name v table) = Some v.
Proof.
  induction table as [|[k old] table IH]; simpl.
  - now rewrite String.eqb_refl.
  - destruct (String.eqb name k) eqn:Hk; simpl; now rewrite Hk.
Qed.

Lemma assoc_set_twice {A : Type} (name : string) (v v' : A) (table : list (string * A)) :
  assoc_set name v' (assoc_set name v table) = assoc_set name v' table.
Proof.
  induction table as [|[k old] table IH]; simpl.
  - now rewrite String.eqb_refl.
  - destruct (String.eqb name k) eqn:Hk; simpl; rewrite Hk; [reflexivity|].
    now rewrite IH.
Qed.

Lemma concat_empty_cons (x : string) (xs : list string) :
  String.concat "" (x :: xs) = x +:+ String.concat "" xs.
Proof.
  destruct xs as [|y ys]; simpl; [now rewrite str_app_empty_r|reflexivity].
Qed.

(** The line built from a non-empty item is its fields joined by commas,
    and a final comma. *)
Lemma build_line_join (e : string) (item : row) (line : string) :
  build_line (e :: item) line = line +:+ String.concat "," (e :: item) +:+ ",".
Proof.
  revert e line.
  induction item as [|e' item IH]; intros e line.
  - reflexivity.
  - change (build_line (e :: e' :: item) line)
      with (build_line (e' :: item) (line +:+ e +:+ ",")).
    rewrite IH.
    change (String.concat "," (e :: e' :: item))
      with (e +:+ "," +:+ String.concat "," (e' :: item)).
    now rewrite !str_app_assoc.
Qed.

Lemma line_to_save_join (item : row) :
  slice (build_line item "") None (Some (-1)) = String.concat "," item.
Proof.
  destruct item as [|e item].
  - apply slice_empty.
  - rewrite build_line_join.
    change ("" +:+ String.concat "," (e :: item) +:+ ",")
      with (String.concat "," (e :: item) +:+ String "," "").
    apply slice_drop_last.
Qed.

Lemma build_save_data_lines (i_data : list row) (save_data : string) :
  build_save_data i_data save_data
  = save_data +:+ String.concat "" (map (fun item => String.concat "," item +:+ nl) i_data).
Proof.
  revert save_data.
  induction i_data as [|item i_data IH]; intros save_data.
  - simpl. now rewrite str_app_empty_r.
  - change (build_save_data (item :: i_data) save_data)
      with (build_save_data i_data
              (save_data +:+ slice (build_line item "") None (Some (-1)) +:+ nl)).
    rewrite IH, line_to_save_join.
    rewrite map_cons, concat_empty_cons.
    now rewrite !str_app_assoc.
Qed.

Example save_data_upload_sample :
  file_content "Start_Changes_200101-000000.txt"
    (snd (save_data_upload [["FitNZ0001"; "15/06/2020"]; ["FitNZ0002"; "16/06/2020"]]
            "Student ID,Start Date" "Start_Changes_" sample_world))
  = Some ("Student ID,Start Date" +:+ nl +:+ "FitNZ0001,15/06/2020" +:+ nl
          +:+ "FitNZ0002,16/06/2020" +:+ nl).
Proof. reflexivity. Qed.

Example save_data_upload_locked :
  fst (save_data_upload [["FitNZ0001"; "15/06/2020"]] "Student ID,Start Date" "Locked_"
         sample_world)
  = Raise TypeError.
Proof. reflexivity. Qed.

(** C8: for every list of change records, when the output file opens,
    [save_data_upload] completes and the file then holds the header and
    a newline, followed by one line per change record, in the order of
    the list: the fields joined by commas, with no comma at the end, and
    a newline. *)
Theorem save_data_upload_content (i_data : list row) (headings d_name : string) (w : World) :
  existsb (String.eqb (d_name +:+ clock w (ticks w) +:+ ".txt")) (locked w) = false ->
  exists w' : World,
    save_data_upload i_data headings d_name w = (Ok tt, w') /\
    file_content (d_name +:+ clock w (ticks w) +:+ ".txt") w'
    = Some (upload_content headings i_data).
Proof.
  set (f_name := d_name +:+ clock w (ticks w) +:+ ".txt").
  intros Hopen.
  unfold save_data_upload, bind, generate_time_string, try_io, open_w, write, print, ret.
  cbn -[String.append assoc assoc_set existsb build_save_data].
  fold f_name. rewrite Hopen.
  cbn -[String.append assoc assoc_set existsb build_save_data].
  rewrite Hopen.
  cbn -[String.append assoc assoc_set existsb build_save_data].
  rewrite !assoc_set_twice, !assoc_set_same.
  cbn -[String.append assoc assoc_set existsb build_save_data].
  rewrite !assoc_set_twice, !assoc_set_same.
  cbn -[String.append assoc assoc_set existsb build_save_data].
  eexists. split; [reflexivity|].
  unfold file_content.
  cbn -[String.append assoc assoc_set existsb build_save_data].
  rewrite assoc_set_same. f_equal.
  rewrite build_save_data_lines.
  unfold upload_content. simpl. now rewrite !str_app_assoc.
Qed.

Lemma save_data_upload_content_witness :
  exists w' : World,
    save_data_upload [["FitNZ0001"; "15/06/2020"]] "Student ID,Start Date" "Start_Changes_"
      sample_world = (Ok tt, w') /\
    file_content ("Start_Changes_" +:+ clock sample_world (ticks sample_world) +:+ ".txt") w'
    = Some (upload_content "Student ID,Start Date" [["FitNZ0001"; "15/06/2020"]]).
Proof.
  apply (save_data_upload_content [["FitNZ0001"; "15/06/2020"]] "Student ID,Start Date"
           "Start_Changes_" sample_world).
  reflexivity.
Defined.

(** ** Validator *)

Lemma getitem_in_range {A : Type} (l : list A) (i : Z) :
  0 <= i < Z.of_nat (length l) -> exists v : A, getitem l i = Ok v.
Proof.
  intros Hi. unfold getitem, norm_index.
  destruct (Z.leb_spec 0 i) as [_|?]; [|lia].
  destruct (Z.ltb_spec i (Z.of_nat (length l))) as [_|?]; [|lia].
  simpl.
  destruct (l !! Z.to_nat i) as [v|] eqn:Hv; [now exists v|].
  apply lookup_ge_None in Hv. lia.
Qed.

Lemma returns_quietly_bind {A B : Type} (m : M World A) (k : A -> M World B) :
  returns_quietly m -> (forall a, returns_quietly (k a)) -> returns_quietly (bind m k).
Proof.
  intros Hm Hk w.
  destruct (Hm w) as (a & w1 & Hrun & Hin & Hcsv).
  destruct (Hk a w1) as (b & w2 & Hrun' & Hin' & Hcsv').
  exists b, w2. unfold bind. rewrite Hrun, Hrun'.
  repeat split; congruence.
Qed.

Lemma returns_quietly_print (s : string) : returns_quietly (print s).
Proof. intros w. exists tt. eexists. repeat split. Qed.

Lemma returns_quietly_ret {A : Type} (a : A) : returns_quietly (ret a : M World A).
Proof. intros w. exists a, w. repeat split. Qed.

Lemma returns_quietly_time : returns_quietly generate_time_string.
Proof. intros w. eexists. eexists. repeat split. Qed.

Lemma returns_quietly_for_each {A : Type} (xs : list A) (body : A -> M World unit) :
  (forall x, returns_quietly (body x)) -> returns_quietly (for_each xs body).
Proof.
  intros Hbody.
  induction xs as [|x xs IH]; simpl.
  - apply returns_quietly_ret.
  - apply returns_quietly_bind; [apply Hbody|intros _; exact IH].
Qed.

(** Writing to a file that is open succeeds and keeps it open. *)
Lemma write_open (name s : string) (w : World) :
  (exists content, assoc name (disk w) = Some content) ->
  exists w' : World,
    write name s w = (Ok tt, w') /\ stdin w' = stdin w /\ csv_files w' = csv_files w /\
    exists content, assoc name (disk w') = Some content.
Proof.
  intros [content Hc]. unfold write. rewrite Hc.
  eexists. repeat split.
  simpl. rewrite assoc_set_same. now eexists.
Qed.

Lemma for_each_write_open (name : string) (lines : list string) (w : World) :
  (exists content, assoc name (disk w) = Some content) ->
  exists w' : World,
    for_each lines (fun line => write name (line +:+ nl)) w = (Ok tt, w') /\
    stdin w' = stdin w /\ csv_files w' = csv_files w.
Proof.
  revert w.
  induction lines as [|line lines IH]; intros w Hopen; simpl.
  - exists w. repeat split.
  - destruct (write_open name (line +:+ nl) w Hopen) as (w1 & Hrun & Hin & Hcsv & Hopen1).
    destruct (IH w1 Hopen1) as (w2 & Hrun2 & Hin2 & Hcsv2).
    exists w2. unfold bind. rewrite Hrun, Hrun2.
    repeat split; congruence.
Qed.

Lemma returns_quietly_save_error_log (source : string) (error_log : list string)
    (file_name : string) :
  returns_quietly (save_error_log source error_log file_name).
Proof.
  intros w. unfold save_error_log, try_io, open_w at 1.
  destruct (existsb (String.eqb file_name) (locked w)) eqn:Hlocked.
  - apply returns_quietly_print.
  - set (w1 := set_disk w (assoc_set file_name "" (disk w))).
    unfold bind, open_w.
    change (locked w1) with (locked w). rewrite Hlocked.
    set (w2 := set_disk w1 (assoc_set file_name "" (disk w1))).
    assert (exists content, assoc file_name (disk w2) = Some content) as Hopen2
      by (eexists; apply assoc_set_same).
    destruct (write_open file_name (source +:+ nl) w2 Hopen2)
      as (w3 & Hrun3 & Hin3 & Hcsv3 & Hopen3).
    rewrite Hrun3.
    destruct (for_each_write_open file_name error_log w3 Hopen3)
      as (w4 & Hrun4 & Hin4 & Hcsv4).
    rewrite Hrun4.
    exists tt. eexists. split; [reflexivity|].
    assert (stdin w2 = stdin w) as Hin2 by reflexivity.
    assert (csv_files w2 = csv_files w) as Hcsv2 by reflexivity.
    simpl. split; congruence.
Qed.

(** [process_error_log] never returns: it ends in [SystemExit] once the
    operator has answered its prompt, and in [EOFError] when the input
    has ended. *)
Lemma process_error_log_raises (errors : list string) (source : string) (w : World) :
  fst (process_error_log errors source w)
  = match stdin w with
    | [] => Raise EOFError
    | _ :: _ => Raise SystemExit
    end.
Proof.
  unfold process_error_log.
  unfold bind at 1.
  destruct (returns_quietly_print
              (nl +:+ "The following errors have been identified in the " +:+ source
               +:+ " data: " +:+ nl) w) as ([] & w1 & -> & Hin1 & _).
  unfold bind at 1.
  destruct (returns_quietly_for_each errors (fun line => print line)
              (fun line => returns_quietly_print line) w1) as ([] & w2 & -> & Hin2 & _).
  unfold bind at 1.
  destruct (returns_quietly_time w2) as (current_time & w3 & -> & Hin3 & _).
  unfold bind at 1.
  destruct (returns_quietly_print
              (nl +:+ "The errors have been saved to the error log file." +:+ nl) w3)
    as ([] & w4 & -> & Hin4 & _).
  unfold bind at 1.
  destruct (returns_quietly_save_error_log source errors
              ("Error_log_" +:+ "_" +:+ current_time +:+ ".txt") w4)
    as ([] & w5 & -> & Hin5 & _).
  unfold bind at 1.
  destruct (returns_quietly_print
              "The program will now close. Please correct errors before trying again." w5)
    as ([] & w6 & -> & Hin6 & _).
  unfold bind, input, raise. cbn [stdin set_stdout].
  assert (stdin w6 = stdin w) as -> by congruence.
  destruct (stdin w); reflexivity.
Qed.

Example check_ed_missing_course :
  fst (check_ed ed_missing_course ed_world) = Raise SystemExit.
Proof. reflexivity. Qed.

Example check_ed_short_row :
  fst (check_ed [["FitNZ0002"; "A Student"; ""; "2020-06-15 00:00:00"]] ed_world)
  = Raise IndexError.
Proof. reflexivity. Qed.

Ltac case_empty :=
  match goal with
  | |- context [String.eqb ?v ""] => destruct (String.eqb_spec v "")
  end.

(** The scan of well-formed rows completes; it never removes an error,
    and it adds one for a row with a required column empty. *)
Lemma check_ed_scan_total (report_data : list row) (errors warnings : list string) :
  Forall (fun student : row => (5 <= length student)%nat) report_data ->
  exists errors' warnings' : list string,
    check_ed_scan report_data errors warnings = Ok (errors', warnings') /\
    (length errors <= length errors')%nat /\
    (Exists missing_required report_data -> (length errors < length errors')%nat).
Proof.
  intros Hrows. revert errors warnings.
  induction Hrows as [|student rest Hlen _ IH]; intros errors warnings.
  - exists errors, warnings. split; [reflexivity|split; [lia|]].
    intros Hex. inversion Hex.
  - destruct (getitem_in_range student 0) as [v0 H0]; [lia|].
    destruct (getitem_in_range student 1) as [v1 H1]; [lia|].
    destruct (getitem_in_range student 2) as [v2 H2]; [lia|].
    destruct (getitem_in_range student 3) as [v3 H3]; [lia|].
    destruct (getitem_in_range student 4) as [v4 H4]; [lia|].
    assert (missing_required student -> v2 = "" \/ v3 = "" \/ v4 = "") as Hmiss.
    { unfold missing_required. rewrite H2, H3, H4.
      intros [?|[?|?]]; [left|right; left|right; right]; congruence. }
    cbn [check_ed_scan]. rewrite H1, H2, H3, H4, H0. unfold res_bind.
    repeat case_empty;
      match goal with
      | |- context [check_ed_scan rest ?e ?w] =>
          destruct (IH e w) as (errors' & warnings' & Hscan & Hle & Hlt)
      end;
      exists errors', warnings';
      rewrite ?length_app in Hle, Hlt; simpl in Hle, Hlt;
      (split; [exact Hscan|split; [lia|]]);
      intros Hex; inversion Hex as [? ? Hhere|? ? Hthere]; subst;
      try (specialize (Hlt Hthere)); try lia;
      destruct (Hmiss Hhere) as [?|[?|?]]; congruence.
Qed.

(** C4: for every set of Enrolment Dates rows (rows of at least the
    five columns of the report) in which some row has an empty Course,
    Enrolment Date or Expiry Date, the scan of [check_ed] completes with
    a non-empty error list, and [check_ed] does not return: the error
    path [process_error_log] raises [SystemExit] once the operator has
    answered its last prompt (with the input at its end, the prompt
    raises [EOFError]); a load of a file of such rows is aborted in the
    same way. *)
Theorem check_ed_fatal_aborts (report_data : list row) (w : World)
    (file_name : string) (file : csv_file) :
  Forall (fun student : row => (5 <= length student)%nat) report_data ->
  Exists missing_required report_data ->
  (exists errors warnings : list string,
     check_ed_scan report_data []
       [nl +:+ "Enrolment Dates (Learning Platform) Report Warnings:" +:+ nl]
     = Ok (errors, warnings) /\ errors <> []) /\
  (exists e : exn, fst (check_ed report_data w) = Raise e) /\
  (stdin w <> [] -> fst (check_ed report_data w) = Raise SystemExit) /\
  (stdin w <> [] ->
   assoc (file_name +:+ ".csv") (csv_files w) = Some file ->
   read_rows (records file) [] = Ok report_data ->
   fst (load_data file_name "ed" w) = Raise SystemExit).
Proof.
  intros Hrows Hmissing.
  destruct (check_ed_scan_total report_data []
              [nl +:+ "Enrolment Dates (Learning Platform) Report Warnings:" +:+ nl] Hrows)
    as (errors & warnings & Hscan & _ & Hlt).
  specialize (Hlt Hmissing).
  assert (fst (check_ed report_data w)
          = match stdin w with [] => Raise EOFError | _ :: _ => Raise SystemExit end)
    as Hcheck.
  { unfold check_ed, lift. unfold bind at 1. rewrite Hscan. cbn [fst snd].
    destruct (Nat.ltb_spec 0 (length errors)) as [_|?]; [|lia].
    unfold bind.
    pose proof (process_error_log_raises errors
                  "Enrolment Dates (Learning Platform) Report" w) as Hlog.
    destruct (process_error_log errors "Enrolment Dates (Learning Platform) Report" w)
      as [[[]|e] w1]; simpl in Hlog |- *.
    - destruct (stdin w); discriminate Hlog.
    - destruct (stdin w); injection Hlog as ->; reflexivity. }
  split; [|split; [|split]].
  - exists errors, warnings. split; [exact Hscan|].
    destruct errors; [simpl in Hlt; lia|discriminate].
  - rewrite Hcheck. destruct (stdin w); eexists; reflexivity.
  - intros Hin. rewrite Hcheck. now destruct (stdin w).
  - intros Hin Hfile Hread.
    unfold load_data. unfold bind at 1.
    assert (fst (load_loop (stdin w) file_name "ed" [] w) = Raise SystemExit) as Hloop.
    { destruct (stdin w) as [|line lines]; [congruence|].
      cbn [load_loop]. unfold try_io, open_r. rewrite Hfile.
      unfold lift. unfold bind at 1. rewrite Hread.
      rewrite String.eqb_refl.
      unfold bind.
      destruct (check_ed report_data w) as [[r|e] w1]; simpl in Hcheck |- *.
      - discriminate Hcheck.
      - injection Hcheck as ->. reflexivity. }
    destruct (load_loop (stdin w) file_name "ed" [] w) as [[r|e] w1]; simpl in Hloop |- *.
    + discriminate Hloop.
    + injection Hloop as ->. reflexivity.
Qed.

Lemma check_ed_fatal_aborts_witness :
  (exists errors warnings : list string,
     check_ed_scan ed_missing_course []
       [nl +:+ "Enrolment Dates (Learning Platform) Report Warnings:" +:+ nl]
     = Ok (errors, warnings) /\ errors <> []) /\
  fst (check_ed ed_missing_course (world_with ed_missing_course)) = Raise SystemExit /\
  fst (load_data "enrolments" "ed" (world_with ed_missing_course)) = Raise SystemExit.
Proof.
  destruct (check_ed_fatal_aborts ed_missing_course (world_with ed_missing_course)
              "enrolments"
              {| header_line := "Student ID,Student,Course,Enrolment Date,Expiry Date";
                 records := ed_missing_course |})
    as (Hscan & _ & Hcheck & Hload).
  - repeat constructor.
  - constructor. left. reflexivity.
  - split; [exact Hscan|split].
    + apply Hcheck. discriminate.
    + apply Hload; [discriminate|reflexivity|reflexivity].
Defined.

(** ** Loading a report *)

Example load_data_ed_missing_name :
  fst (load_data "enrolments" "ed" ed_world) = Ok (ed_missing_name, false, []).
Proof. reflexivity. Qed.

Example load_data_blank_record :
  fst (load_data "enrolments" "cf" (world_with [["1"; "a"]; []; ["2"; "b"]]))
  = Raise IndexError.
Proof. reflexivity. Qed.

Example load_data_retry :
  fst (load_data "missing" "cf"
         (set_stdin (world_with cf_records) ["absent"; "enrolments"; "other"]))
  = Ok ([["17"; "a"; "b"; "FitNZ0001 Course Start Date: 15/06/2020"];
         ["19"; "a"; "b"; "FitNZ0003"]], false, []).
Proof. reflexivity. Qed.

(** C2 (the code departs from it): on an Enrolment Dates file whose one
    record has an empty Student Name and every other column filled,
    [check_ed] returns the flag [True] and a list of two warnings, the
    heading and the message for the record; [load_data] drops what
    [check_ed] returns and itself returns the rows with the flag [False]
    and an empty warnings list. *)
Theorem load_data_discards_warnings :
  fst (check_ed ed_missing_name ed_world)
  = Ok (true,
        [nl +:+ "Enrolment Dates (Learning Platform) Report Warnings:" +:+ nl;
         "Student Name is missing for student with Student ID FitNZ0001"])
  /\ fst (load_data "enrolments" "ed" ed_world) = Ok (ed_missing_name, false, []).
Proof. split; reflexivity. Qed.

(** Whatever the file, the flag that [load_data] returns is [False] and
    its warnings list is empty. *)
Lemma load_data_no_warnings (file_name source : string) (w w' : World)
    (read_data : list row) (flag : bool) (warnings : list string) :
  load_data file_name source w = (Ok (read_data, flag, warnings), w') ->
  flag = false /\ warnings = [].
Proof.
  unfold load_data, bind.
  destruct (load_loop (stdin w) file_name source [] w) as [[rd|e] w1]; simpl.
  - intros [= <- <- <- <-]. split; reflexivity.
  - discriminate.
Qed.

Lemma getitem_head {A : Type} (x : A) (l : list A) : getitem (x :: l) 0 = Ok x.
Proof. reflexivity. Qed.

Lemma read_rows_filter (reader read_data result_rows : list row) :
  read_rows reader read_data = Ok result_rows ->
  result_rows = read_data ++ List.filter first_nonempty reader.
Proof.
  revert read_data.
  induction reader as [|r reader IH]; intros read_data; simpl.
  - intros [= <-]. now rewrite app_nil_r.
  - destruct r as [|first r]; [discriminate|].
    rewrite getitem_head. simpl.
    destruct (negb (String.eqb first "")); intros Hrest; apply IH in Hrest.
    + now rewrite <- app_assoc in Hrest.
    + exact Hrest.
Qed.

Lemma read_rows_total (reader read_data : list row) :
  Forall (fun r : row => r <> []) reader ->
  read_rows reader read_data = Ok (read_data ++ List.filter first_nonempty reader).
Proof.
  intros Hreader. revert read_data.
  induction Hreader as [|r reader Hr _ IH]; intros read_data; simpl.
  - now rewrite app_nil_r.
  - destruct r as [|first r]; [congruence|].
    rewrite getitem_head. simpl.
    destruct (negb (String.eqb first "")); rewrite IH; [|reflexivity].
    now rewrite <- app_assoc.
Qed.

Lemma filter_first_nonempty (reader : list row) :
  Forall (fun r : row => first_nonempty r = true) (List.filter first_nonempty reader).
Proof.
  apply List.Forall_forall. intros r Hr.
  now apply filter_In in Hr as [_ Hr].
Qed.

(** The rows of a load that completes are the kept records of a file
    of the world. *)
Lemma load_loop_rows (lines : list string) (file_name source : string) (w w' : World)
    (read_data : list row) :
  load_loop lines file_name source [] w = (Ok read_data, w') ->
  exists (name : string) (file : csv_file),
    assoc (name +:+ ".csv") (csv_files w) = Some file /\
    read_data = List.filter first_nonempty (records file).
Proof.
  revert file_name w.
  induction lines as [|line lines IH]; intros file_name w;
    cbn [load_loop]; unfold try_io, open_r;
    destruct (assoc (file_name +:+ ".csv") (csv_files w)) as [file|] eqn:Hfile.
  1,3: unfold lift, bind;
       destruct (read_rows (records file) []) as [rd|e] eqn:Hread; [|discriminate];
       apply read_rows_filter in Hread; simpl in Hread;
       intros Hrun; exists file_name, file; split; [exact Hfile|];
       destruct (String.eqb source "ed");
       [destruct (check_ed rd w) as [[r|e] w1]|];
       unfold ret in Hrun; simpl in Hrun; congruence.
  - unfold bind, print, input, raise. cbn [stdin set_stdout].
    destruct (stdin w); discriminate.
  - unfold bind at 1. unfold print.
    unfold bind at 1. unfold input. cbn [stdin set_stdout].
    destruct (stdin w) as [|answer unread]; [discriminate|].
    intros Hrun. apply IH in Hrun. exact Hrun.
Qed.

(** C10: the rows that [load_data] returns are the records after the
    header line whose first field is not empty, in their order: a
    record with an empty first field is dropped, and every returned
    row has a non-empty first field.  The load does return these rows
    when the file opens, every record has a field, and no validation is
    asked for. *)
Theorem load_data_rows (file_name source : string) (w : World) :
  (forall (read_data : list row) (flag : bool) (warnings : list string) (w' : World),
     load_data file_name source w = (Ok (read_data, flag, warnings), w') ->
     (exists (name : string) (file : csv_file),
        assoc (name +:+ ".csv") (csv_files w) = Some file /\
        read_data = List.filter first_nonempty (records file)) /\
     Forall (fun r : row => first_nonempty r = true) read_data) /\
  (forall file : csv_file,
     assoc (file_name +:+ ".csv") (csv_files w) = Some file ->
     Forall (fun r : row => r <> []) (records file) ->
     source <> "ed" ->
     load_data file_name source w
     = (Ok (List.filter first_nonempty (records file), false, []), w)).
Proof.
  split.
  - intros read_data flag warnings w'. unfold load_data, bind.
    destruct (load_loop (stdin w) file_name source [] w) as [[rd|e] w1] eqn:Hloop;
      simpl; [|discriminate].
    intros [= <- <- <- <-].
    destruct (load_loop_rows _ _ _ _ _ _ Hloop) as (name & file & Hfile & ->).
    split; [now exists name, file|apply filter_first_nonempty].
  - intros file Hfile Hrecords Hsource.
    apply String.eqb_neq in Hsource.
    unfold load_data. unfold bind at 1.
    assert (load_loop (stdin w) file_name source [] w
            = (Ok (List.filter first_nonempty (records file)), w)) as ->; [|reflexivity].
    destruct (stdin w); cbn [load_loop]; unfold try_io, open_r; rewrite Hfile;
      unfold lift, bind; rewrite (read_rows_total _ [] Hrecords), Hsource; reflexivity.
Qed.

Lemma load_data_rows_witness :
  load_data "enrolments" "cf" (world_with cf_records)
  = (Ok ([["17"; "a"; "b"; "FitNZ0001 Course Start Date: 15/06/2020"];
          ["19"; "a"; "b"; "FitNZ0003"]], false, []), world_with cf_records)
  /\ Forall (fun r : list string => first_nonempty r = true)
       [["17"; "a"; "b"; "FitNZ0001 Course Start Date: 15/06/2020"];
        ["19"; "a"; "b"; "FitNZ0003"]].
Proof.
  destruct (load_data_rows "enrolments" "cf" (world_with cf_records)) as [Hrows Hreturns].
  assert (load_data "enrolments" "cf" (world_with cf_records)
          = (Ok ([["17"; "a"; "b"; "FitNZ0001 Course Start Date: 15/06/2020"];
                  ["19"; "a"; "b"; "FitNZ0003"]], false, []), world_with cf_records))
    as Hrun.
  { apply (Hreturns
             {| header_line := "Student ID,Student,Course,Enrolment Date,Expiry Date";
                records := cf_records |}).
    - reflexivity.
    - repeat constructor; discriminate.
    - discriminate. }
  split; [exact Hrun|].
  exact (proj2 (Hrows _ _ _ _ Hrun)).
Defined.

(** ** Runs of stateful computations *)

Section Runs.
Context {St : Type}.

Lemma bind_inv {A B : Type} (m : M St A) (k : A -> M St B) (s s' : St) (b : B) :
  bind m k s = (Ok b, s') ->
  exists (a : A) (s1 : St), m s = (Ok a, s1) /\ k a s1 = (Ok b, s').
Proof.
  unfold bind. destruct (m s) as [[a|e] s1]; [eauto|discriminate].
Qed.

Lemma ret_inv {A : Type} (a b : A) (s s' : St) :
  ret a s = (Ok b, s') -> b = a /\ s' = s.
Proof. unfold ret. now intros [= -> ->]. Qed.

Lemma lift_inv {A : Type} (r : result A) (a : A) (s s' : St) :
  lift r s = (Ok a, s') -> r = Ok a /\ s' = s.
Proof. unfold lift. now intros [= -> ->]. Qed.

(** A relation between states that every pass of a loop establishes,
    and that is reflexive and transitive, holds across the loop. *)
Lemma for_each_rel {A : Type} (R : St -> St -> Prop) (xs : list A)
    (body : A -> M St unit) :
  (forall s, R s s) ->
  (forall s1 s2 s3, R s1 s2 -> R s2 s3 -> R s1 s3) ->
  (forall x s s', In x xs -> body x s = (Ok tt, s') -> R s s') ->
  forall s s', for_each xs body s = (Ok tt, s') -> R s s'.
Proof.
  intros Hrefl Htrans.
  induction xs as [|x xs IH]; intros Hbody s s' Hrun.
  - apply ret_inv in Hrun as [_ ->]. apply Hrefl.
  - simpl in Hrun. apply bind_inv in Hrun as ([] & s1 & Hx & Hrest).
    apply (Htrans s s1 s').
    + apply (Hbody x); [now left|exact Hx].
    + apply IH; [|exact Hrest].
      intros y t t' Hy. apply Hbody. now right.
Qed.

End Runs.

(** ** Pipeline stages and the store *)

Module ObjFacts.
Import Obj.

Lemma alloc_inv (o : obj) (h h' : heap) (l : loc) :
  alloc o h = (Ok l, h') -> l = length h /\ h' = h ++ [o].
Proof. unfold alloc. now intros [= <- <-]. Qed.

Lemma read_row_inv (l : loc) (h h' : heap) (fields : row) :
  read_row l h = (Ok fields, h') -> h' = h /\ h !! l = Some (Row fields).
Proof.
  unfold read_row. destruct (h !! l) as [[f|items]|]; try discriminate.
  now intros [= -> ->].
Qed.

Lemma read_list_inv (l : loc) (h h' : heap) (items : list loc) :
  read_list l h = (Ok items, h') -> h' = h /\ h !! l = Some (RowList items).
Proof.
  unfold read_list. destruct (h !! l) as [[f|its]|]; try discriminate.
  now intros [= -> ->].
Qed.

Lemma row_append_inv (l : loc) (v : string) (h h' : heap) :
  row_append l v h = (Ok tt, h') ->
  exists fields : row,
    h !! l = Some (Row fields) /\ h' = <[l := Row (fields ++ [v])]> h.
Proof.
  unfold row_append. intros Hrun.
  apply bind_inv in Hrun as (fields & h1 & Hread & Hstore).
  apply read_row_inv in Hread as [-> Hl].
  exists fields. split; [exact Hl|].
  unfold store in Hstore. congruence.
Qed.

Lemma row_setitem_inv (l : loc) (i : Z) (v : string) (h h' : heap) :
  row_setitem l i v h = (Ok tt, h') ->
  exists (fields : row) (n : nat),
    h !! l = Some (Row fields) /\
    norm_index (length fields) i = Some n /\
    h' = <[l := Row (<[n := v]> fields)]> h.
Proof.
  unfold row_setitem. intros Hrun.
  apply bind_inv in Hrun as (fields & h1 & Hread & Hstore).
  apply read_row_inv in Hread as [-> Hl].
  destruct (norm_index (length fields) i) as [n|] eqn:Hn; [|discriminate].
  exists fields, n. split; [exact Hl|split; [exact Hn|]].
  unfold store in Hstore. congruence.
Qed.

Lemma list_append_inv (l x : loc) (h h' : heap) :
  list_append l x h = (Ok tt, h') ->
  exists items : list loc,
    h !! l = Some (RowList items) /\ h' = <[l := RowList (items ++ [x])]> h.
Proof.
  unfold list_append. intros Hrun.
  apply bind_inv in Hrun as (items & h1 & Hread & Hstore).
  apply read_list_inv in Hread as [-> Hl].
  exists items. split; [exact Hl|].
  unfold store in Hstore. congruence.
Qed.

Lemma list_copy_inv (l : loc) (h h' : heap) (res : loc) :
  list_copy l h = (Ok res, h') ->
  exists items : list loc,
    h !! l = Some (RowList items) /\ res = length h /\ h' = h ++ [RowList items].
Proof.
  unfold list_copy. intros Hrun.
  apply bind_inv in Hrun as (items & h1 & Hread & Halloc).
  apply read_list_inv in Hread as [-> Hl].
  apply alloc_inv in Halloc as [-> ->].
  now exists items.
Qed.

(** Inversion of a run that returned, down to the steps on the store. *)
Ltac inv_run :=
  repeat match goal with
    | u : unit |- _ => destruct u
    | H : bind _ _ _ = (Ok _, _) |- _ =>
        let a := fresh "a" in
        let h := fresh "h" in
        let Hstep := fresh "Hstep" in
        apply bind_inv in H as (a & h & Hstep & H); cbv beta in H
    | H : ret _ _ = (Ok _, _) |- _ => apply ret_inv in H as [? ?]; subst
    | H : lift _ _ = (Ok _, _) |- _ => apply lift_inv in H as [? ?]; subst
    | H : read_row _ _ = (Ok _, _) |- _ => apply read_row_inv in H as [? ?]; subst
    | H : read_list _ _ = (Ok _, _) |- _ => apply read_list_inv in H as [? ?]; subst
    | H : alloc _ _ = (Ok _, _) |- _ => apply alloc_inv in H as [? ?]; subst
    | H : list_copy _ _ = (Ok _, _) |- _ => apply list_copy_inv in H as (? & ? & ? & ?); subst
    | H : row_append _ _ _ = (Ok _, _) |- _ => apply row_append_inv in H as (? & ? & ?); subst
    | H : row_setitem _ _ _ _ = (Ok _, _) |- _ =>
        apply row_setitem_inv in H as (? & ? & ? & ? & ?); subst
    | H : list_append _ _ _ = (Ok _, _) |- _ => apply list_append_inv in H as (? & ? & ?); subst
    | H : (if ?b then _ else _) _ = (Ok _, _) |- _ => destruct b eqn:?
    end.

(** *** The relation [keeps_except] *)

Lemma keeps_except_refl (changed : loc -> Prop) (h : heap) : keeps_except changed h h.
Proof. split; [lia|auto]. Qed.

Lemma keeps_except_trans (changed : loc -> Prop) (h1 h2 h3 : heap) :
  keeps_except changed h1 h2 -> keeps_except changed h2 h3 -> keeps_except changed h1 h3.
Proof.
  intros [Hlen12 H12] [Hlen23 H23]. split; [lia|].
  intros l o Hl Ho. apply H23; [exact Hl|]. now apply H12.
Qed.

Lemma keeps_except_alloc (changed : loc -> Prop) (h h' : heap) (o : obj) :
  keeps_except changed h h' -> keeps_except changed h (h' ++ [o]).
Proof.
  intros [Hlen Hkeep]. split; [rewrite length_app; simpl; lia|].
  intros l o' Hl Ho. apply lookup_app_l_Some. now apply Hkeep.
Qed.

Lemma keeps_except_store (changed : loc -> Prop) (h h' : heap) (l : loc) (o : obj) :
  keeps_except changed h h' -> changed l -> keeps_except changed h (<[l := o]> h').
Proof.
  intros [Hlen Hkeep] Hl. split; [rewrite length_insert; lia|].
  intros l' o' Hl' Ho'.
  rewrite list_lookup_insert_ne by (intros ->; contradiction).
  now apply Hkeep.
Qed.

Lemma keeps_except_weaken (changed changed' : loc -> Prop) (h h' : heap) :
  (forall l o, h !! l = Some o -> changed l -> changed' l) ->
  keeps_except changed h h' -> keeps_except changed' h h'.
Proof.
  intros Hsub [Hlen Hkeep]. split; [exact Hlen|].
  intros l o Hl Ho. apply Hkeep; [|exact Ho].
  intros Hc. apply Hl. exact (Hsub l o Ho Hc).
Qed.

Lemma keeps_old_refl (n : nat) (h : heap) : keeps_old n h h.
Proof. intros _. apply keeps_except_refl. Qed.

Lemma keeps_old_trans (n : nat) (h1 h2 h3 : heap) :
  keeps_old n h1 h2 -> keeps_old n h2 h3 -> keeps_old n h1 h3.
Proof.
  intros H12 H23 Hn.
  pose proof (H12 Hn) as K12. destruct K12 as [Hlen _].
  apply (keeps_except_trans _ h1 h2 h3); [apply H12|apply H23]; lia.
Qed.

(** A stage that changes new objects only is a preserving stage. *)
Lemma keeps_old_preserving (h h' : heap) :
  keeps_except (fun l => (length h <= l)%nat) h h' -> keeps_except (fun _ => False) h h'.
Proof.
  apply keeps_except_weaken. intros l o Ho Hl.
  apply lookup_lt_Some in Ho. lia.
Qed.

Lemma preserving_pure (m : M heap loc) (input : loc) :
  preserving_stage m -> pure_stage input m.
Proof.
  intros Hm h h' items res Hinput Hrun.
  destruct (Hm h h' res Hrun) as (Hfresh & _ & Hkeep).
  split; [exact Hfresh|]. split.
  - now apply Hkeep.
  - intros l fields _ Hl. now apply Hkeep.
Qed.

(** *** Stages that change new objects only *)

Ltac solve_keeps :=
  repeat first
    [ apply keeps_except_refl
    | apply keeps_except_alloc
    | apply keeps_except_store ];
  try (cbv beta; rewrite ?length_app, ?length_insert; simpl; lia).

(** A stage made of a new list, a read of the input and a loop that
    changes new objects only. *)
Lemma filling_stage_preserving (input : loc) (body : loc -> loc -> M heap unit) :
  (forall (n : nat) (student : loc) (h h' : heap),
     body n student h = (Ok tt, h') -> keeps_old n h h') ->
  preserving_stage
    (bind (alloc (RowList [])) (fun updated =>
     bind (read_list input) (fun items =>
     bind (for_each items (body updated)) (fun _ => ret updated)))).
Proof.
  intros Hbody h h' res Hrun.
  apply bind_inv in Hrun as (updated & h1 & Halloc & Hrun).
  apply alloc_inv in Halloc as [-> ->].
  apply bind_inv in Hrun as (items & h2 & Hread & Hrun).
  apply read_list_inv in Hread as [-> Hitems].
  apply bind_inv in Hrun as ([] & h3 & Hloop & Hret).
  apply ret_inv in Hret as [-> <-].
  split; [now apply lookup_ge_None_2|].
  apply keeps_old_preserving.
  apply (keeps_except_trans _ h (h ++ [RowList []]) h'); [solve_keeps|].
  apply (for_each_rel (keeps_old (length h)) items (body (length h))
           (keeps_old_refl _) (keeps_old_trans _)) in Hloop.
  - apply Hloop. rewrite length_app. lia.
  - intros student hc hc' _. apply Hbody.
Qed.

Lemma extract_students_preserving (students : loc) (data_pos : Z) :
  preserving_stage (extract_students students data_pos).
Proof.
  apply (filling_stage_preserving students
           (fun updated student =>
              bind (read_row student) (fun fields =>
              bind (lift (getitem fields data_pos)) (fun text =>
              if str_contains "FitNZ" text then list_append updated student
              else ret tt)))).
  intros n student h h' Hrun Hn. inv_run; solve_keeps.
Qed.

Lemma get_courses_preserving (students : loc) (course_pos : Z) :
  preserving_stage (get_courses students course_pos).
Proof.
  apply (filling_stage_preserving students
           (fun updated student =>
              bind (read_row student) (fun fields =>
              bind (lift (getitem fields course_pos)) (fun course =>
              bind (lift (extract_course_code course)) (fun code =>
              if negb (String.eqb code "Skip") then list_append updated student
              else ret tt))))).
  intros n student h h' Hrun Hn. inv_run; solve_keeps.
Qed.

Lemma strip_cf_data_preserving (data : loc) : preserving_stage (strip_cf_data data).
Proof.
  apply (filling_stage_preserving data
           (fun updated_data student =>
              bind (alloc (Row [])) (fun updated_student =>
              bind (read_row student) (fun fields =>
              bind (lift (getitem fields 5)) (fun v5 =>
              bind (row_append updated_student v5) (fun _ =>
              bind (lift (getitem fields 6)) (fun v6 =>
              bind (row_append updated_student v6) (fun _ =>
              bind (lift (getitem fields 7)) (fun v7 =>
              bind (row_append updated_student v7) (fun _ =>
              list_append updated_data updated_student)))))))))).
  intros n student h h' Hrun Hn. inv_run; solve_keeps.
Qed.

Lemma compare_student_keeps_old (changes student : loc) (custom_field : list loc)
    (e_pos c_pos es_pos cs_pos : Z) (h h' : heap) :
  Obj.compare_student changes student custom_field e_pos c_pos es_pos cs_pos h = (Ok tt, h') ->
  keeps_old changes h h'.
Proof.
  induction custom_field as [|c_student rest IH]; simpl; intros Hrun Hn.
  - inv_run. solve_keeps.
  - inv_run; solve_keeps. now apply IH.
Qed.

Lemma compare_preserving (enrolment custom_field : loc) (e_pos c_pos es_pos cs_pos : Z) :
  preserving_stage (Obj.compare enrolment custom_field e_pos c_pos es_pos cs_pos).
Proof.
  intros h h' res Hrun. unfold Obj.compare in Hrun.
  apply bind_inv in Hrun as (changes & h1 & Halloc & Hrun).
  apply alloc_inv in Halloc as [-> ->].
  apply bind_inv in Hrun as (e_items & h2 & Hread & Hrun).
  apply read_list_inv in Hread as [-> He].
  apply bind_inv in Hrun as (c_items & h2 & Hread & Hrun).
  apply read_list_inv in Hread as [-> Hc].
  apply bind_inv in Hrun as ([] & h3 & Hloop & Hret).
  apply ret_inv in Hret as [-> <-].
  split; [now apply lookup_ge_None_2|].
  apply keeps_old_preserving.
  apply (keeps_except_trans _ h (h ++ [RowList []]) h'); [solve_keeps|].
  apply (for_each_rel (keeps_old (length h)) e_items _
           (keeps_old_refl _) (keeps_old_trans _)) in Hloop.
  - apply Hloop. rewrite length_app. lia.
  - intros student hc hc' _. apply compare_student_keeps_old.
Qed.

(** *** Stages that update the rows of their input *)

(** The loop of the [add_] stages: each pass appends to the row it is
    at the field that [derive] computes from the row. *)
Lemma append_loop (derive : row -> result string) (xs : list loc) (h h' : heap) :
  for_each xs (fun student =>
    bind (read_row student) (fun fields =>
    bind (lift (derive fields)) (fun v => row_append student v))) h = (Ok tt, h') ->
  length h' = length h /\
  (forall l items, h !! l = Some (RowList items) -> h' !! l = Some (RowList items)) /\
  (forall l fields, h !! l = Some (Row fields) ->
     exists extra, h' !! l = Some (Row (fields ++ extra)) /\ (In l xs -> extra <> [])) /\
  (forall l o, ~ In l xs -> h !! l = Some o -> h' !! l = Some o).
Proof.
  revert h.
  induction xs as [|x xs IH]; intros h Hrun.
  - apply ret_inv in Hrun as [_ ->].
    repeat split; auto.
    intros l fields Hl. exists []. rewrite app_nil_r. split; [exact Hl|intros []].
  - simpl in Hrun. apply bind_inv in Hrun as ([] & h1 & Hbody & Hrest).
    apply bind_inv in Hbody as (fields0 & h0 & Hread & Hbody).
    apply read_row_inv in Hread as [-> Hx].
    apply bind_inv in Hbody as (v & h0 & Hv & Happend).
    apply lift_inv in Hv as [Hv ->].
    apply row_append_inv in Happend as (fields0' & Hx' & ->).
    assert (fields0' = fields0) as -> by congruence. clear Hx'.
    pose proof (lookup_lt_Some _ _ _ Hx) as Hxlt.
    destruct (IH _ Hrest) as (Hlen & Hlists & Hrows & Hother).
    rewrite length_insert in Hlen.
    split; [exact Hlen|]. split; [|split].
    + intros l items Hl. apply Hlists.
      rewrite list_lookup_insert_ne by congruence. exact Hl.
    + intros l fields Hl.
      destruct (Nat.eq_dec l x) as [->|Hne].
      * assert (fields = fields0) as -> by congruence.
        destruct (Hrows x (fields0 ++ [v])) as (extra & Hextra & _).
        { now apply list_lookup_insert_eq. }
        exists ([v] ++ extra). rewrite app_assoc. split; [exact Hextra|discriminate].
      * destruct (Hrows l fields) as (extra & Hextra & Hin).
        { rewrite list_lookup_insert_ne by congruence. exact Hl. }
        exists extra. split; [exact Hextra|].
        intros [Heq|Hin']; [congruence|now apply Hin].
    + intros l o Hnot Hl. apply Hother.
      * intros Hin. apply Hnot. now right.
      * rewrite list_lookup_insert_ne; [exact Hl|].
        intros ->. apply Hnot. now left.
Qed.

(** A stage made of a copy of the input list and the appending loop. *)
Lemma appending_stage_updating (derive : row -> result string) (students : loc) :
  updating_stage extended students
    (bind (list_copy students) (fun updated_students =>
     bind (read_list updated_students) (fun items =>
     bind (for_each items (fun student =>
             bind (read_row student) (fun fields =>
             bind (lift (derive fields)) (fun v => row_append student v))))
       (fun _ => ret updated_students)))).
Proof.
  intros h h' items res Hinput Hrun.
  apply bind_inv in Hrun as (updated & h1 & Hcopy & Hrun).
  apply list_copy_inv in Hcopy as (items0 & Hitems0 & -> & ->).
  assert (items0 = items) as -> by congruence. clear Hitems0.
  apply bind_inv in Hrun as (items1 & h2 & Hread & Hrun).
  apply read_list_inv in Hread as [-> Hitems1].
  rewrite (list_lookup_middle h [] (RowList items) (length h) eq_refl) in Hitems1.
  assert (items1 = items) as -> by congruence. clear Hitems1.
  apply bind_inv in Hrun as ([] & h3 & Hloop & Hret).
  apply ret_inv in Hret as [-> <-].
  apply append_loop in Hloop as (Hlen & Hlists & Hrows & Hother).
  rewrite length_app in Hlen. simpl in Hlen.
  split; [now apply lookup_ge_None_2|].
  split; [apply Hlists; now apply list_lookup_middle|].
  split; [apply Hlists; now apply lookup_app_l_Some|].
  split; [split; [lia|]|].
  - intros l o Hnot Hl. apply Hother; [exact Hnot|now apply lookup_app_l_Some].
  - intros l fields Hin Hl.
    destruct (Hrows l fields) as (extra & Hextra & Hne); [now apply lookup_app_l_Some|].
    exists (fields ++ extra). split; [exact Hextra|].
    exists extra. split; [now apply Hne|reflexivity].
Qed.

Lemma add_student_id_updating (students : loc) (data_pos : Z) :
  updating_stage extended students (add_student_id students data_pos).
Proof.
  exact (appending_stage_updating (fun fields => extract_student_id fields data_pos) students).
Qed.

Lemma add_start_date_updating (students : loc) (data_pos : Z) :
  updating_stage extended students (add_start_date students data_pos).
Proof.
  exact (appending_stage_updating
           (fun fields => extract_course_date fields data_pos "Course Start Date") students).
Qed.

Lemma add_end_date_updating (students : loc) (data_pos : Z) :
  updating_stage extended students (add_end_date students data_pos).
Proof.
  exact (appending_stage_updating
           (fun fields => extract_course_date fields data_pos "Course End Date") students).
Qed.

Lemma overwritten_at_refl (pos : Z) (fields : row) : overwritten_at pos fields fields.
Proof. split; [reflexivity|auto]. Qed.

Lemma overwritten_at_trans (pos : Z) (f1 f2 f3 : row) :
  overwritten_at pos f1 f2 -> overwritten_at pos f2 f3 -> overwritten_at pos f1 f3.
Proof.
  intros [Hlen12 H12] [Hlen23 H23]. split; [congruence|].
  intros n j Hn Hj.
  rewrite (H23 n j) by (rewrite ?Hlen12; assumption).
  now apply (H12 n j).
Qed.

(** The loop of [clean_date]: each pass overwrites the date column of
    the row it is at and appends the row to the new list. *)
Lemma clean_loop (date_pos : Z) (updated : loc) (xs : list loc) (h h' : heap)
    (filled : list loc) :
  for_each xs (fun student =>
    bind (read_row student) (fun fields =>
    bind (lift (getitem fields date_pos)) (fun date =>
    bind (row_setitem student date_pos (extract_date date)) (fun _ =>
    list_append updated student)))) h = (Ok tt, h') ->
  h !! updated = Some (RowList filled) ->
  length h' = length h /\
  h' !! updated = Some (RowList (filled ++ xs)) /\
  (forall l items, l <> updated -> h !! l = Some (RowList items) ->
     h' !! l = Some (RowList items)) /\
  (forall l fields, h !! l = Some (Row fields) ->
     exists fields', h' !! l = Some (Row fields') /\ overwritten_at date_pos fields fields') /\
  (forall l o, ~ In l xs -> l <> updated -> h !! l = Some o -> h' !! l = Some o).
Proof.
  revert h filled.
  induction xs as [|x xs IH]; intros h filled Hrun Hupdated.
  - apply ret_inv in Hrun as [_ ->].
    rewrite app_nil_r. repeat split; auto.
    intros l fields Hl. exists fields. split; [exact Hl|apply overwritten_at_refl].
  - simpl in Hrun. apply bind_inv in Hrun as ([] & h1 & Hbody & Hrest).
    apply bind_inv in Hbody as (fields0 & h0 & Hread & Hbody).
    apply read_row_inv in Hread as [-> Hx].
    apply bind_inv in Hbody as (date & h0 & Hdate & Hbody).
    apply lift_inv in Hdate as [Hdate ->].
    apply bind_inv in Hbody as ([] & h0 & Hset & Happend).
    apply row_setitem_inv in Hset as (fields0' & n & Hx' & Hn & ->).
    assert (fields0' = fields0) as -> by congruence. clear Hx'.
    apply list_append_inv in Happend as (filled' & Hupdated' & ->).
    assert (x <> updated) as Hxu by congruence.
    rewrite list_lookup_insert_ne in Hupdated' by exact Hxu.
    assert (filled' = filled) as -> by congruence. clear Hupdated'.
    pose proof (lookup_lt_Some _ _ _ Hx) as Hxlt.
    pose proof (lookup_lt_Some _ _ _ Hupdated) as Hult.
    set (h1 := <[updated := RowList (filled ++ [x])]>
                 (<[x := Row (<[n := extract_date date]> fields0)]> h)) in *.
    assert (h1 !! updated = Some (RowList (filled ++ [x]))) as Hupdated1.
    { apply list_lookup_insert_eq. rewrite length_insert. exact Hult. }
    assert (h1 !! x = Some (Row (<[n := extract_date date]> fields0))) as Hx1.
    { unfold h1. rewrite list_lookup_insert_ne by congruence.
      now apply list_lookup_insert_eq. }
    assert (forall l, l <> x -> l <> updated -> h1 !! l = h !! l) as Hsame.
    { intros l Hlx Hlu. unfold h1.
      now rewrite !list_lookup_insert_ne by congruence. }
    destruct (IH _ _ Hrest Hupdated1) as (Hlen & Hfilled & Hlists & Hrows & Hother).
    unfold h1 in Hlen. rewrite !length_insert in Hlen.
    split; [exact Hlen|].
    split; [now rewrite <- app_assoc in Hfilled|].
    split; [|split].
    + intros l items Hlu Hl. apply Hlists; [exact Hlu|].
      rewrite Hsame; [exact Hl|congruence|exact Hlu].
    + intros l fields Hl.
      destruct (Nat.eq_dec l x) as [->|Hne].
      * assert (fields = fields0) as -> by congruence.
        destruct (Hrows x _ Hx1) as (fields' & Hfields' & Hover).
        exists fields'. split; [exact Hfields'|].
        apply (overwritten_at_trans _ _ (<[n := extract_date date]> fields0)); [|exact Hover].
        split; [apply length_insert|].
        intros n' j Hn' Hj.
        assert (n' = n) as -> by congruence.
        apply list_lookup_insert_ne. congruence.
      * apply Hrows. rewrite Hsame; [exact Hl|exact Hne|congruence].
    + intros l o Hnot Hlu Hl. apply Hother; [|exact Hlu|].
      * intros Hin. apply Hnot. now right.
      * rewrite Hsame; [exact Hl| |exact Hlu].
        intros ->. apply Hnot. now left.
Qed.

Lemma clean_date_updating (students : loc) (date_pos : Z) :
  updating_stage (overwritten_at date_pos) students (clean_date students date_pos).
Proof.
  intros h h' items res Hinput Hrun. unfold clean_date in Hrun.
  apply bind_inv in Hrun as (updated & h1 & Halloc & Hrun).
  apply alloc_inv in Halloc as [-> ->].
  apply bind_inv in Hrun as (items1 & h2 & Hread & Hrun).
  apply read_list_inv in Hread as [-> Hitems1].
  rewrite (lookup_app_l_Some _ _ _ _ Hinput) in Hitems1.
  assert (items1 = items) as -> by congruence. clear Hitems1.
  apply bind_inv in Hrun as ([] & h3 & Hloop & Hret).
  apply ret_inv in Hret as [-> <-].
  pose proof (lookup_lt_Some _ _ _ Hinput) as Hinlt.
  apply (clean_loop _ _ _ _ _ []) in Hloop as (Hlen & Hfilled & Hlists & Hrows & Hother);
    [|now apply list_lookup_middle].
  rewrite length_app in Hlen. simpl in Hlen.
  split; [now apply lookup_ge_None_2|].
  split; [exact Hfilled|].
  split; [apply Hlists; [lia|now apply lookup_app_l_Some]|].
  split; [split; [lia|]|].
  - intros l o Hnot Hl. pose proof (lookup_lt_Some _ _ _ Hl) as Hllt.
    apply Hother; [exact Hnot|lia|now apply lookup_app_l_Some].
  - intros l fields Hin Hl. apply Hrows. now apply lookup_app_l_Some.
Qed.

End ObjFacts.

(** ** The matcher on the store *)

(** [Obj.compare], which works on list objects, computes what [compare]
    computes on the rows that the lists lead to. *)
Module ObjCompare.
Section Simulation.
Variables e_pos c_pos es_pos cs_pos : Z.

Lemma rows_at_kept (changes : nat) (filled : list nat) (h h' : list Obj.obj)
    (locs : list nat) (rows : list row) :
  h !! changes = Some (Obj.RowList filled) ->
  Obj.keeps_except (fun l => l = changes) h h' ->
  Obj.rows_at h locs rows -> Obj.rows_at h' locs rows.
Proof.
  intros Hchanges [_ Hkeep] Hrows.
  induction Hrows as [|l fields locs rows Hl _ IH]; constructor; [|exact IH].
  apply Hkeep; [congruence|exact Hl].
Qed.

Lemma compare_student_on_store (changes student : nat) (s_fields : row)
    (c_items : list nat) (c_rows : list row) (h : list Obj.obj)
    (filled : list nat) (done : list row) :
  h !! student = Some (Obj.Row s_fields) ->
  Obj.rows_at h c_items c_rows ->
  h !! changes = Some (Obj.RowList filled) ->
  Obj.rows_at h filled done ->
  match compare_student s_fields c_rows e_pos c_pos es_pos cs_pos done with
  | Ok done' =>
      exists (h' : list Obj.obj) (filled' : list nat),
        Obj.compare_student changes student c_items e_pos c_pos es_pos cs_pos h
        = (Ok tt, h') /\
        Obj.keeps_except (fun l => l = changes) h h' /\
        h' !! changes = Some (Obj.RowList filled') /\
        Obj.rows_at h' filled' done'
  | Raise e =>
      exists h' : list Obj.obj,
        Obj.compare_student changes student c_items e_pos c_pos es_pos cs_pos h
        = (Raise e, h')
  end.
Proof.
  intros Hs Hc Hchanges Hdone.
  induction Hc as [|c_student c_fields c_items c_rows Hcl _ IH]; simpl.
  - exists h, filled. repeat split; auto.
  - unfold bind, lift, Obj.read_row. rewrite Hs.
    destruct (getitem s_fields es_pos) as [sid|e] eqn:Hsid; simpl; [|eauto].
    rewrite Hcl.
    destruct (getitem c_fields cs_pos) as [cid|e] eqn:Hcid; simpl; [|eauto].
    destruct (String.eqb sid cid); [|exact IH].
    destruct (getitem s_fields e_pos) as [sdate|e] eqn:Hsdate; simpl; [|eauto].
    destruct (getitem c_fields c_pos) as [cdate|e] eqn:Hcdate; simpl; [|eauto].
    destruct (negb (String.eqb sdate cdate)); simpl.
    + unfold Obj.alloc, Obj.list_append, Obj.read_list, Obj.store, bind. cbv beta.
      pose proof (lookup_lt_Some _ _ _ Hchanges) as Hlt.
      rewrite (lookup_app_l_Some _ [Obj.Row [sid; sdate]] _ _ Hchanges).
      eexists. eexists. split; [reflexivity|].
      assert (Obj.keeps_except (fun l => l = changes) h
                (<[changes := Obj.RowList (filled ++ [length h])]> (h ++ [Obj.Row [sid; sdate]])))
        as Hkeep.
      { apply ObjFacts.keeps_except_store; [|reflexivity].
        apply ObjFacts.keeps_except_alloc, ObjFacts.keeps_except_refl. }
      split; [exact Hkeep|]. split.
      * apply list_lookup_insert_eq. rewrite length_app. simpl. lia.
      * apply Forall2_app.
        -- exact (rows_at_kept _ _ _ _ _ _ Hchanges Hkeep Hdone).
        -- constructor; [|constructor].
           rewrite list_lookup_insert_ne by lia.
           now apply list_lookup_middle.
    + exists h, filled. repeat split; auto.
Qed.

Lemma compare_loop_on_store (changes : nat) (c_items : list nat) (c_rows : list row)
    (e_items : list nat) (e_rows : list row) (h : list Obj.obj)
    (filled : list nat) (done : list row) :
  Obj.rows_at h e_items e_rows ->
  Obj.rows_at h c_items c_rows ->
  h !! changes = Some (Obj.RowList filled) ->
  Obj.rows_at h filled done ->
  match compare_loop e_rows c_rows e_pos c_pos es_pos cs_pos done with
  | Ok done' =>
      exists (h' : list Obj.obj) (filled' : list nat),
        for_each e_items (fun student =>
          Obj.compare_student changes student c_items e_pos c_pos es_pos cs_pos) h
        = (Ok tt, h') /\
        h' !! changes = Some (Obj.RowList filled') /\
        Obj.rows_at h' filled' done'
  | Raise e =>
      exists h' : list Obj.obj,
        for_each e_items (fun student =>
          Obj.compare_student changes student c_items e_pos c_pos es_pos cs_pos) h
        = (Raise e, h')
  end.
Proof.
  revert e_rows h filled done.
  induction e_items as [|student e_items IH];
    intros e_rows h filled done He Hc Hchanges Hdone.
  - inversion He; subst. simpl. exists h, filled. repeat split; auto.
  - inversion He as [|? s_fields ? e_rows' Hs Hrest]; subst. simpl.
    pose proof (compare_student_on_store changes student s_fields c_items c_rows h
                  filled done Hs Hc Hchanges Hdone) as Hstep.
    destruct (compare_student s_fields c_rows e_pos c_pos es_pos cs_pos done)
      as [done1|e]; simpl.
    + destruct Hstep as (h1 & filled1 & Hrun & Hkeep & Hchanges1 & Hdone1).
      specialize (IH e_rows' h1 filled1 done1
                    (rows_at_kept _ _ _ _ _ _ Hchanges Hkeep Hrest)
                    (rows_at_kept _ _ _ _ _ _ Hchanges Hkeep Hc) Hchanges1 Hdone1).
      unfold bind. rewrite Hrun.
      exact IH.
    + destruct Hstep as (h1 & Hrun).
      exists h1. unfold bind. now rewrite Hrun.
Qed.

(** On a store in which the two lists lead to the rows [e_rows] and
    [c_rows], [Obj.compare] raises what [compare] raises on these rows,
    and otherwise returns a list that leads to the rows that [compare]
    returns. *)
Lemma compare_on_store (enrolment custom_field : nat) (e_items c_items : list nat)
    (e_rows c_rows : list row) (h : list Obj.obj) :
  h !! enrolment = Some (Obj.RowList e_items) ->
  h !! custom_field = Some (Obj.RowList c_items) ->
  Obj.rows_at h e_items e_rows ->
  Obj.rows_at h c_items c_rows ->
  match compare e_rows c_rows e_pos c_pos es_pos cs_pos with
  | Ok changes =>
      exists (res : nat) (h' : list Obj.obj) (items : list nat),
        Obj.compare enrolment custom_field e_pos c_pos es_pos cs_pos h = (Ok res, h') /\
        h' !! res = Some (Obj.RowList items) /\
        Obj.rows_at h' items changes
  | Raise e =>
      exists h' : list Obj.obj,
        Obj.compare enrolment custom_field e_pos c_pos es_pos cs_pos h = (Raise e, h')
  end.
Proof.
  intros Henrolment Hcustom He Hc.
  set (h1 := h ++ [Obj.RowList []]).
  assert (Obj.keeps_except (fun l => l = length h) h h1) as Hkeep
    by apply ObjFacts.keeps_except_alloc, ObjFacts.keeps_except_refl.
  assert (h1 !! length h = Some (Obj.RowList [])) as Hchanges
    by now apply list_lookup_middle.
  assert (forall locs rows, Obj.rows_at h locs rows -> Obj.rows_at h1 locs rows) as Hrows.
  { intros locs rows Hat.
    induction Hat as [|l fields locs rows Hl _ IH]; constructor; [|exact IH].
    now apply lookup_app_l_Some. }
  pose proof (compare_loop_on_store (length h) c_items c_rows e_items e_rows h1 [] []
                (Hrows _ _ He) (Hrows _ _ Hc) Hchanges (List.Forall2_nil _)) as Hloop.
  unfold compare, Obj.compare, Obj.alloc, Obj.read_list, bind. fold h1.
  rewrite (lookup_app_l_Some _ [Obj.RowList []] _ _ Henrolment : h1 !! enrolment = _).
  rewrite (lookup_app_l_Some _ [Obj.RowList []] _ _ Hcustom : h1 !! custom_field = _).
  destruct (compare_loop e_rows c_rows e_pos c_pos es_pos cs_pos []) as [changes|e].
  - destruct Hloop as (h' & items & Hrun & Hres & Hat).
    exists (length h), h', items. rewrite Hrun. now repeat split.
  - destruct Hloop as (h' & Hrun).
    exists h'. now rewrite Hrun.
Qed.

End Simulation.

End ObjCompare.

Example clean_date_in_place :
  Obj.clean_date 1%nat 3 Obj.ed_store
  = (Ok 2%nat,
     [Obj.Row ["FitNZ0001"; "A Student"; "Personal Training (PT-01-ONL)"; "15/06/2020";
               "2021-06-15 00:00:00"];
      Obj.RowList [0%nat];
      Obj.RowList [0%nat]]).
Proof. reflexivity. Qed.

Example add_student_id_in_place :
  Obj.add_student_id 1%nat 3 Obj.cf_store
  = (Ok 2%nat,
     [Obj.Row ["17"; "a"; "b";
               "FitNZ0001 Course Start Date: 15/06/2020 Course End Date: 15/06/2021"; "c";
               "FitNZ0001"];
      Obj.RowList [0%nat];
      Obj.RowList [0%nat]]).
Proof. reflexivity. Qed.

Example get_courses_new_list :
  Obj.get_courses 1%nat 2 Obj.ed_store
  = (Ok 2%nat, Obj.ed_store ++ [Obj.RowList [0%nat]]).
Proof. reflexivity. Qed.

Example custom_fields_pipeline :
  (let run :=
     bind (Obj.extract_students 1%nat 3) (fun cf1 =>
     bind (Obj.add_student_id cf1 3) (fun cf2 =>
     bind (Obj.add_start_date cf2 3) (fun cf3 =>
     bind (Obj.add_end_date cf3 3) (fun cf4 =>
     bind (Obj.strip_cf_data cf4) (fun cf5 =>
     bind (Obj.read_list cf5) (fun items =>
     bind (Obj.read_row (hd 0%nat items)) (fun fields => ret fields)))))))
   in fst (run Obj.cf_store))
  = Ok ["FitNZ0001"; "15/06/2020"; "15/06/2021"].
Proof. reflexivity. Qed.

(** C3 (as the code has it): purity with respect to the input fails
    for the stages that update rows.  On a store of one list of one
    row, [clean_date] overwrites the date column of the row of its
    input, and [add_student_id], [add_start_date] and [add_end_date]
    append a field to it: none of the four is pure with respect to its
    input. *)
Lemma stages_not_all_pure :
  Obj.clean_date 1%nat 3 Obj.ed_store
  = (Ok 2%nat,
     [Obj.Row ["FitNZ0001"; "A Student"; "Personal Training (PT-01-ONL)"; "15/06/2020";
               "2021-06-15 00:00:00"];
      Obj.RowList [0%nat];
      Obj.RowList [0%nat]])
  /\ ~ Obj.pure_stage 1%nat (Obj.clean_date 1%nat 3)
  /\ ~ Obj.pure_stage 1%nat (Obj.add_student_id 1%nat 3)
  /\ ~ Obj.pure_stage 1%nat (Obj.add_start_date 1%nat 3)
  /\ ~ Obj.pure_stage 1%nat (Obj.add_end_date 1%nat 3).
Proof.
  split; [reflexivity|].
  split; [|split; [|split]]; intros Hpure.
  - destruct (Hpure Obj.ed_store _ [0%nat] 2%nat eq_refl eq_refl) as (_ & _ & Hrows).
    specialize (Hrows 0%nat _ (or_introl eq_refl) eq_refl). discriminate Hrows.
  - destruct (Hpure Obj.cf_store _ [0%nat] 2%nat eq_refl eq_refl) as (_ & _ & Hrows).
    specialize (Hrows 0%nat _ (or_introl eq_refl) eq_refl). discriminate Hrows.
  - destruct (Hpure Obj.cf_store _ [0%nat] 2%nat eq_refl eq_refl) as (_ & _ & Hrows).
    specialize (Hrows 0%nat _ (or_introl eq_refl) eq_refl). discriminate Hrows.
  - destruct (Hpure Obj.cf_store _ [0%nat] 2%nat eq_refl eq_refl) as (_ & _ & Hrows).
    specialize (Hrows 0%nat _ (or_introl eq_refl) eq_refl). discriminate Hrows.
Qed.

(** What the stages do instead is stated for all of them together once
    the content of the updated rows has been computed, under "The
    stages and the store" below. *)

(** * Further properties *)

(** ** Course codes *)

Example extract_course_code_intro :
  extract_course_code "Intro (ABC-12-XYZ)" = Ok "ABC-12-XYZ".
Proof. reflexivity. Qed.

Example extract_course_code_plain : extract_course_code "Intro Course" = Ok "Skip".
Proof. reflexivity. Qed.

Example extract_course_code_trailing :
  extract_course_code "Intro (ABC-12-XYZ) part-time" = Ok "ABC-12-XYZ) part-tim".
Proof. reflexivity. Qed.

Lemma substring_length (s : string) (n m : nat) :
  String.length (substring n m s) = Nat.min m (String.length s - n).
Proof.
  revert n m.
  induction s as [|c s IH]; intros n m.
  - destruct n, m; reflexivity.
  - destruct n as [|n].
    + destruct m as [|m]; [reflexivity|].
      simpl. rewrite IH. now rewrite Nat.sub_0_r.
    + simpl. apply IH.
Qed.

(** Every item of a pattern takes at least one character. *)
Lemma match_here_length (s : string) (p : list pat_item) :
  match_here s p = true -> (length p <= String.length s)%nat.
Proof.
  revert p.
  induction s as [|d s IH]; intros p Hm.
  - destruct p as [|[|c] p]; simpl in Hm; [simpl; lia|discriminate Hm|discriminate Hm].
  - destruct p as [|[|c] p]; [simpl; lia| |].
    + simpl in Hm. destruct (Ascii.eqb d nl_char); [discriminate Hm|].
      apply orb_prop in Hm as [Hm|Hm]; apply IH in Hm; simpl in *; lia.
    + simpl in Hm. destruct (Ascii.eqb c d); [|discriminate Hm].
      apply IH in Hm. simpl. lia.
Qed.

(** What [.+] leaves to the rest of the pattern is a proper suffix. *)
Lemma match_here_any_plus (s : string) (p : list pat_item) :
  match_here s (AnyPlus :: p) = true ->
  exists a b : string, s = a +:+ b /\ match_here b p = true.
Proof.
  induction s as [|d s IH]; intros Hm; [discriminate Hm|].
  simpl in Hm. destruct (Ascii.eqb d nl_char); [discriminate Hm|].
  apply orb_prop in Hm as [Hm|Hm].
  - destruct (IH Hm) as (a & b & -> & Hb). now exists (String d a), b.
  - now exists (String d ""), s.
Qed.

Lemma re_search_suffix (p : list pat_item) (s : string) :
  re_search p s = true ->
  exists a b : string, s = a +:+ b /\ match_here b p = true.
Proof.
  induction s as [|d s IH]; simpl; intros Hm.
  - apply orb_prop in Hm as [Hm|Hm]; [|discriminate Hm]. now exists "", "".
  - apply orb_prop in Hm as [Hm|Hm].
    + now exists "", (String d s).
    + destruct (IH Hm) as (a & b & -> & Hb). now exists (String d a), b.
Qed.

(** A course that matches the pattern holds a parenthesis with at least
    six characters after it. *)
Lemma course_pattern_paren (course : string) :
  re_search course_code_pattern course = true ->
  exists pre t : string,
    course = pre +:+ "(" +:+ t /\ (6 <= String.length t)%nat.
Proof.
  intros Hm.
  apply re_search_suffix in Hm as (a & b & -> & Hb).
  unfold course_code_pattern in Hb.
  apply match_here_any_plus in Hb as (b1 & b2 & -> & Hb2).
  destruct b2 as [|d t]; [discriminate Hb2|].
  cbn [match_here] in Hb2.
  destruct (Ascii.eqb_spec "(" d) as [<-|]; [|discriminate Hb2].
  apply match_here_length in Hb2.
  exists (a +:+ b1), t. split; [|exact Hb2].
  now rewrite str_app_assoc.
Qed.

(** The first parenthesis of a text that has one. *)
Lemma index_paren (pre t : string) :
  exists start : nat,
    String.index 0 "(" (pre +:+ "(" +:+ t) = Some start /\
    (start <= String.length pre)%nat.
Proof.
  pose proof (occurs_at_app pre "(" t) as Hocc. unfold occurs_at in Hocc.
  destruct (String.index 0 "(" (pre +:+ "(" +:+ t)) as [start|] eqn:Hidx.
  - exists start. split; [reflexivity|].
    destruct (Nat.le_gt_cases start (String.length pre)) as [Hle|Hgt]; [exact Hle|].
    exfalso. apply (index_correct2 _ _ _ _ Hidx (String.length pre)); [lia|exact Hgt|exact Hocc].
  - exfalso.
    apply (index_correct3 _ (String.length pre) _ _ Hidx); [discriminate|lia|exact Hocc].
Qed.

(** The code returned for a text that matches the pattern is at least
    five characters long. *)
Lemma extract_course_code_cases (course : string) :
  exists code : string,
    extract_course_code course = Ok code /\
    negb (String.eqb code "Skip") = re_search course_code_pattern course.
Proof.
  unfold extract_course_code.
  destruct (re_search course_code_pattern course) eqn:Hm; [|now exists "Skip"].
  destruct (course_pattern_paren course Hm) as (pre & t & -> & Ht).
  destruct (index_paren pre t) as (start & Hidx & Hstart).
  unfold str_index. rewrite Hidx. unfold res_bind.
  eexists. split; [reflexivity|].
  apply negb_true_iff, String.eqb_neq. intros Hskip.
  apply (f_equal String.length) in Hskip.
  unfold slice, slice_bound in Hskip.
  change (-1 <? 0) with true in Hskip.
  destruct (Z.ltb_spec (Z.of_nat start + 1) 0) as [?|_]; [lia|].
  rewrite substring_length, !str_length_app in Hskip.
  simpl in Hskip. lia.
Qed.

(** X1: [extract_course_code] never raises, whatever the text: the
    [index] of the parenthesis is taken only after the pattern has
    matched.  And it returns 'Skip' exactly when the text does not
    match the pattern, since the code returned for a match has at least
    five characters: the sentinel cannot be mistaken for a code. *)
Theorem extract_course_code_skip (course : string) :
  (exists code : string, extract_course_code course = Ok code) /\
  (extract_course_code course = Ok "Skip" <->
   re_search course_code_pattern course = false).
Proof.
  unfold extract_course_code.
  destruct (re_search course_code_pattern course) eqn:Hm.
  - destruct (course_pattern_paren course Hm) as (pre & t & -> & Ht).
    destruct (index_paren pre t) as (start & Hidx & Hstart).
    unfold str_index. rewrite Hidx. unfold res_bind.
    split; [eexists; reflexivity|].
    split; [|discriminate].
    intros [= Hskip]. exfalso.
    apply (f_equal String.length) in Hskip.
    unfold slice, slice_bound in Hskip.
    change (-1 <? 0) with true in Hskip.
    destruct (Z.ltb_spec (Z.of_nat start + 1) 0) as [?|_]; [lia|].
    rewrite substring_length, !str_length_app in Hskip.
    simpl in Hskip. lia.
  - split; [eexists; reflexivity|]. split; reflexivity.
Qed.

Lemma match_here_any_plus_app (x rest : string) (p : list pat_item) :
  x <> "" -> no_newline x -> match_here rest p = true ->
  match_here (x +:+ rest) (AnyPlus :: p) = true.
Proof.
  unfold no_newline. intros Hx Hnl Hrest.
  induction x as [|d x IH]; [congruence|].
  simpl in Hnl. apply andb_prop in Hnl as [Hd Hnl].
  apply negb_true_iff in Hd.
  cbn [String.append match_here]. rewrite Hd.
  destruct x as [|d' x].
  - simpl. rewrite Hrest. apply orb_true_r.
  - rewrite IH; [reflexivity|discriminate|exact Hnl].
Qed.

Lemma match_here_lit (c : ascii) (rest : string) (p : list pat_item) :
  match_here (String c rest) (Lit c :: p) = match_here rest p.
Proof. simpl. now rewrite Ascii.eqb_refl. Qed.

Lemma re_search_here (p : list pat_item) (s : string) :
  match_here s p = true -> re_search p s = true.
Proof. intros Hm. destruct s; cbn [re_search]; now rewrite Hm. Qed.

(** X2: for a course text made of a description without parenthesis,
    then '(', three non-empty parts separated by '-', and a final ')'
    (none of them holding a newline), [extract_course_code] returns the
    three parts with their hyphens: the text between the parentheses. *)
Theorem extract_course_code_parenthesised (desc a b c : string) :
  desc <> "" -> a <> "" -> b <> "" -> c <> "" ->
  no_newline desc -> no_newline a -> no_newline b -> no_newline c ->
  no_paren desc ->
  extract_course_code (desc +:+ "(" +:+ a +:+ "-" +:+ b +:+ "-" +:+ c +:+ ")")
  = Ok (a +:+ "-" +:+ b +:+ "-" +:+ c).
Proof.
  intros Hdesc Ha Hb Hc Ndesc Na Nb Nc Pdesc.
  unfold extract_course_code.
  rewrite re_search_here.
  2:{ apply match_here_any_plus_app; [exact Hdesc|exact Ndesc|].
      change ("(" +:+ a +:+ "-" +:+ b +:+ "-" +:+ c +:+ ")")
        with (String "(" (a +:+ "-" +:+ b +:+ "-" +:+ c +:+ ")")).
      rewrite match_here_lit.
      apply match_here_any_plus_app; [exact Ha|exact Na|].
      change ("-" +:+ b +:+ "-" +:+ c +:+ ")") with (String "-" (b +:+ "-" +:+ c +:+ ")")).
      rewrite match_here_lit.
      apply match_here_any_plus_app; [exact Hb|exact Nb|].
      change ("-" +:+ c +:+ ")") with (String "-" (c +:+ ")")).
      rewrite match_here_lit.
      apply match_here_any_plus_app; [exact Hc|exact Nc|].
      reflexivity. }
  pose proof (str_find_char "(" desc (a +:+ "-" +:+ b +:+ "-" +:+ c +:+ ")") Pdesc) as Hfind.
  unfold str_find in Hfind. unfold str_index.
  change (desc +:+ "(" +:+ a +:+ "-" +:+ b +:+ "-" +:+ c +:+ ")")
    with (desc +:+ String "(" (a +:+ "-" +:+ b +:+ "-" +:+ c +:+ ")")).
  destruct (index 0 "(" (desc +:+ String "(" (a +:+ "-" +:+ b +:+ "-" +:+ c +:+ ")")))
    as [start|]; [|lia].
  apply Nat2Z.inj in Hfind. subst start.
  unfold res_bind. f_equal.
  set (code := a +:+ "-" +:+ b +:+ "-" +:+ c).
  replace (desc +:+ String "(" (a +:+ "-" +:+ b +:+ "-" +:+ c +:+ ")"))
    with ((desc +:+ "(") +:+ code +:+ ")")
    by (unfold code; now rewrite !str_app_assoc).
  unfold slice, slice_bound.
  change (-1 <? 0) with true.
  destruct (Z.ltb_spec (Z.of_nat (String.length desc) + 1) 0) as [?|_]; [lia|].
  rewrite !str_length_app. cbn [String.length].
  rewrite Z.min_l by lia. rewrite Z.max_r by lia.
  replace (Z.to_nat (Z.of_nat (String.length desc) + 1))
    with (String.length (desc +:+ "(") + 0)%nat
    by (rewrite str_length_app; simpl; lia).
  rewrite substring_app_skip.
  replace (Z.to_nat _) with (String.length code) by lia.
  apply substring_app_take.
Qed.

Lemma extract_course_code_parenthesised_witness :
  extract_course_code ("Intro " +:+ "(" +:+ "ABC" +:+ "-" +:+ "12" +:+ "-" +:+ "XYZ" +:+ ")")
  = Ok ("ABC" +:+ "-" +:+ "12" +:+ "-" +:+ "XYZ").
Proof.
  apply (extract_course_code_parenthesised "Intro " "ABC" "12" "XYZ");
    first [discriminate|reflexivity].
Defined.

(** ** Column extractors, at their edges *)

(** X3: [extract_date] reads the first ten characters of its argument
    only, and takes the day, month and year from their fixed positions
    whatever the characters at the two separator positions are: for a
    text of ten ASCII characters followed by anything, the result is
    the ten characters DD/MM/YYYY built from that prefix. *)
Theorem extract_date_first_ten (p rest : string) :
  ascii_text p ->
  String.length p = 10%nat ->
  extract_date (p +:+ rest)
  = substring 8 2 p +:+ "/" +:+ substring 5 2 p +:+ "/" +:+ substring 0 4 p
  /\ extract_date (p +:+ rest) = extract_date p
  /\ String.length (extract_date (p +:+ rest)) = 10%nat.
Proof.
  intros _ Hp.
  destruct p as [|c0 [|c1 [|c2 [|c3 [|c4 [|c5 [|c6 [|c7 [|c8 [|c9 [|? ?]]]]]]]]]]];
    try discriminate Hp.
  unfold extract_date.
  rewrite !slice_upto by lia.
  rewrite !slice_between by lia.
  destruct rest; repeat split; reflexivity.
Qed.

Lemma extract_date_first_ten_witness :
  extract_date ("2020/06/15" +:+ " 09:30:00")
  = substring 8 2 "2020/06/15" +:+ "/" +:+ substring 5 2 "2020/06/15" +:+ "/"
    +:+ substring 0 4 "2020/06/15"
  /\ extract_date ("2020/06/15" +:+ " 09:30:00") = extract_date "2020/06/15"
  /\ String.length (extract_date ("2020/06/15" +:+ " 09:30:00")) = 10%nat.
Proof.
  apply (extract_date_first_ten "2020/06/15" " 09:30:00"); reflexivity.
Defined.

Lemma no_digit_substring (s : string) (n m : nat) :
  no_digit s -> no_digit (substring n m s).
Proof.
  unfold no_digit. revert n m.
  induction s as [|c s IH]; intros n m Hs.
  - destruct n, m; reflexivity.
  - simpl in Hs. apply andb_prop in Hs as [Hc Hs].
    destruct n as [|n].
    + destruct m as [|m]; [reflexivity|].
      simpl. rewrite Hc. now apply IH.
    + simpl. now apply IH.
Qed.

Lemma search_digit_none (s : string) : no_digit s -> search_digit s = None.
Proof.
  unfold no_digit.
  induction s as [|c s IH]; intros Hs; [reflexivity|].
  simpl in Hs. apply andb_prop in Hs as [Hc Hs].
  apply negb_true_iff in Hc.
  simpl. now rewrite Hc, IH.
Qed.

(** X4: when the text of the data column is ASCII text and holds no
    digit at all, [extract_course_date] does not return: the search for
    the first digit finds nothing and taking its position raises
    [AttributeError], whatever the label. *)
Theorem extract_course_date_no_date (student : list string) (data_pos : Z)
    (label text : string) :
  getitem student data_pos = Ok text ->
  ascii_text text ->
  no_digit text ->
  extract_course_date student data_pos label = Raise AttributeError.
Proof.
  intros Hget _ Htext.
  unfold extract_course_date. rewrite Hget. unfold res_bind.
  rewrite search_digit_none; [reflexivity|].
  unfold slice. now apply no_digit_substring.
Qed.

Lemma extract_course_date_no_date_witness :
  extract_course_date ["17"; "a"; "b"; "Course Start Date: to be confirmed"] 3
    "Course Start Date"
  = Raise AttributeError.
Proof.
  apply (extract_course_date_no_date _ 3 _ "Course Start Date: to be confirmed");
    reflexivity.
Defined.

(** X5: when the marker occurs in the text, [extract_student_id]
    returns the marker followed by the next four characters or, when
    fewer than four follow, by all that follow: a short id is returned
    as it is, without an error.  The characters taken after the marker
    are ASCII characters. *)
Theorem extract_student_id_up_to_four (student : list string) (data_pos : Z)
    (pre tail : string) :
  getitem student data_pos = Ok (pre +:+ "FitNZ" +:+ tail) ->
  (forall p : nat, (p < String.length pre)%nat ->
     ~ occurs_at "FitNZ" (pre +:+ "FitNZ" +:+ tail) p) ->
  ascii_text (substring 0 4 tail) ->
  extract_student_id student data_pos = Ok ("FitNZ" +:+ substring 0 4 tail).
Proof.
  intros Hget Hfirst _.
  unfold extract_student_id. rewrite Hget. unfold res_bind.
  rewrite (str_find_first "FitNZ" _ (String.length pre)).
  2:{ split; [|exact Hfirst]. apply (occurs_at_app pre "FitNZ" tail). }
  f_equal.
  rewrite slice_between by lia.
  replace (Z.to_nat (Z.of_nat (String.length pre) + 9)
           - Z.to_nat (Z.of_nat (String.length pre)))%nat with 9%nat by lia.
  rewrite Nat2Z.id.
  rewrite <- (Nat.add_0_r (String.length pre)).
  rewrite substring_app_skip.
  reflexivity.
Qed.

Lemma extract_student_id_up_to_four_witness :
  extract_student_id ["17"; "a"; "b"; "id FitNZ12"] 3 = Ok ("FitNZ" +:+ substring 0 4 "12").
Proof.
  apply (extract_student_id_up_to_four ["17"; "a"; "b"; "id FitNZ12"] 3 "id " "12").
  - reflexivity.
  - intros p Hp. unfold occurs_at. simpl in Hp.
    destruct p as [|[|[|p]]]; [discriminate ..|lia].
  - reflexivity.
Defined.

Lemma substring_none (s : string) (n : nat) : substring n 0 s = "".
Proof.
  revert n. induction s as [|c s IH]; intros [|n]; try reflexivity.
  simpl. apply IH.
Qed.

(** X6: when the marker does not occur in an ASCII text of nine
    characters or more, [extract_student_id] still returns: [find]
    gives -1, the slice from -1 to 8 is empty, and the id is the empty
    text. *)
Theorem extract_student_id_absent (student : list string) (data_pos : Z) (text : string) :
  getitem student data_pos = Ok text ->
  str_contains "FitNZ" text = false ->
  ascii_text text ->
  (9 <= String.length text)%nat ->
  extract_student_id student data_pos = Ok "".
Proof.
  intros Hget Habsent _ Hlen.
  unfold extract_student_id. rewrite Hget. unfold res_bind.
  unfold str_contains in Habsent. unfold str_find.
  destruct (index 0 "FitNZ" text); [discriminate Habsent|].
  f_equal. unfold slice, slice_bound.
  change (-1 <? 0) with true. change (-1 + 9 <? 0) with false. cbv iota.
  rewrite Z.max_r by lia. rewrite Z.min_l by lia.
  replace (Z.to_nat (-1 + 9 - (Z.of_nat (String.length text) + -1))) with 0%nat by lia.
  apply substring_none.
Qed.

Lemma extract_student_id_absent_witness :
  extract_student_id ["17"; "a"; "b"; "no marker in this text"] 3 = Ok "".
Proof.
  apply (extract_student_id_absent _ 3 "no marker in this text"); [reflexivity ..|].
  simpl. lia.
Defined.

(** ** The matcher, further *)

Section MatcherSound.
Variables e_pos c_pos es_pos cs_pos : Z.

Lemma compare_student_adds (student : list string) (secondary changes changes' : list (list string)) :
  compare_student student secondary e_pos c_pos es_pos cs_pos changes = Ok changes' ->
  changes' = changes \/
  exists record : list string,
    changes' = changes ++ [record] /\
    accounted_for [student] secondary e_pos c_pos es_pos cs_pos record.
Proof.
  induction secondary as [|c_student rest IH]; simpl.
  - intros [= <-]. now left.
  - destruct (getitem student es_pos) as [sid|] eqn:Hsid; simpl; [|discriminate].
    destruct (getitem c_student cs_pos) as [cid|] eqn:Hcid; simpl; [|discriminate].
    destruct (String.eqb_spec sid cid) as [<-|Hne].
    + destruct (getitem student e_pos) as [sdate|] eqn:Hsdate; simpl; [|discriminate].
      destruct (getitem c_student c_pos) as [cdate|] eqn:Hcdate; simpl; [|discriminate].
      destruct (String.eqb_spec sdate cdate) as [Heq|Hdiff]; simpl.
      * intros [= <-]. now left.
      * intros [= <-]. right. exists [sid; sdate]. split; [reflexivity|].
        exists student, c_student, sid, sdate, cdate.
        repeat split; auto; now left.
    + intros Hrest. destruct (IH Hrest) as [->|(record & -> & Hacc)]; [now left|].
      right. exists record. split; [reflexivity|].
      destruct Hacc as (s0 & c0 & id & date & cdate & Hs0 & Hc0 & Hrest').
      exists s0, c0, id, date, cdate. split; [exact Hs0|]. split; [now right|exact Hrest'].
Qed.

Lemma accounted_for_weaken (primary primary' secondary : list (list string))
    (record : list string) :
  (forall r, In r primary -> In r primary') ->
  accounted_for primary secondary e_pos c_pos es_pos cs_pos record ->
  accounted_for primary' secondary e_pos c_pos es_pos cs_pos record.
Proof.
  intros Hsub (s0 & c0 & id & date & cdate & Hs0 & Hrest).
  exists s0, c0, id, date, cdate. split; [now apply Hsub|exact Hrest].
Qed.

Lemma compare_loop_adds (primary secondary changes changes' : list (list string)) :
  compare_loop primary secondary e_pos c_pos es_pos cs_pos changes = Ok changes' ->
  exists parts : list (list (list string)),
    changes' = changes ++ concat parts /\
    List.Forall2 (reported secondary e_pos c_pos es_pos cs_pos) primary parts.
Proof.
  revert changes.
  induction primary as [|student rest IH]; intros changes; simpl.
  - intros [= <-]. exists []. rewrite app_nil_r.
    split; [reflexivity|constructor].
  - destruct (compare_student student secondary e_pos c_pos es_pos cs_pos changes)
      as [changes1|] eqn:Hstudent; simpl; [|discriminate].
    intros Hrest. destruct (IH _ Hrest) as (parts & -> & Hparts).
    destruct (compare_student_adds _ _ _ _ Hstudent) as [->|(record & -> & Hacc)].
    + exists ([] :: parts). split; [reflexivity|].
      constructor; [now left|exact Hparts].
    + exists ([record] :: parts). rewrite <- app_assoc.
      split; [reflexivity|].
      constructor; [|exact Hparts].
      right. now exists record.
Qed.

(** At most one record for each row, and each accounted for. *)
Lemma reported_parts (primary secondary : list (list string))
    (parts : list (list (list string))) :
  List.Forall2 (reported secondary e_pos c_pos es_pos cs_pos) primary parts ->
  (length (concat parts) <= length primary)%nat /\
  List.Forall (accounted_for primary secondary e_pos c_pos es_pos cs_pos) (concat parts).
Proof.
  intros Hparts.
  induction Hparts as [|student part rest parts Hpart _ [Hlen Hall]]; simpl.
  - split; [lia|constructor].
  - assert (List.Forall (accounted_for (student :: rest) secondary e_pos c_pos es_pos cs_pos)
              (concat parts)) as Hall'.
    { eapply List.Forall_impl; [|exact Hall].
      intros record. apply accounted_for_weaken. intros r Hr. now right. }
    destruct Hpart as [->|(record & -> & Hacc)]; simpl.
    + split; [lia|exact Hall'].
    + split; [lia|]. constructor; [|exact Hall'].
      eapply accounted_for_weaken; [|exact Hacc].
      intros r [<-|[]]. now left.
Qed.

End MatcherSound.

(** X7: whenever [compare] returns, it returns at most one change
    record per primary row, and every record is accounted for.  The
    result is made of one part for each primary row, in the order of
    the rows, and the part of a row is empty or is one record, the id
    and date of this very row, for which some secondary row has the
    same id and a different date.  So no row is reported twice, the
    result is no longer than the primary rows, and nothing is reported
    that the two row sets do not show. *)
Theorem compare_sound (primary secondary changes : list (list string))
    (e_pos c_pos es_pos cs_pos : Z) :
  compare primary secondary e_pos c_pos es_pos cs_pos = Ok changes ->
  (exists parts : list (list (list string)),
     changes = concat parts /\
     List.Forall2 (reported secondary e_pos c_pos es_pos cs_pos) primary parts) /\
  (length changes <= length primary)%nat /\
  List.Forall (accounted_for primary secondary e_pos c_pos es_pos cs_pos) changes.
Proof.
  unfold compare. intros Hrun.
  destruct (compare_loop_adds _ _ _ _ _ _ _ _ Hrun) as (parts & -> & Hparts).
  simpl. split; [now exists parts|].
  now apply reported_parts.
Qed.

Lemma compare_sound_witness :
  (exists parts : list (list (list string)),
     [["1"; "01/01/2020"]] = concat parts /\
     List.Forall2
       (reported [["2"; "05/05/2020"]; ["1"; "02/01/2020"]] 1 1 0 0)
       [["1"; "01/01/2020"]; ["2"; "05/05/2020"]] parts) /\
  (length [["1"; "01/01/2020"]] <= length [["1"; "01/01/2020"]; ["2"; "05/05/2020"]])%nat /\
  List.Forall
    (accounted_for [["1"; "01/01/2020"]; ["2"; "05/05/2020"]]
       [["2"; "05/05/2020"]; ["1"; "02/01/2020"]] 1 1 0 0)
    [["1"; "01/01/2020"]].
Proof.
  apply (compare_sound [["1"; "01/01/2020"]; ["2"; "05/05/2020"]]
           [["2"; "05/05/2020"]; ["1"; "02/01/2020"]] [["1"; "01/01/2020"]] 1 1 0 0).
  reflexivity.
Defined.

Lemma flat_map_all_nil {A B : Type} (f : A -> list B) (l : list A) :
  (forall x, In x l -> f x = []) -> flat_map f l = [].
Proof.
  induction l as [|x l IH]; intros Hall; [reflexivity|].
  simpl. rewrite (Hall x) by now left.
  apply IH. intros y Hy. apply Hall. now right.
Qed.

Lemma nodup_map_inj {A B : Type} (f : A -> B) (l : list A) (a b : A) :
  List.NoDup (map f l) -> In a l -> In b l -> f a = f b -> a = b.
Proof.
  induction l as [|x l IH]; intros Hnd Ha Hb Hf; [destruct Ha|].
  simpl in Hnd. apply List.NoDup_cons_iff in Hnd as [Hx Hnd].
  destruct Ha as [->|Ha], Hb as [->|Hb].
  - reflexivity.
  - exfalso. apply Hx. rewrite Hf. now apply in_map.
  - exfalso. apply Hx. rewrite <- Hf. now apply in_map.
  - now apply IH.
Qed.

(** X8: a row set compared with itself, on the same columns, gives no
    change when its ids are distinct: each row finds itself first. *)
Theorem compare_self (rows : list (list string)) (date_pos id_pos : Z) :
  List.Forall (fun r => has_col r id_pos /\ has_col r date_pos) rows ->
  List.NoDup (map (fun r => field r id_pos) rows) ->
  compare rows rows date_pos date_pos id_pos id_pos = Ok [].
Proof.
  intros Hcols Hids. unfold compare.
  rewrite compare_loop_diff_by_id by exact Hcols.
  f_equal. unfold diff_by_id. apply flat_map_all_nil.
  intros student Hstudent. unfold diff_row.
  destruct (List.find (same_id id_pos id_pos student) rows) as [c|] eqn:Hfind;
    [|reflexivity].
  apply List.find_some in Hfind as [Hc Hsame].
  unfold same_id in Hsame. apply String.eqb_eq in Hsame.
  assert (student = c) as <-
    by exact (nodup_map_inj (fun r => field r id_pos) rows student c Hids Hstudent Hc Hsame).
  now rewrite String.eqb_refl.
Qed.

Lemma compare_self_witness :
  compare [["1"; "01/01/2020"]; ["2"; "05/05/2020"]] [["1"; "01/01/2020"]; ["2"; "05/05/2020"]]
    1 1 0 0 = Ok [].
Proof.
  apply (compare_self [["1"; "01/01/2020"]; ["2"; "05/05/2020"]] 1 0).
  - repeat constructor; eexists; reflexivity.
  - repeat constructor; simpl; intuition discriminate.
Defined.

Example compare_self_duplicate_id :
  compare [["1"; "01/01/2020"]; ["1"; "05/05/2020"]] [["1"; "01/01/2020"]; ["1"; "05/05/2020"]]
    1 1 0 0 = Ok [["1"; "05/05/2020"]].
Proof. reflexivity. Qed.

(** X9: when the ids of the secondary rows are distinct, [compare]
    misses no difference: for every primary row and secondary row of
    the same id and different dates, the change record of the primary
    id and date is in the result. *)
Theorem compare_complete (primary secondary : list (list string))
    (e_pos c_pos es_pos cs_pos : Z) (student c_student : list string) :
  List.Forall (fun r => has_col r es_pos /\ has_col r e_pos) primary ->
  List.Forall (fun r => has_col r cs_pos /\ has_col r c_pos) secondary ->
  List.NoDup (map (fun r => field r cs_pos) secondary) ->
  In student primary ->
  In c_student secondary ->
  field student es_pos = field c_student cs_pos ->
  field student e_pos <> field c_student c_pos ->
  exists changes : list (list string),
    compare primary secondary e_pos c_pos es_pos cs_pos = Ok changes /\
    In [field student es_pos; field student e_pos] changes.
Proof.
  intros Hprim Hsec Hids Hstudent Hc Hid Hdate.
  unfold compare. rewrite compare_loop_diff_by_id by assumption.
  eexists. split; [reflexivity|].
  simpl. unfold diff_by_id. apply in_flat_map.
  exists student. split; [exact Hstudent|].
  unfold diff_row.
  destruct (List.find (same_id es_pos cs_pos student) secondary) as [c|] eqn:Hfind.
  - apply List.find_some in Hfind as [Hcin Hsame].
    unfold same_id in Hsame. apply String.eqb_eq in Hsame.
    assert (c = c_student) as ->.
    { apply (nodup_map_inj (fun r => field r cs_pos) secondary); try assumption.
      congruence. }
    apply String.eqb_neq in Hdate. rewrite Hdate. now left.
  - exfalso.
    pose proof (List.find_none _ _ Hfind c_student Hc) as Hnone.
    unfold same_id in Hnone. apply String.eqb_neq in Hnone. contradiction.
Qed.

Lemma compare_complete_witness :
  exists changes : list (list string),
    compare [["1"; "01/01/2020"]; ["2"; "05/05/2020"]]
      [["2"; "06/05/2020"]; ["1"; "01/01/2020"]] 1 1 0 0 = Ok changes /\
    In [field ["2"; "05/05/2020"] 0; field ["2"; "05/05/2020"] 1] changes.
Proof.
  apply (compare_complete [["1"; "01/01/2020"]; ["2"; "05/05/2020"]]
           [["2"; "06/05/2020"]; ["1"; "01/01/2020"]] 1 1 0 0
           ["2"; "05/05/2020"] ["2"; "06/05/2020"]).
  - repeat constructor; eexists; reflexivity.
  - repeat constructor; eexists; reflexivity.
  - repeat constructor; simpl; intuition discriminate.
  - right. now left.
  - now left.
  - reflexivity.
  - discriminate.
Defined.

(** ** The validator, further *)

Lemma getitem_field_in_range (r : list string) (i : Z) :
  0 <= i < Z.of_nat (length r) -> getitem r i = Ok (field r i).
Proof.
  intros Hi. destruct (getitem_in_range r i Hi) as [v Hv].
  rewrite Hv. now rewrite (getitem_field _ _ _ Hv).
Qed.

Lemma check_ed_scan_messages (report_data : list (list string)) (errors warnings : list string) :
  List.Forall (fun student : list string => (5 <= length student)%nat) report_data ->
  check_ed_scan report_data errors warnings
  = Ok (errors ++ flat_map row_errors report_data,
        warnings ++ flat_map row_warnings report_data).
Proof.
  intros Hrows. revert errors warnings.
  induction Hrows as [|student rest Hlen _ IH]; intros errors warnings.
  - simpl. now rewrite !app_nil_r.
  - cbn [check_ed_scan flat_map].
    rewrite !getitem_field_in_range by lia. unfold res_bind.
    unfold row_errors, row_warnings.
    destruct (String.eqb (field student 1) "");
      destruct (String.eqb (field student 2) "");
      destruct (String.eqb (field student 3) "");
      destruct (String.eqb (field student 4) "");
      rewrite IH; simpl; rewrite <- ?app_assoc; reflexivity.
Qed.

(** X10: on rows of the five columns of the report, the scan of
    [check_ed] completes and reports exactly the empty columns: its
    error list holds, row by row in the order of the rows, a message for
    an empty Course, then Enrolment Date, then Expiry Date, each naming
    the row's Student ID; its warning list holds the heading and then a
    message for each row with an empty Student Name. *)
Theorem check_ed_scan_reports (report_data : list (list string)) :
  List.Forall (fun student : list string => (5 <= length student)%nat) report_data ->
  check_ed_scan report_data []
    [nl +:+ "Enrolment Dates (Learning Platform) Report Warnings:" +:+ nl]
  = Ok (flat_map row_errors report_data,
        (nl +:+ "Enrolment Dates (Learning Platform) Report Warnings:" +:+ nl)
        :: flat_map row_warnings report_data).
Proof.
  intros Hrows. now rewrite check_ed_scan_messages.
Qed.

Lemma check_ed_scan_reports_witness :
  check_ed_scan
    [["FitNZ0001"; ""; "Course (AB-1-C)"; ""; "2021-06-15 00:00:00"];
     ["FitNZ0002"; "A Student"; ""; "2020-06-15 00:00:00"; ""]] []
    [nl +:+ "Enrolment Dates (Learning Platform) Report Warnings:" +:+ nl]
  = Ok (["Enrolment Date is missing for student with Student ID FitNZ0001";
         "Course is missing for student with Student ID FitNZ0002";
         "Expiry Date is missing for student with Student ID FitNZ0002"],
        [nl +:+ "Enrolment Dates (Learning Platform) Report Warnings:" +:+ nl;
         "Student Name is missing for student with Student ID FitNZ0001"]).
Proof.
  apply (check_ed_scan_reports
           [["FitNZ0001"; ""; "Course (AB-1-C)"; ""; "2021-06-15 00:00:00"];
            ["FitNZ0002"; "A Student"; ""; "2020-06-15 00:00:00"; ""]]).
  repeat constructor.
Defined.

(** A run of [check_ed] on rows without an empty required column. *)
Lemma check_ed_returns (report_data : list (list string)) (w : World) :
  List.Forall (fun student : list string => (5 <= length student)%nat) report_data ->
  flat_map row_errors report_data = [] ->
  exists flag : bool,
    check_ed report_data w
    = (Ok (flag,
           (nl +:+ "Enrolment Dates (Learning Platform) Report Warnings:" +:+ nl)
           :: flat_map row_warnings report_data), w) /\
    flag = (1 <? S (length (flat_map row_warnings report_data)))%nat.
Proof.
  intros Hrows Herrors.
  unfold check_ed, lift. unfold bind at 1.
  rewrite check_ed_scan_messages by exact Hrows.
  rewrite Herrors. cbn [fst snd app length Nat.ltb Nat.leb].
  unfold bind, ret.
  eexists. split; [|reflexivity].
  now destruct (length (flat_map row_warnings report_data)).
Qed.

(** X11: when no row of the report has an empty Course, Enrolment Date
    or Expiry Date, [check_ed] returns without any output or input: the
    world is as it was, the warnings are the heading and one message
    per row with an empty Student Name, and the flag tells whether
    there is such a row. *)
Theorem check_ed_passes (report_data : list (list string)) (w : World) :
  List.Forall (fun student : list string => (5 <= length student)%nat) report_data ->
  flat_map row_errors report_data = [] ->
  check_ed report_data w
  = (Ok (existsb (fun student => String.eqb (field student 1) "") report_data,
         (nl +:+ "Enrolment Dates (Learning Platform) Report Warnings:" +:+ nl)
         :: flat_map row_warnings report_data), w).
Proof.
  intros Hrows Herrors.
  destruct (check_ed_returns report_data w Hrows Herrors) as (flag & Hrun & Hflag).
  rewrite Hrun. do 3 f_equal. rewrite Hflag. symmetry.
  clear. induction report_data as [|student rest IH]; [reflexivity|].
  simpl. unfold row_warnings at 1.
  destruct (String.eqb (field student 1) ""); [reflexivity|].
  simpl. exact IH.
Qed.

Lemma check_ed_passes_witness :
  check_ed ed_missing_name ed_world
  = (Ok (true,
         [nl +:+ "Enrolment Dates (Learning Platform) Report Warnings:" +:+ nl;
          "Student Name is missing for student with Student ID FitNZ0001"]), ed_world).
Proof.
  apply (check_ed_passes ed_missing_name ed_world).
  - repeat constructor.
  - reflexivity.
Defined.

(** ** The error log *)

Lemma assoc_set_other {A : Type} (name k : string) (v : A) (table : list (string * A)) :
  name <> k -> assoc k (assoc_set name v table) = assoc k table.
Proof.
  intros Hne.
  induction table as [|[k' old] table IH]; simpl.
  - destruct (String.eqb_spec k name); [congruence|reflexivity].
  - destruct (String.eqb_spec name k') as [->|Hk']; simpl.
    + destruct (String.eqb_spec k k'); [congruence|reflexivity].
    + destruct (String.eqb k k'); [reflexivity|exact IH].
Qed.

Lemma assoc_set_id {A : Type} (name : string) (v : A) (table : list (string * A)) :
  assoc name table = Some v -> assoc_set name v table = table.
Proof.
  induction table as [|[k old] table IH]; simpl; [discriminate|].
  destruct (String.eqb_spec name k) as [->|Hk].
  - now intros [= ->].
  - intros Hv. now rewrite IH.
Qed.

Lemma log_lines_cons (line : string) (lines : list string) :
  log_lines (line :: lines) = line +:+ nl +:+ log_lines lines.
Proof.
  unfold log_lines. rewrite map_cons, concat_empty_cons. now rewrite str_app_assoc.
Qed.

(** The loop that writes the lines of a log to an open file. *)
Lemma for_each_write_lines (name : string) (lines : list string) (w : World)
    (content : string) :
  assoc name (disk w) = Some content ->
  exists w' : World,
    for_each lines (fun line => write name (line +:+ nl)) w = (Ok tt, w') /\
    disk w' = assoc_set name (content +:+ log_lines lines) (disk w) /\
    stdin w' = stdin w /\ stdout w' = stdout w /\ csv_files w' = csv_files w /\
    locked w' = locked w /\ clock w' = clock w /\ ticks w' = ticks w.
Proof.
  revert w content.
  induction lines as [|line lines IH]; intros w content Hopen.
  - exists w. split; [reflexivity|].
    unfold log_lines. simpl. rewrite str_app_empty_r.
    rewrite (assoc_set_id _ _ _ Hopen). repeat split.
  - cbn [for_each]. unfold bind at 1. unfold write at 1. rewrite Hopen.
    set (w1 := set_disk w (assoc_set name (content +:+ line +:+ nl) (disk w))).
    destruct (IH w1 (content +:+ line +:+ nl)) as (w' & Hrun & Hdisk & Hrest).
    { apply assoc_set_same. }
    exists w'. split; [exact Hrun|]. split; [|exact Hrest].
    rewrite Hdisk. unfold w1. cbn [disk set_disk].
    rewrite assoc_set_twice, log_lines_cons.
    now rewrite !str_app_assoc.
Qed.

(** A run of [save_error_log]. *)
Lemma save_error_log_run (source : string) (error_log : list string)
    (file_name : string) (w : World) :
  exists w' : World,
    save_error_log source error_log file_name w = (Ok tt, w') /\
    stdin w' = stdin w /\ locked w' = locked w /\ ticks w' = ticks w /\
    if existsb (String.eqb file_name) (locked w) then disk w' = disk w
    else disk w' = assoc_set file_name (source +:+ nl +:+ log_lines error_log) (disk w).
Proof.
  unfold save_error_log, try_io, open_w at 1.
  destruct (existsb (String.eqb file_name) (locked w)) eqn:Hlocked.
  - eexists. split; [reflexivity|]. repeat split.
  - set (w1 := set_disk w (assoc_set file_name "" (disk w))).
    unfold bind at 1. unfold open_w.
    change (locked w1) with (locked w). rewrite Hlocked.
    set (w2 := set_disk w1 (assoc_set file_name "" (disk w1))).
    unfold bind at 1. unfold write at 1.
    assert (assoc file_name (disk w2) = Some "") as Hopen2 by apply assoc_set_same.
    rewrite Hopen2.
    set (w3 := set_disk w2 (assoc_set file_name ("" +:+ source +:+ nl) (disk w2))).
    destruct (for_each_write_lines file_name error_log w3 (source +:+ nl))
      as (w4 & Hrun & Hdisk & Hin & Hout & Hcsv & Hlock & Hclock & Hticks).
    { apply assoc_set_same. }
    unfold bind at 1. rewrite Hrun.
    eexists. split; [reflexivity|].
    cbn [stdin locked ticks disk set_stdout].
    rewrite Hin, Hlock, Hticks, Hdisk.
    repeat split.
    unfold w3, w2, w1. cbn [disk set_disk].
    now rewrite !assoc_set_twice, !str_app_assoc.
Qed.

(** X12: [save_error_log] always returns.  When the file opens, it
    then holds the name of the source on its first line and one error
    per line after it; when it does not open, nothing is written to
    disk (a message is printed) and no exception reaches the caller. *)
Theorem save_error_log_effect (source : string) (error_log : list string)
    (file_name : string) (w : World) :
  exists w' : World,
    save_error_log source error_log file_name w = (Ok tt, w') /\
    if existsb (String.eqb file_name) (locked w) then disk w' = disk w
    else file_content file_name w' = Some (source +:+ nl +:+ log_lines error_log).
Proof.
  destruct (save_error_log_run source error_log file_name w)
    as (w' & Hrun & _ & _ & _ & Hdisk).
  exists w'. split; [exact Hrun|].
  destruct (existsb (String.eqb file_name) (locked w)); [exact Hdisk|].
  unfold file_content. rewrite Hdisk. apply assoc_set_same.
Qed.

Example save_error_log_locked :
  disk (snd (save_error_log "Report" ["an error"] "Locked_200101-000000.txt" sample_world))
  = disk sample_world.
Proof. reflexivity. Qed.

(** X13: [process_error_log] leaves the error log behind before it
    ends the run: when the operator answers its last prompt and the log
    file opens, the run ends in [SystemExit] and the file
    Error_log__<time>.txt (with two underscores) holds the name of the
    source and then the errors, one per line. *)
Theorem process_error_log_leaves_log (errors : list string) (source : string) (w : World) :
  stdin w <> [] ->
  existsb (String.eqb ("Error_log_" +:+ "_" +:+ clock w (ticks w) +:+ ".txt")) (locked w)
  = false ->
  exists w' : World,
    process_error_log errors source w = (Raise SystemExit, w') /\
    file_content ("Error_log__" +:+ clock w (ticks w) +:+ ".txt") w'
    = Some (source +:+ nl +:+ log_lines errors).
Proof.
  intros Hin Hopen.
  unfold process_error_log.
  unfold bind at 1. unfold print at 1.
  set (w1 := set_stdout w _).
  destruct (returns_quietly_for_each errors (fun line => print line)
              (fun line => returns_quietly_print line) w1) as ([] & w2 & Hrun2 & Hin2 & _).
  assert (locked w2 = locked w /\ disk w2 = disk w /\ clock w2 = clock w
          /\ ticks w2 = ticks w) as (Hlock2 & Hdisk2 & Hclock2 & Hticks2).
  { clear - Hrun2. unfold w1 in Hrun2. clearbody w1. revert w1 w2 Hrun2.
    assert (forall (lines : list string) (wa wb : World),
              for_each lines (fun line => print line) wa = (Ok tt, wb) ->
              locked wb = locked wa /\ disk wb = disk wa /\ clock wb = clock wa
              /\ ticks wb = ticks wa) as Hgen.
    { induction lines as [|line lines IH]; intros wa wb.
      - intros [= <-]. repeat split.
      - cbn [for_each]. unfold bind at 1. unfold print at 1. intros Hrun.
        apply IH in Hrun. exact Hrun. }
    intros w1 w2 Hrun. apply (Hgen errors) in Hrun. exact Hrun. }
  unfold bind at 1. rewrite Hrun2.
  unfold bind at 1. unfold generate_time_string at 1.
  unfold bind at 1. unfold print at 1.
  set (w3 := set_stdout (set_ticks w2 (S (ticks w2))) _).
  rewrite Hclock2, Hticks2.
  destruct (save_error_log_run source errors
              ("Error_log_" +:+ "_" +:+ clock w (ticks w) +:+ ".txt") w3)
    as (w4 & Hrun4 & Hin4 & Hlock4 & Hticks4 & Hdisk4).
  change (locked w3) with (locked w2) in Hdisk4.
  rewrite Hlock2, Hopen in Hdisk4.
  unfold bind at 1. rewrite Hrun4.
  unfold bind at 1. unfold print at 1.
  unfold bind, input, raise. cbn [stdin set_stdout set_stdin].
  rewrite Hin4. change (stdin w3) with (stdin w2). rewrite Hin2.
  change (stdin w1) with (stdin w).
  destruct (stdin w) as [|line lines]; [congruence|].
  eexists. split; [reflexivity|].
  unfold file_content. cbn [disk set_stdin set_stdout].
  rewrite Hdisk4. apply assoc_set_same.
Qed.

Lemma process_error_log_leaves_log_witness :
  exists w' : World,
    process_error_log ["Course is missing for student with Student ID FitNZ0002"]
      "Enrolment Dates (Learning Platform) Report" ed_world = (Raise SystemExit, w') /\
    file_content ("Error_log__" +:+ clock ed_world (ticks ed_world) +:+ ".txt") w'
    = Some ("Enrolment Dates (Learning Platform) Report" +:+ nl
            +:+ log_lines ["Course is missing for student with Student ID FitNZ0002"]).
Proof.
  apply (process_error_log_leaves_log
           ["Course is missing for student with Student ID FitNZ0002"]
           "Enrolment Dates (Learning Platform) Report" ed_world).
  - discriminate.
  - reflexivity.
Defined.

(** ** Loading, further *)

(** A load whose file opens does not depend on the input. *)
Lemma load_loop_opens (lines : list string) (file_name source : string) (w : World)
    (file : csv_file) (rows : list (list string)) :
  assoc (file_name +:+ ".csv") (csv_files w) = Some file ->
  read_rows (records file) [] = Ok rows ->
  (source = "ed" -> exists r, check_ed rows w = (Ok r, w)) ->
  load_loop lines file_name source [] w = (Ok rows, w).
Proof.
  intros Hfile Hread Hcheck.
  destruct lines; cbn [load_loop]; unfold try_io, open_r; rewrite Hfile;
    unfold lift; unfold bind at 1; rewrite Hread;
    (destruct (String.eqb_spec source "ed") as [Hed|_];
     [destruct (Hcheck Hed) as [r Hr]; unfold bind; rewrite Hr; reflexivity
     |reflexivity]).
Qed.

Lemma load_loop_retries (bad : list string) (good : string) (rest : list string)
    (file_name source : string) (w : World) (file : csv_file) :
  List.Forall (fun name => assoc (name +:+ ".csv") (csv_files w) = None) (file_name :: bad) ->
  assoc (good +:+ ".csv") (csv_files w) = Some file ->
  stdin w = bad ++ good :: rest ->
  List.Forall (fun r : list string => r <> []) (records file) ->
  source <> "ed" ->
  exists w' : World,
    load_loop (stdin w) file_name source [] w
    = (Ok (List.filter first_nonempty (records file)), w') /\
    stdin w' = rest /\ same_files w w'.
Proof.
  revert file_name w.
  induction bad as [|b bad IH]; intros file_name w Hmissing Hgood Hin Hrecords Hsource;
    apply List.Forall_cons_iff in Hmissing as [Hfirst Hmissing];
    rewrite Hin; cbn [app load_loop]; unfold try_io, open_r; rewrite Hfirst;
    unfold bind at 1; unfold print at 1;
    unfold bind at 1; unfold input at 1; cbn [stdin set_stdout]; rewrite Hin;
    cbn [app].
  - eexists. split.
    + apply (load_loop_opens _ _ _ _ file).
      * exact Hgood.
      * now apply read_rows_total.
      * intros ->. congruence.
    + split; [reflexivity|]. repeat split.
  - set (w2 := set_stdin _ (bad ++ good :: rest)).
    destruct (IH b w2 Hmissing Hgood eq_refl Hrecords Hsource)
      as (w' & Hrun & Hrest & Hsame).
    exists w'. split; [exact Hrun|]. split; [exact Hrest|]. exact Hsame.
Qed.

(** X14: when the file does not open, [load_data] asks for another
    name and tries again, once per name entered: if the first name and
    the names [bad] entered after it do not open and the next one,
    [good], does, the rows returned are those of the file [good], and
    the input after [good] is left unread. *)
Theorem load_data_retries (bad : list string) (good : string) (rest : list string)
    (file_name source : string) (w : World) (file : csv_file) :
  List.Forall (fun name => assoc (name +:+ ".csv") (csv_files w) = None) (file_name :: bad) ->
  assoc (good +:+ ".csv") (csv_files w) = Some file ->
  stdin w = bad ++ good :: rest ->
  List.Forall (fun r : list string => r <> []) (records file) ->
  source <> "ed" ->
  exists w' : World,
    load_data file_name source w
    = (Ok (List.filter first_nonempty (records file), false, []), w') /\
    stdin w' = rest /\ same_files w w'.
Proof.
  intros Hmissing Hgood Hin Hrecords Hsource.
  destruct (load_loop_retries bad good rest file_name source w file
              Hmissing Hgood Hin Hrecords Hsource) as (w' & Hrun & Hrest & Hsame).
  exists w'. unfold load_data, bind. rewrite Hrun.
  split; [reflexivity|split; assumption].
Qed.

Lemma load_data_retries_witness :
  exists w' : World,
    load_data "missing" "cf"
      (set_stdin (world_with cf_records) ["absent"; "enrolments"; "other"])
    = (Ok (List.filter first_nonempty cf_records, false, []), w') /\
    stdin w' = ["other"] /\
    same_files (set_stdin (world_with cf_records) ["absent"; "enrolments"; "other"]) w'.
Proof.
  apply (load_data_retries ["absent"] "enrolments" ["other"] "missing" "cf"
           (set_stdin (world_with cf_records) ["absent"; "enrolments"; "other"])
           {| header_line := "Student ID,Student,Course,Enrolment Date,Expiry Date";
              records := cf_records |}).
  - repeat constructor.
  - reflexivity.
  - reflexivity.
  - repeat constructor; discriminate.
  - discriminate.
Defined.

(** X15: when neither the first name nor any name in the input opens,
    [load_data] does not return: the prompt for a name raises
    [EOFError] at the end of the input. *)
Theorem load_data_no_file (file_name source : string) (w : World) :
  List.Forall (fun name => assoc (name +:+ ".csv") (csv_files w) = None)
    (file_name :: stdin w) ->
  fst (load_data file_name source w) = Raise EOFError.
Proof.
  intros Hmissing.
  assert (fst (load_loop (stdin w) file_name source [] w) = Raise EOFError) as Hloop.
  { remember (stdin w) as lines eqn:Hlines.
    revert file_name w Hlines Hmissing.
    induction lines as [|line lines IH]; intros file_name w Hlines Hmissing;
      apply List.Forall_cons_iff in Hmissing as [Hfirst Hmissing];
      cbn [load_loop]; unfold try_io, open_r; rewrite Hfirst;
      unfold bind at 1; unfold print at 1;
      unfold bind at 1; unfold input at 1; cbn [stdin set_stdout]; rewrite <- Hlines.
    - reflexivity.
    - apply IH; [reflexivity|exact Hmissing]. }
  unfold load_data, bind.
  destruct (load_loop (stdin w) file_name source [] w) as [[rows|e] w1];
    simpl in Hloop |- *; [discriminate Hloop|].
  now injection Hloop as ->.
Qed.

Lemma load_data_no_file_witness :
  fst (load_data "missing" "cf" (set_stdin (world_with cf_records) ["absent"; "other"]))
  = Raise EOFError.
Proof.
  apply (load_data_no_file "missing" "cf"
           (set_stdin (world_with cf_records) ["absent"; "other"])).
  repeat constructor.
Defined.

(** X16: a load of the Enrolment Dates report ('ed') returns the rows
    with a non-empty first field when these rows have the five columns
    and none of them has an empty Course, Enrolment Date or Expiry
    Date; nothing is printed or read.  Records with an empty first
    field are dropped before the validation and are not validated. *)
Theorem load_data_ed_passes (file_name : string) (w : World) (file : csv_file) :
  assoc (file_name +:+ ".csv") (csv_files w) = Some file ->
  List.Forall (fun r : list string => r <> []) (records file) ->
  List.Forall (fun student : list string => (5 <= length student)%nat)
    (List.filter first_nonempty (records file)) ->
  flat_map row_errors (List.filter first_nonempty (records file)) = [] ->
  load_data file_name "ed" w
  = (Ok (List.filter first_nonempty (records file), false, []), w).
Proof.
  intros Hfile Hrecords Hcols Herrors.
  unfold load_data. unfold bind at 1.
  rewrite (load_loop_opens _ _ _ _ file (List.filter first_nonempty (records file)));
    [reflexivity|exact Hfile|now apply read_rows_total|].
  intros _.
  destruct (check_ed_returns _ w Hcols Herrors) as (flag & Hrun & _).
  eexists. exact Hrun.
Qed.

Lemma load_data_ed_passes_witness :
  load_data "enrolments" "ed"
    (world_with [["FitNZ0001"; ""; "Course (AB-1-C)"; "2020-06-15"; "2021-06-15"];
                 [""; "No Id"; ""; ""; ""]])
  = (Ok ([["FitNZ0001"; ""; "Course (AB-1-C)"; "2020-06-15"; "2021-06-15"]], false, []),
     world_with [["FitNZ0001"; ""; "Course (AB-1-C)"; "2020-06-15"; "2021-06-15"];
                 [""; "No Id"; ""; ""; ""]]).
Proof.
  apply (load_data_ed_passes "enrolments" _
           {| header_line := "Student ID,Student,Course,Enrolment Date,Expiry Date";
              records := [["FitNZ0001"; ""; "Course (AB-1-C)"; "2020-06-15"; "2021-06-15"];
                          [""; "No Id"; ""; ""; ""]] |}).
  - reflexivity.
  - repeat constructor; discriminate.
  - repeat constructor.
  - reflexivity.
Defined.

(** ** Saving, further *)

(** X17: when the output file does not open, [save_data_upload] never
    returns and writes nothing: after the prompt for another name the
    statement [+ '.txt'] raises [TypeError], and with the input at its
    end the prompt itself raises [EOFError]. *)
Theorem save_data_upload_not_accessible (i_data : list (list string))
    (headings d_name : string) (w : World) :
  existsb (String.eqb (d_name +:+ clock w (ticks w) +:+ ".txt")) (locked w) = true ->
  exists w' : World,
    save_data_upload i_data headings d_name w
    = (Raise (match stdin w with [] => EOFError | _ :: _ => TypeError end), w') /\
    disk w' = disk w.
Proof.
  intros Hlocked.
  unfold save_data_upload, bind, generate_time_string, try_io, open_w, print, input, raise.
  cbn [locked set_ticks stdin set_stdout].
  rewrite Hlocked.
  change (stdin (set_ticks w (S (ticks w)))) with (stdin w).
  destruct (stdin w); eexists; split; reflexivity.
Qed.

Lemma save_data_upload_not_accessible_witness :
  exists w' : World,
    save_data_upload [["FitNZ0001"; "15/06/2020"]] "Student ID,Start Date" "Locked_" sample_world
    = (Raise (match stdin sample_world with [] => EOFError | _ :: _ => TypeError end), w') /\
    disk w' = disk sample_world.
Proof.
  apply (save_data_upload_not_accessible [["FitNZ0001"; "15/06/2020"]]
           "Student ID,Start Date" "Locked_" sample_world).
  reflexivity.
Defined.

(** ** Operator dialogue *)

Lemma same_files_refl (w : World) : same_files w w.
Proof. repeat split. Qed.

Lemma same_files_trans (w1 w2 w3 : World) :
  same_files w1 w2 -> same_files w2 w3 -> same_files w1 w3.
Proof.
  unfold same_files. intros (? & ? & ? & ? & ?) (? & ? & ? & ? & ?).
  repeat split; congruence.
Qed.

Lemma check_repeat_loop_answers (bad : list string) (ans : string) (rest : list string)
    (w : World) :
  List.Forall not_an_answer bad ->
  ans = "y" \/ ans = "n" ->
  stdin w = bad ++ ans :: rest ->
  exists w' : World,
    check_repeat_loop (stdin w) w = (Ok (String.eqb ans "y"), w') /\
    stdin w' = rest /\ same_files w w'.
Proof.
  intros Hbad Hans. revert w.
  induction Hbad as [|b bad [Hby Hbn] _ IH]; intros w Hin;
    rewrite Hin; cbn [app check_repeat_loop];
    unfold bind at 1; unfold input at 1; cbn [stdin set_stdout]; rewrite Hin; cbn [app].
  - destruct Hans as [-> | ->]; simpl; eexists; (split; [reflexivity|]);
      split; try reflexivity; repeat split.
  - apply String.eqb_neq in Hby, Hbn. rewrite Hby, Hbn. cbn [negb andb].
    unfold bind at 1. unfold print at 1.
    set (w2 := set_stdout _ _).
    destruct (IH w2 eq_refl) as (w' & Hrun & Hrest & Hsame).
    change (stdin w2) with (bad ++ ans :: rest) in Hrun.
    exists w'. split; [exact Hrun|]. split; [exact Hrest|].
    apply (same_files_trans w w2 w'); [repeat split|exact Hsame].
Qed.

Lemma check_review_loop_answers (bad : list string) (ans : string) (rest : list string)
    (w : World) :
  List.Forall not_an_answer bad ->
  ans = "y" \/ ans = "n" ->
  stdin w = bad ++ ans :: rest ->
  exists w' : World,
    check_review_loop (stdin w) w = (Ok (String.eqb ans "y"), w') /\
    stdin w' = rest /\ same_files w w'.
Proof.
  intros Hbad Hans. revert w.
  induction Hbad as [|b bad [Hby Hbn] _ IH]; intros w Hin;
    rewrite Hin; cbn [app check_review_loop];
    unfold bind at 1; unfold input at 1; cbn [stdin set_stdout]; rewrite Hin; cbn [app].
  - destruct Hans as [-> | ->]; simpl; eexists; (split; [reflexivity|]);
      split; try reflexivity; repeat split.
  - apply String.eqb_neq in Hby, Hbn. rewrite Hby, Hbn. cbn [negb orb].
    unfold bind at 1. unfold print at 1.
    set (w2 := set_stdout _ _).
    destruct (IH w2 eq_refl) as (w' & Hrun & Hrest & Hsame).
    change (stdin w2) with (bad ++ ans :: rest) in Hrun.
    exists w'. split; [exact Hrun|]. split; [exact Hrest|].
    apply (same_files_trans w w2 w'); [repeat split|exact Hsame].
Qed.

(** X18: [check_repeat] and [check_review_warnings] ask again until the
    answer is 'y' or 'n': lines that are neither are consumed, one
    prompt each, and the result is [True] exactly when the first valid
    answer is 'y'; the input after that answer is left unread and no
    file is touched. *)
Theorem dialogue_answers (bad : list string) (ans : string) (rest : list string) (w : World) :
  List.Forall not_an_answer bad ->
  ans = "y" \/ ans = "n" ->
  stdin w = bad ++ ans :: rest ->
  (exists w' : World,
     check_repeat w = (Ok (String.eqb ans "y"), w') /\
     stdin w' = rest /\ same_files w w') /\
  (exists w' : World,
     check_review_warnings w = (Ok (String.eqb ans "y"), w') /\
     stdin w' = rest /\ same_files w w').
Proof.
  intros Hbad Hans Hin. split.
  - exact (check_repeat_loop_answers bad ans rest w Hbad Hans Hin).
  - exact (check_review_loop_answers bad ans rest w Hbad Hans Hin).
Qed.

Lemma dialogue_answers_witness :
  (exists w' : World,
     check_repeat (set_stdin sample_world ["yes"; ""; "n"; "y"])
     = (Ok (String.eqb "n" "y"), w') /\
     stdin w' = ["y"] /\ same_files (set_stdin sample_world ["yes"; ""; "n"; "y"]) w') /\
  (exists w' : World,
     check_review_warnings (set_stdin sample_world ["yes"; ""; "n"; "y"])
     = (Ok (String.eqb "n" "y"), w') /\
     stdin w' = ["y"] /\ same_files (set_stdin sample_world ["yes"; ""; "n"; "y"]) w').
Proof.
  apply (dialogue_answers ["yes"; ""] "n" ["y"]
           (set_stdin sample_world ["yes"; ""; "n"; "y"])).
  - repeat constructor; discriminate.
  - now right.
  - reflexivity.
Defined.

(** ** The warning log *)

Lemma for_each_print_effect (lines : list string) (w : World) :
  exists w' : World,
    for_each lines (fun line => print line) w = (Ok tt, w') /\
    stdin w' = stdin w /\ same_files w w'.
Proof.
  revert w.
  induction lines as [|line lines IH]; intros w.
  - exists w. repeat split.
  - cbn [for_each]. unfold bind at 1. unfold print at 1.
    set (w1 := set_stdout _ _).
    destruct (IH w1) as (w' & Hrun & Hin & Hsame).
    exists w'. split; [exact Hrun|]. split; [exact Hin|].
    apply (same_files_trans w w1 w'); [repeat split|exact Hsame].
Qed.

Lemma save_warning_log_effect (warning_log : list string) (file_name : string) (w : World) :
  exists w' : World,
    save_warning_log warning_log file_name w = (Ok tt, w') /\
    stdin w' = stdin w /\ locked w' = locked w /\ ticks w' = ticks w /\
    if existsb (String.eqb file_name) (locked w) then disk w' = disk w
    else disk w' = assoc_set file_name (log_lines warning_log) (disk w).
Proof.
  unfold save_warning_log, try_io, open_w at 1.
  destruct (existsb (String.eqb file_name) (locked w)) eqn:Hlocked.
  - eexists. split; [reflexivity|]. repeat split.
  - set (w1 := set_disk w (assoc_set file_name "" (disk w))).
    unfold bind at 1. unfold open_w.
    change (locked w1) with (locked w). rewrite Hlocked.
    set (w2 := set_disk w1 (assoc_set file_name "" (disk w1))).
    destruct (for_each_write_lines file_name warning_log w2 "")
      as (w3 & Hrun & Hdisk & Hin & Hout & Hcsv & Hlock & Hclock & Hticks).
    { apply assoc_set_same. }
    unfold bind at 1. rewrite Hrun.
    eexists. split; [reflexivity|].
    cbn [stdin locked ticks disk set_stdout].
    rewrite Hin, Hlock, Hticks, Hdisk.
    repeat split.
    unfold w2, w1. cbn [disk set_disk].
    now rewrite !assoc_set_twice.
Qed.

(** X19: [process_warning_log] does nothing when it is not required.
    When it is required, the operator is asked whether to view the
    warnings, and whatever the answer the warnings are saved: once the
    question is answered and the file Warning_log__<time>.txt opens, it
    holds the warnings, one per line. *)
Theorem process_warning_log_saves (warnings bad : list string) (ans : string)
    (rest : list string) (w : World) :
  List.Forall not_an_answer bad ->
  ans = "y" \/ ans = "n" ->
  stdin w = bad ++ ans :: rest ->
  existsb (String.eqb ("Warning_log_" +:+ "_" +:+ clock w (ticks w) +:+ ".txt")) (locked w)
  = false ->
  process_warning_log warnings false w = (Ok tt, w) /\
  exists w' : World,
    process_warning_log warnings true w = (Ok tt, w') /\
    stdin w' = rest /\
    file_content ("Warning_log__" +:+ clock w (ticks w) +:+ ".txt") w'
    = Some (log_lines warnings).
Proof.
  intros Hbad Hans Hin Hopen. split; [reflexivity|].
  unfold process_warning_log. cbn [negb].
  unfold bind at 1. unfold print at 1.
  set (w1 := set_stdout w _).
  destruct (check_review_loop_answers bad ans rest w1 Hbad Hans Hin)
    as (w2 & Hrun2 & Hin2 & (Hcsv2 & Hlock2 & Hdisk2 & Hclock2 & Hticks2)).
  unfold bind at 1. unfold check_review_warnings. rewrite Hrun2.
  assert (exists w3 : World,
            (if String.eqb ans "y" then for_each warnings (fun line => print line)
             else ret tt) w2 = (Ok tt, w3) /\ stdin w3 = stdin w2 /\ same_files w2 w3)
    as (w3 & Hrun3 & Hin3 & (Hcsv3 & Hlock3 & Hdisk3 & Hclock3 & Hticks3)).
  { destruct (String.eqb ans "y").
    - apply for_each_print_effect.
    - exists w2. repeat split. }
  unfold bind at 1. rewrite Hrun3.
  unfold bind at 1. unfold generate_time_string at 1.
  unfold bind at 1. unfold print at 1.
  set (w4 := set_stdout (set_ticks w3 (S (ticks w3))) _).
  assert (clock w3 (ticks w3) = clock w (ticks w)) as ->.
  { rewrite Hclock3, Hticks3, Hclock2, Hticks2. reflexivity. }
  destruct (save_warning_log_effect warnings
              ("Warning_log_" +:+ "_" +:+ clock w (ticks w) +:+ ".txt") w4)
    as (w5 & Hrun5 & Hin5 & Hlock5 & Hticks5 & Hdisk5).
  change (locked w4) with (locked w3) in Hdisk5.
  rewrite Hlock3, Hlock2 in Hdisk5. change (locked w1) with (locked w) in Hdisk5.
  rewrite Hopen in Hdisk5.
  exists w5. split; [exact Hrun5|]. split.
  - rewrite Hin5. change (stdin w4) with (stdin w3). congruence.
  - unfold file_content. rewrite Hdisk5. apply assoc_set_same.
Qed.

Lemma process_warning_log_saves_witness :
  process_warning_log ["a warning"] false (set_stdin sample_world ["maybe"; "n"; "y"])
  = (Ok tt, set_stdin sample_world ["maybe"; "n"; "y"]) /\
  exists w' : World,
    process_warning_log ["a warning"] true (set_stdin sample_world ["maybe"; "n"; "y"])
    = (Ok tt, w') /\
    stdin w' = ["y"] /\
    file_content ("Warning_log__" +:+ "200101-000000" +:+ ".txt") w'
    = Some (log_lines ["a warning"]).
Proof.
  apply (process_warning_log_saves ["a warning"] ["maybe"] "n" ["y"]
           (set_stdin sample_world ["maybe"; "n"; "y"])).
  - repeat constructor; discriminate.
  - now right.
  - reflexivity.
  - reflexivity.
Defined.

(** ** What the stages compute *)

Module StageSpec.

Lemma run_bind {St A B : Type} (m : M St A) (k : A -> M St B) (s s1 : St) (a : A) :
  m s = (Ok a, s1) -> bind m k s = k a s1.
Proof. unfold bind. now intros ->. Qed.

Lemma rows_at_lookup (h : list Obj.obj) (locs : list nat) (rows : list (list string))
    (l : nat) :
  Obj.rows_at h locs rows -> In l locs -> exists fields, h !! l = Some (Obj.Row fields).
Proof.
  intros Hat. induction Hat as [|x fields locs rows Hx _ IH]; intros Hin; [destruct Hin|].
  destruct Hin as [<-|Hin]; [now exists fields|now apply IH].
Qed.

(** The rows that references lead to depend on the referenced objects
    only. *)
Lemma rows_at_same (h h' : list Obj.obj) (locs : list nat) (rows : list (list string)) :
  (forall l, In l locs -> h' !! l = h !! l) ->
  Obj.rows_at h locs rows -> Obj.rows_at h' locs rows.
Proof.
  intros Hsame Hat.
  induction Hat as [|x fields locs rows Hx _ IH]; constructor.
  - rewrite Hsame; [exact Hx|now left].
  - apply IH. intros l Hl. apply Hsame. now right.
Qed.

Lemma rows_at_app (h : list Obj.obj) (extra : list Obj.obj) (locs : list nat)
    (rows : list (list string)) :
  Obj.rows_at h locs rows -> Obj.rows_at (h ++ extra) locs rows.
Proof.
  intros Hat. induction Hat as [|x fields locs rows Hx _ IH]; constructor; [|exact IH].
  now apply lookup_app_l_Some.
Qed.

(** Replacing a list object does not touch rows. *)
Lemma rows_at_insert_list (h : list Obj.obj) (u : nat) (filled filled' : list nat)
    (locs : list nat) (rows : list (list string)) :
  h !! u = Some (Obj.RowList filled) ->
  Obj.rows_at h locs rows ->
  Obj.rows_at (<[u := Obj.RowList filled']> h) locs rows.
Proof.
  intros Hu Hat.
  induction Hat as [|x fields locs rows Hx _ IH]; constructor; [|exact IH].
  rewrite list_lookup_insert_ne by congruence. exact Hx.
Qed.

Lemma rows_at_insert_list_inv (h : list Obj.obj) (u : nat) (filled filled' : list nat)
    (locs : list nat) (rows : list (list string)) :
  h !! u = Some (Obj.RowList filled) ->
  Obj.rows_at (<[u := Obj.RowList filled']> h) locs rows ->
  Obj.rows_at h locs rows.
Proof.
  intros Hu Hat. pose proof (lookup_lt_Some _ _ _ Hu) as Hlt.
  induction Hat as [|x fields locs rows Hx _ IH]; constructor; [|exact IH].
  destruct (Nat.eq_dec u x) as [->|Hne].
  - rewrite list_lookup_insert_eq in Hx by exact Hlt. discriminate Hx.
  - now rewrite list_lookup_insert_ne in Hx by exact Hne.
Qed.

(** *** The two filters *)

(** The loop of a filter: a pass appends the row to the new list when
    [keep] holds of its fields, and changes nothing otherwise. *)
Lemma filter_loop (keep : list string -> bool) (ready : list string -> Prop)
    (body : nat -> M (list Obj.obj) unit) (updated : nat)
    (items : list nat) (rows : list (list string)) (h : list Obj.obj) (filled : list nat) :
  (forall (student : nat) (fields : list string) (hc : list Obj.obj) (fc : list nat),
     hc !! student = Some (Obj.Row fields) ->
     hc !! updated = Some (Obj.RowList fc) ->
     ready fields ->
     body student hc
     = (Ok tt, if keep fields then <[updated := Obj.RowList (fc ++ [student])]> hc else hc)) ->
  Obj.rows_at h items rows ->
  h !! updated = Some (Obj.RowList filled) ->
  List.Forall ready rows ->
  exists kept : list nat,
    for_each items body h = (Ok tt, <[updated := Obj.RowList (filled ++ kept)]> h) /\
    kept `sublist_of` items /\
    Obj.rows_at h kept (List.filter keep rows).
Proof.
  intros Hbody. revert rows h filled.
  induction items as [|student items IH]; intros rows h filled Hat Hupdated Hready;
    inversion Hat as [|? fields ? rows' Hstudent Hrest]; subst.
  - exists []. rewrite app_nil_r, (list_insert_id _ _ _ Hupdated).
    split; [reflexivity|]. split; constructor.
  - apply List.Forall_cons_iff in Hready as [Hfields Hready].
    pose proof (lookup_lt_Some _ _ _ Hupdated) as Hlt.
    cbn [for_each List.filter].
    rewrite (run_bind _ _ _ _ _ (Hbody student fields h filled Hstudent Hupdated Hfields)).
    destruct (keep fields).
    + destruct (IH rows' (<[updated := Obj.RowList (filled ++ [student])]> h)
                  (filled ++ [student])) as (kept & Hrun & Hsub & Hkept).
      * now apply (rows_at_insert_list h updated filled).
      * now apply list_lookup_insert_eq.
      * exact Hready.
      * exists (student :: kept). rewrite Hrun, list_insert_insert_eq, <- app_assoc.
        split; [reflexivity|]. split; [now apply sublist_skip|].
        constructor; [exact Hstudent|].
        now apply (rows_at_insert_list_inv h updated filled (filled ++ [student])).
    + destruct (IH rows' h filled Hrest Hupdated Hready) as (kept & Hrun & Hsub & Hkept).
      exists kept. split; [exact Hrun|]. split; [now apply sublist_cons|exact Hkept].
Qed.

(** A stage made of a new list, a read of the input and a filter loop. *)
Lemma filter_stage (keep : list string -> bool) (ready : list string -> Prop)
    (body : nat -> nat -> M (list Obj.obj) unit)
    (students : nat) (items : list nat) (rows : list (list string)) (h : list Obj.obj) :
  (forall (updated student : nat) (fields : list string) (hc : list Obj.obj) (fc : list nat),
     hc !! student = Some (Obj.Row fields) ->
     hc !! updated = Some (Obj.RowList fc) ->
     ready fields ->
     body updated student hc
     = (Ok tt, if keep fields then <[updated := Obj.RowList (fc ++ [student])]> hc else hc)) ->
  holds h students items rows ->
  List.Forall ready rows ->
  exists kept : list nat,
    bind (Obj.alloc (Obj.RowList [])) (fun updated =>
    bind (Obj.read_list students) (fun its =>
    bind (for_each its (body updated)) (fun _ => ret updated))) h
    = (Ok (length h), h ++ [Obj.RowList kept]) /\
    kept `sublist_of` items /\
    holds (h ++ [Obj.RowList kept]) (length h) kept (List.filter keep rows).
Proof.
  intros Hbody (Hstudents & Hnodup & Hat) Hready.
  destruct (filter_loop keep ready (body (length h)) (length h) items rows
              (h ++ [Obj.RowList []]) [] (Hbody (length h))) as (kept & Hrun & Hsub & Hkept).
  - now apply rows_at_app.
  - now apply list_lookup_middle.
  - exact Hready.
  - exists kept.
    assert (<[length h := Obj.RowList kept]> (h ++ [Obj.RowList []]) = h ++ [Obj.RowList kept])
      as Hfinal.
    { rewrite insert_app_r_alt by lia. now rewrite Nat.sub_diag. }
    split; [|split; [exact Hsub|]].
    + unfold bind at 1. unfold Obj.alloc at 1.
      unfold bind at 1. unfold Obj.read_list at 1.
      rewrite (lookup_app_l_Some _ [Obj.RowList []] _ _ Hstudents).
      unfold bind. rewrite Hrun. simpl app in Hfinal |- *. rewrite Hfinal. reflexivity.
    + split; [now apply list_lookup_middle|].
      split; [apply NoDup_ListNoDup; apply (sublist_NoDup kept items);
              [now apply NoDup_ListNoDup|exact Hsub]|].
      rewrite <- Hfinal.
      apply (rows_at_insert_list _ (length h) []); [now apply list_lookup_middle|exact Hkept].
Qed.

(** The row objects that a filter keeps are among those of its input,
    in the same order: the new list shares them with the input list. *)
Lemma extract_students_body (data_pos : Z) (updated student : nat) (fields : list string)
    (hc : list Obj.obj) (fc : list nat) :
  hc !! student = Some (Obj.Row fields) ->
  hc !! updated = Some (Obj.RowList fc) ->
  has_col fields data_pos ->
  bind (Obj.read_row student) (fun fields =>
  bind (lift (getitem fields data_pos)) (fun text =>
  if str_contains "FitNZ" text then Obj.list_append updated student else ret tt)) hc
  = (Ok tt,
     if has_marker data_pos fields then <[updated := Obj.RowList (fc ++ [student])]> hc
     else hc).
Proof.
  intros Hstudent Hupdated [text Htext].
  unfold has_marker. rewrite (getitem_field _ _ _ Htext).
  unfold bind at 1. unfold Obj.read_row. rewrite Hstudent.
  unfold bind at 1. unfold lift. rewrite Htext.
  destruct (str_contains "FitNZ" text); [|reflexivity].
  unfold Obj.list_append, bind, Obj.read_list, Obj.store. now rewrite Hupdated.
Qed.

Lemma get_courses_body (course_pos : Z) (updated student : nat) (fields : list string)
    (hc : list Obj.obj) (fc : list nat) :
  hc !! student = Some (Obj.Row fields) ->
  hc !! updated = Some (Obj.RowList fc) ->
  has_col fields course_pos ->
  bind (Obj.read_row student) (fun fields =>
  bind (lift (getitem fields course_pos)) (fun course =>
  bind (lift (extract_course_code course)) (fun code =>
  if negb (String.eqb code "Skip") then Obj.list_append updated student else ret tt))) hc
  = (Ok tt,
     if has_course_code course_pos fields
     then <[updated := Obj.RowList (fc ++ [student])]> hc
     else hc).
Proof.
  intros Hstudent Hupdated [course Hcourse].
  unfold has_course_code. rewrite (getitem_field _ _ _ Hcourse).
  unfold bind at 1. unfold Obj.read_row. rewrite Hstudent.
  unfold bind at 1. unfold lift at 1. rewrite Hcourse.
  destruct (extract_course_code_cases course) as (code & Hcode & Hskip).
  unfold bind at 1. unfold lift. rewrite Hcode, Hskip.
  destruct (re_search course_code_pattern course); [|reflexivity].
  unfold Obj.list_append, bind, Obj.read_list, Obj.store. now rewrite Hupdated.
Qed.

(** *** The stages that update rows *)

(** The loop of an updating stage: a pass replaces the fields of the
    row by [f] of them and, when [appends], appends the row to the new
    list.  The rows must be distinct objects. *)
Lemma update_loop (f : list string -> list string) (appends : bool)
    (ready : list string -> Prop) (body : nat -> M (list Obj.obj) unit) (updated : nat)
    (items : list nat) (rows : list (list string)) (h : list Obj.obj) (filled : list nat) :
  (forall (student : nat) (fields : list string) (hc : list Obj.obj) (fc : list nat),
     hc !! student = Some (Obj.Row fields) ->
     hc !! updated = Some (Obj.RowList fc) ->
     ready fields ->
     body student hc
     = (Ok tt,
        <[updated := Obj.RowList (if appends then fc ++ [student] else fc)]>
          (<[student := Obj.Row (f fields)]> hc))) ->
  List.NoDup items ->
  Obj.rows_at h items rows ->
  h !! updated = Some (Obj.RowList filled) ->
  List.Forall ready rows ->
  exists h' : list Obj.obj,
    for_each items body h = (Ok tt, h') /\
    length h' = length h /\
    h' !! updated = Some (Obj.RowList (if appends then filled ++ items else filled)) /\
    Obj.rows_at h' items (map f rows) /\
    (forall x : nat, x <> updated -> ~ In x items -> h' !! x = h !! x).
Proof.
  intros Hbody. revert rows h filled.
  induction items as [|student items IH]; intros rows h filled Hnodup Hat Hupdated Hready;
    inversion Hat as [|? fields ? rows' Hstudent Hrest]; subst.
  - exists h. rewrite app_nil_r.
    split; [reflexivity|]. split; [reflexivity|].
    split; [now destruct appends|]. split; [constructor|reflexivity].
  - apply List.Forall_cons_iff in Hready as [Hfields Hready].
    apply List.NoDup_cons_iff in Hnodup as [Hfresh Hnodup].
    pose proof (lookup_lt_Some _ _ _ Hupdated) as Hlt.
    pose proof (lookup_lt_Some _ _ _ Hstudent) as Hlts.
    assert (student <> updated) as Hne by congruence.
    cbn [for_each].
    rewrite (run_bind _ _ _ _ _ (Hbody student fields h filled Hstudent Hupdated Hfields)).
    set (h1 := <[updated := Obj.RowList (if appends then filled ++ [student] else filled)]>
                 (<[student := Obj.Row (f fields)]> h)).
    assert (forall x, x <> updated -> x <> student -> h1 !! x = h !! x) as Hframe.
    { intros x Hx1 Hx2. unfold h1.
      rewrite list_lookup_insert_ne by congruence.
      now rewrite list_lookup_insert_ne by congruence. }
    destruct (IH rows' h1 (if appends then filled ++ [student] else filled))
      as (h' & Hrun & Hlen & Hlist & Hrows & Hother).
    + exact Hnodup.
    + apply (rows_at_same h); [|exact Hrest].
      intros l Hl. destruct (rows_at_lookup _ _ _ l Hrest Hl) as [fl Hfl].
      apply Hframe; congruence.
    + unfold h1. apply list_lookup_insert_eq. now rewrite length_insert.
    + exact Hready.
    + exists h'. split; [exact Hrun|].
      split; [rewrite Hlen; unfold h1; now rewrite !length_insert|].
      split; [rewrite Hlist; destruct appends; [now rewrite <- app_assoc|reflexivity]|].
      split.
      * simpl. constructor; [|exact Hrows].
        rewrite (Hother student Hne Hfresh). unfold h1.
        rewrite list_lookup_insert_ne by congruence.
        now apply list_lookup_insert_eq.
      * intros x Hx Hnin. rewrite Hother; [|exact Hx|intros Hin; apply Hnin; now right].
        apply Hframe; [exact Hx|]. intros ->. apply Hnin. now left.
Qed.

Lemma add_body (derive : list string -> result string) (updated student : nat)
    (fields : list string) (hc : list Obj.obj) (fc : list nat) :
  hc !! student = Some (Obj.Row fields) ->
  hc !! updated = Some (Obj.RowList fc) ->
  (exists v : string, derive fields = Ok v) ->
  bind (Obj.read_row student) (fun fields =>
  bind (lift (derive fields)) (fun v => Obj.row_append student v)) hc
  = (Ok tt,
     <[updated := Obj.RowList fc]>
       (<[student := Obj.Row (fields ++ [value_of (derive fields)])]> hc)).
Proof.
  intros Hstudent Hupdated [v Hv].
  assert (student <> updated) as Hne by congruence.
  rewrite (list_insert_id _ updated (Obj.RowList fc))
    by now rewrite list_lookup_insert_ne.
  unfold bind at 1. unfold Obj.read_row at 1. rewrite Hstudent.
  unfold bind at 1. unfold lift. rewrite Hv. simpl value_of.
  unfold Obj.row_append, bind, Obj.read_row, Obj.store. now rewrite Hstudent.
Qed.

(** A stage made of a copy of the input list and a loop that appends a
    derived field to each row. *)
Lemma add_stage (derive : list string -> result string)
    (students : nat) (items : list nat) (rows : list (list string)) (h : list Obj.obj) :
  holds h students items rows ->
  List.Forall (fun r => exists v : string, derive r = Ok v) rows ->
  exists h' : list Obj.obj,
    bind (Obj.list_copy students) (fun updated =>
    bind (Obj.read_list updated) (fun its =>
    bind (for_each its (fun student =>
            bind (Obj.read_row student) (fun fields =>
            bind (lift (derive fields)) (fun v => Obj.row_append student v))))
         (fun _ => ret updated))) h
    = (Ok (length h), h') /\
    holds h' (length h) items (map (fun r => r ++ [value_of (derive r)]) rows) /\
    holds h' students items (map (fun r => r ++ [value_of (derive r)]) rows) /\
    unchanged_outside items h h'.
Proof.
  intros (Hstudents & Hnodup & Hat) Hready.
  pose proof (lookup_lt_Some _ _ _ Hstudents) as Hlt.
  destruct (update_loop (fun r => r ++ [value_of (derive r)]) false
              (fun r => exists v : string, derive r = Ok v)
              (fun student =>
                 bind (Obj.read_row student) (fun fields =>
                 bind (lift (derive fields)) (fun v => Obj.row_append student v)))
              (length h) items rows (h ++ [Obj.RowList items]) items)
    as (h' & Hrun & Hlen & Hlist & Hrows & Hother).
  - intros student fields hc fc. apply add_body.
  - exact Hnodup.
  - now apply rows_at_app.
  - now apply list_lookup_middle.
  - exact Hready.
  - exists h'.
    assert (forall x, (x < length h)%nat -> ~ In x items -> h' !! x = h !! x) as Hframe.
    { intros x Hx Hnin. rewrite Hother; [|lia|exact Hnin]. now apply lookup_app_l. }
    assert (~ In students items) as Hnin.
    { intros Hin. destruct (rows_at_lookup _ _ _ _ Hat Hin) as [fields Hfields].
      congruence. }
    split; [|split; [|split]].
    + unfold bind at 1. unfold Obj.list_copy, bind at 1. unfold Obj.read_list at 1.
      rewrite Hstudents. unfold Obj.alloc.
      unfold bind at 1. unfold Obj.read_list at 1.
      rewrite (list_lookup_middle h [] (Obj.RowList items) (length h) eq_refl).
      now rewrite (run_bind _ _ _ _ _ Hrun).
    + split; [exact Hlist|]. split; [exact Hnodup|exact Hrows].
    + split; [|split; [exact Hnodup|exact Hrows]].
      rewrite (Hframe students Hlt Hnin). exact Hstudents.
    + split; [rewrite Hlen, length_app; simpl; lia|exact Hframe].
Qed.

Lemma clean_body (date_pos : Z) (updated student : nat)
    (fields : list string) (hc : list Obj.obj) (fc : list nat) :
  hc !! student = Some (Obj.Row fields) ->
  hc !! updated = Some (Obj.RowList fc) ->
  has_col fields date_pos ->
  bind (Obj.read_row student) (fun fields =>
  bind (lift (getitem fields date_pos)) (fun date =>
  bind (Obj.row_setitem student date_pos (extract_date date)) (fun _ =>
  Obj.list_append updated student))) hc
  = (Ok tt,
     <[updated := Obj.RowList (fc ++ [student])]>
       (<[student := Obj.Row (cleaned date_pos fields)]> hc)).
Proof.
  intros Hstudent Hupdated [date Hdate].
  assert (student <> updated) as Hne by congruence.
  unfold cleaned. rewrite (getitem_field _ _ _ Hdate).
  unfold bind at 1. unfold Obj.read_row at 1. rewrite Hstudent.
  unfold bind at 1. unfold lift. rewrite Hdate.
  unfold getitem in Hdate.
  destruct (norm_index (length fields) date_pos) as [n|] eqn:Hn; [|discriminate Hdate].
  unfold bind at 1. unfold Obj.row_setitem, bind at 1. unfold Obj.read_row.
  rewrite Hstudent, Hn. unfold Obj.store.
  unfold Obj.list_append, bind, Obj.read_list, Obj.store.
  rewrite list_lookup_insert_ne by congruence. now rewrite Hupdated.
Qed.

(** *** The projection *)

Lemma row_append_last (hc : list Obj.obj) (fields : list string) (v : string) :
  Obj.row_append (length hc) v (hc ++ [Obj.Row fields])
  = (Ok tt, hc ++ [Obj.Row (fields ++ [v])]).
Proof.
  unfold Obj.row_append, bind, Obj.read_row, Obj.store.
  rewrite (list_lookup_middle hc [] (Obj.Row fields) (length hc) eq_refl).
  rewrite insert_app_r_alt by lia. now rewrite Nat.sub_diag.
Qed.

Lemma strip_body (updated student : nat) (fields : list string)
    (hc : list Obj.obj) (fc : list nat) :
  hc !! student = Some (Obj.Row fields) ->
  hc !! updated = Some (Obj.RowList fc) ->
  (8 <= length fields)%nat ->
  bind (Obj.alloc (Obj.Row [])) (fun updated_student =>
  bind (Obj.read_row student) (fun fields =>
  bind (lift (getitem fields 5)) (fun v5 =>
  bind (Obj.row_append updated_student v5) (fun _ =>
  bind (lift (getitem fields 6)) (fun v6 =>
  bind (Obj.row_append updated_student v6) (fun _ =>
  bind (lift (getitem fields 7)) (fun v7 =>
  bind (Obj.row_append updated_student v7) (fun _ =>
  Obj.list_append updated updated_student)))))))) hc
  = (Ok tt,
     <[updated := Obj.RowList (fc ++ [length hc])]> (hc ++ [Obj.Row (stripped fields)])).
Proof.
  intros Hstudent Hupdated Hlen.
  unfold bind at 1. unfold Obj.alloc at 1.
  unfold bind at 1. unfold Obj.read_row at 1.
  rewrite (lookup_app_l_Some _ [Obj.Row []] _ _ Hstudent).
  unfold bind at 1. unfold lift at 1. rewrite (getitem_field_in_range fields 5) by lia.
  rewrite (run_bind _ _ _ _ _ (row_append_last hc [] (field fields 5))).
  unfold bind at 1. unfold lift at 1. rewrite (getitem_field_in_range fields 6) by lia.
  rewrite (run_bind _ _ _ _ _ (row_append_last hc _ (field fields 6))).
  unfold bind at 1. unfold lift at 1. rewrite (getitem_field_in_range fields 7) by lia.
  rewrite (run_bind _ _ _ _ _ (row_append_last hc _ (field fields 7))).
  unfold Obj.list_append, bind, Obj.read_list, Obj.store.
  now rewrite (lookup_app_l_Some _ [Obj.Row _] _ _ Hupdated).
Qed.

(** The loop of [strip_cf_data]: every pass makes a row object of the
    three columns at the end of the store and appends it to the new
    list. *)
Lemma strip_loop (body : nat -> M (list Obj.obj) unit) (updated : nat)
    (items : list nat) (rows : list (list string)) (h : list Obj.obj) (filled : list nat) :
  (forall (student : nat) (fields : list string) (hc : list Obj.obj) (fc : list nat),
     hc !! student = Some (Obj.Row fields) ->
     hc !! updated = Some (Obj.RowList fc) ->
     (8 <= length fields)%nat ->
     body student hc
     = (Ok tt,
        <[updated := Obj.RowList (fc ++ [length hc])]>
          (hc ++ [Obj.Row (stripped fields)]))) ->
  Obj.rows_at h items rows ->
  h !! updated = Some (Obj.RowList filled) ->
  List.Forall (fun r => (8 <= length r)%nat) rows ->
  for_each items body h
  = (Ok tt,
     <[updated := Obj.RowList (filled ++ seq (length h) (length rows))]>
       (h ++ map (fun r => Obj.Row (stripped r)) rows)).
Proof.
  intros Hbody. revert rows h filled.
  induction items as [|student items IH]; intros rows h filled Hat Hupdated Hready;
    inversion Hat as [|? fields ? rows' Hstudent Hrest]; subst.
  - simpl. rewrite !app_nil_r. now rewrite (list_insert_id _ _ _ Hupdated).
  - apply List.Forall_cons_iff in Hready as [Hfields Hready].
    pose proof (lookup_lt_Some _ _ _ Hupdated) as Hlt.
    cbn [for_each].
    rewrite (run_bind _ _ _ _ _ (Hbody student fields h filled Hstudent Hupdated Hfields)).
    rewrite (IH rows' _ (filled ++ [length h])).
    + rewrite length_insert, length_app. simpl length.
      rewrite <- insert_app_l by (rewrite length_app; simpl; lia).
      rewrite list_insert_insert_eq, <- !app_assoc.
      now replace (length h + 1)%nat with (S (length h)) by lia.
    + apply (rows_at_insert_list _ updated filled);
        [now apply lookup_app_l_Some|now apply rows_at_app].
    + apply list_lookup_insert_eq. rewrite length_app. lia.
    + exact Hready.
Qed.

Lemma rows_at_new (pre : list Obj.obj) (rows : list (list string)) :
  Obj.rows_at (pre ++ map Obj.Row rows) (seq (length pre) (length rows)) rows.
Proof.
  revert pre. induction rows as [|r rows IH]; intros pre; [constructor|].
  simpl. constructor; [now apply list_lookup_middle|].
  specialize (IH (pre ++ [Obj.Row r])).
  rewrite length_app, <- app_assoc in IH. simpl in IH.
  now replace (length pre + 1)%nat with (S (length pre)) in IH by lia.
Qed.

(** *** Frames *)

Lemma unchanged_outside_refl (changed : list nat) (h : list Obj.obj) :
  unchanged_outside changed h h.
Proof. split; [lia|reflexivity]. Qed.

Lemma unchanged_outside_trans (changed : list nat) (h1 h2 h3 : list Obj.obj) :
  unchanged_outside changed h1 h2 -> unchanged_outside changed h2 h3 ->
  unchanged_outside changed h1 h3.
Proof.
  intros [Hlen1 Hsame1] [Hlen2 Hsame2]. split; [lia|].
  intros x Hx Hnin. rewrite Hsame2; [|lia|exact Hnin]. now apply Hsame1.
Qed.

Lemma unchanged_outside_weaken (changed changed' : list nat) (h h' : list Obj.obj) :
  (forall x : nat, In x changed -> In x changed') ->
  unchanged_outside changed h h' -> unchanged_outside changed' h h'.
Proof.
  intros Hsub [Hlen Hsame]. split; [exact Hlen|].
  intros x Hx Hnin. apply Hsame; [exact Hx|]. intros Hin. apply Hnin. now apply Hsub.
Qed.

Lemma unchanged_outside_app (changed : list nat) (h extra : list Obj.obj) :
  unchanged_outside changed h (h ++ extra).
Proof.
  split; [rewrite length_app; lia|].
  intros x Hx _. now apply lookup_app_l.
Qed.

(** Objects that exist are kept by a run that only adds objects. *)
Lemma unchanged_outside_kept (h h' : list Obj.obj) :
  (forall (l : nat) (o : Obj.obj), h !! l = Some o -> h' !! l = Some o) ->
  unchanged_outside [] h h'.
Proof.
  intros Hkeep. split.
  - destruct (Nat.le_gt_cases (length h) (length h')) as [Hle|Hgt]; [exact Hle|].
    destruct (lookup_lt_is_Some_2 h (length h')) as [o Ho]; [lia|].
    apply Hkeep in Ho. apply lookup_lt_Some in Ho. lia.
  - intros x Hx _. destruct (lookup_lt_is_Some_2 h x Hx) as [o Ho].
    rewrite Ho. now apply Hkeep.
Qed.

Lemma rows_at_lt (h : list Obj.obj) (locs : list nat) (rows : list (list string)) (x : nat) :
  Obj.rows_at h locs rows -> In x locs -> (x < length h)%nat.
Proof.
  intros Hat Hin. destruct (rows_at_lookup _ _ _ _ Hat Hin) as [fields Hfields].
  now apply lookup_lt_Some in Hfields.
Qed.

Lemma rows_at_unchanged (changed : list nat) (h h' : list Obj.obj)
    (locs : list nat) (rows : list (list string)) :
  unchanged_outside changed h h' ->
  (forall x : nat, In x locs -> ~ In x changed) ->
  Obj.rows_at h locs rows -> Obj.rows_at h' locs rows.
Proof.
  intros [_ Hsame] Hout Hat. apply (rows_at_same h); [|exact Hat].
  intros l Hl. apply Hsame; [now apply (rows_at_lt h locs rows)|now apply Hout].
Qed.

Lemma holds_unchanged (changed : list nat) (h h' : list Obj.obj) (l : nat)
    (items : list nat) (rows : list (list string)) :
  unchanged_outside changed h h' ->
  ~ In l changed ->
  (forall x : nat, In x items -> ~ In x changed) ->
  holds h l items rows -> holds h' l items rows.
Proof.
  intros Hframe Hl Hout (Hlist & Hnodup & Hat).
  split; [|split; [exact Hnodup|now apply (rows_at_unchanged changed h)]].
  destruct Hframe as [_ Hsame]. rewrite Hsame; [exact Hlist| |exact Hl].
  now apply lookup_lt_Some in Hlist.
Qed.

(** A list object is none of the rows that a list leads to. *)
Lemma holds_not_item (h : list Obj.obj) (l' : nat) (items items' : list nat)
    (rows : list (list string)) :
  h !! l' = Some (Obj.RowList items') -> Obj.rows_at h items rows -> ~ In l' items.
Proof.
  intros Hl Hat Hin. destruct (rows_at_lookup _ _ _ _ Hat Hin) as [fields Hfields].
  congruence.
Qed.

(** *** Rows that have grown *)

Lemma getitem_app_l {A : Type} (r extra : list A) (i : Z) :
  0 <= i < Z.of_nat (length r) -> getitem (r ++ extra) i = getitem r i.
Proof.
  intros Hi. unfold getitem, norm_index. rewrite length_app.
  destruct (Z.leb_spec 0 i) as [_|?]; [|lia].
  destruct (Z.ltb_spec i (Z.of_nat (length r))) as [_|?]; [|lia].
  destruct (Z.ltb_spec i (Z.of_nat (length r + length extra))) as [_|?]; [|lia].
  simpl. now rewrite lookup_app_l by lia.
Qed.

Lemma extract_student_id_app (r extra : list string) (pos : Z) :
  0 <= pos < Z.of_nat (length r) ->
  extract_student_id (r ++ extra) pos = extract_student_id r pos.
Proof. intros Hpos. unfold extract_student_id. now rewrite getitem_app_l. Qed.

Lemma extract_course_date_app (r extra : list string) (pos : Z) (label : string) :
  0 <= pos < Z.of_nat (length r) ->
  extract_course_date (r ++ extra) pos label = extract_course_date r pos label.
Proof. intros Hpos. unfold extract_course_date. now rewrite getitem_app_l. Qed.

Lemma cleaned_length (pos : Z) (r : list string) : length (cleaned pos r) = length r.
Proof.
  unfold cleaned. destruct (norm_index (length r) pos); [|reflexivity].
  apply length_insert.
Qed.

Lemma has_col_in_range (r : list string) (i : Z) :
  0 <= i < Z.of_nat (length r) -> has_col r i.
Proof. intros Hi. exact (getitem_in_range r i Hi). Qed.

Lemma sublist_In (kept items : list nat) (x : nat) :
  kept `sublist_of` items -> In x kept -> In x items.
Proof.
  intros Hsub. induction Hsub as [|y kept items _ IH|y kept items _ IH]; simpl.
  - tauto.
  - intros [->|Hin]; [now left|right; now apply IH].
  - intros Hin. right. now apply IH.
Qed.

(** With the id and the two dates appended, the row is the old row and
    three fields. *)
Lemma cf_extended (r : list string) :
  (4 <= length r)%nat ->
  with_course_date 3 "Course End Date"
    (with_course_date 3 "Course Start Date" (with_student_id 3 r))
  = r ++ [value_of (extract_student_id r 3);
          value_of (extract_course_date r 3 "Course Start Date");
          value_of (extract_course_date r 3 "Course End Date")].
Proof.
  intros Hlen. unfold with_course_date, with_student_id.
  rewrite <- !app_assoc. simpl app.
  rewrite (extract_course_date_app r [_] 3) by lia.
  now rewrite (extract_course_date_app r [_; _] 3) by lia.
Qed.

(** *** The stages as wholes *)

Lemma clean_stage (students : nat) (date_pos : Z) (items : list nat)
    (rows : list (list string)) (h : list Obj.obj) :
  holds h students items rows ->
  List.Forall (fun r => has_col r date_pos) rows ->
  exists h' : list Obj.obj,
    Obj.clean_date students date_pos h = (Ok (length h), h') /\
    holds h' (length h) items (map (cleaned date_pos) rows) /\
    holds h' students items (map (cleaned date_pos) rows) /\
    unchanged_outside items h h'.
Proof.
  intros (Hstudents & Hnodup & Hat) Hready.
  pose proof (lookup_lt_Some _ _ _ Hstudents) as Hlt.
  destruct (update_loop (cleaned date_pos) true (fun r => has_col r date_pos)
              (fun student =>
                 bind (Obj.read_row student) (fun fields =>
                 bind (lift (getitem fields date_pos)) (fun date =>
                 bind (Obj.row_setitem student date_pos (extract_date date)) (fun _ =>
                 Obj.list_append (length h) student))))
              (length h) items rows (h ++ [Obj.RowList []]) [])
    as (h' & Hrun & Hlen & Hlist & Hrows & Hother).
  - intros student fields hc fc. apply clean_body.
  - exact Hnodup.
  - now apply rows_at_app.
  - now apply list_lookup_middle.
  - exact Hready.
  - exists h'.
    assert (forall x, (x < length h)%nat -> ~ In x items -> h' !! x = h !! x) as Hframe.
    { intros x Hx Hnin. rewrite Hother; [|lia|exact Hnin]. now apply lookup_app_l. }
    assert (~ In students items) as Hnin.
    { intros Hin. destruct (rows_at_lookup _ _ _ _ Hat Hin) as [fields Hfields].
      congruence. }
    split; [|split; [|split]].
    + unfold Obj.clean_date.
      unfold bind at 1. unfold Obj.alloc at 1.
      unfold bind at 1. unfold Obj.read_list at 1.
      rewrite (lookup_app_l_Some _ [Obj.RowList []] _ _ Hstudents).
      now rewrite (run_bind _ _ _ _ _ Hrun).
    + split; [exact Hlist|]. split; [exact Hnodup|exact Hrows].
    + split; [|split; [exact Hnodup|exact Hrows]].
      rewrite (Hframe students Hlt Hnin). exact Hstudents.
    + split; [rewrite Hlen, length_app; simpl; lia|exact Hframe].
Qed.

Lemma strip_stage (data : nat) (items : list nat)
    (rows : list (list string)) (h : list Obj.obj) :
  h !! data = Some (Obj.RowList items) ->
  Obj.rows_at h items rows ->
  List.Forall (fun r => (8 <= length r)%nat) rows ->
  Obj.strip_cf_data data h
  = (Ok (length h),
     h ++ Obj.RowList (seq (S (length h)) (length rows))
          :: map Obj.Row (map stripped rows)) /\
  holds (h ++ Obj.RowList (seq (S (length h)) (length rows))
           :: map Obj.Row (map stripped rows))
        (length h) (seq (S (length h)) (length rows)) (map stripped rows).
Proof.
  intros Hdata Hat Hlen.
  split.
  - unfold Obj.strip_cf_data.
    unfold bind at 1. unfold Obj.alloc at 1.
    unfold bind at 1. unfold Obj.read_list at 1.
    rewrite (lookup_app_l_Some _ [Obj.RowList []] _ _ Hdata).
    unfold bind at 1.
    rewrite (strip_loop
               (fun student =>
                  bind (Obj.alloc (Obj.Row [])) (fun updated_student =>
                  bind (Obj.read_row student) (fun fields =>
                  bind (lift (getitem fields 5)) (fun v5 =>
                  bind (Obj.row_append updated_student v5) (fun _ =>
                  bind (lift (getitem fields 6)) (fun v6 =>
                  bind (Obj.row_append updated_student v6) (fun _ =>
                  bind (lift (getitem fields 7)) (fun v7 =>
                  bind (Obj.row_append updated_student v7) (fun _ =>
                  Obj.list_append (length h) updated_student)))))))))
               (length h) items rows (h ++ [Obj.RowList []]) []
               (fun student fields hc fc =>
                  strip_body (length h) student fields hc fc)
               (rows_at_app _ _ _ _ Hat)
               (list_lookup_middle h [] _ (length h) eq_refl) Hlen).
    unfold ret. f_equal.
    rewrite <- app_assoc, insert_app_r_alt by lia.
    rewrite Nat.sub_diag, length_app, map_map. simpl.
    now replace (length h + 1)%nat with (S (length h)) by lia.
  - split; [now apply list_lookup_middle|].
    split; [apply List.seq_NoDup|].
    pose proof (rows_at_new
                  (h ++ [Obj.RowList (seq (S (length h)) (length rows))])
                  (map stripped rows)) as Hnew.
    rewrite length_app, <- app_assoc, length_map in Hnew. simpl in Hnew.
    now replace (length h + 1)%nat with (S (length h)) in Hnew by lia.
Qed.

Lemma compare_stage (enrolment custom_field : nat) (e_items c_items : list nat)
    (e_rows c_rows : list (list string)) (e_pos c_pos es_pos cs_pos : Z)
    (h : list Obj.obj) :
  h !! enrolment = Some (Obj.RowList e_items) ->
  Obj.rows_at h e_items e_rows ->
  h !! custom_field = Some (Obj.RowList c_items) ->
  Obj.rows_at h c_items c_rows ->
  List.Forall (fun r => has_col r es_pos /\ has_col r e_pos) e_rows ->
  List.Forall (fun r => has_col r cs_pos /\ has_col r c_pos) c_rows ->
  exists (res : nat) (h' : list Obj.obj) (items : list nat),
    Obj.compare enrolment custom_field e_pos c_pos es_pos cs_pos h = (Ok res, h') /\
    h !! res = None /\
    h' !! res = Some (Obj.RowList items) /\
    Obj.rows_at h' items (diff_by_id e_rows c_rows e_pos c_pos es_pos cs_pos) /\
    (forall (l : nat) (o : Obj.obj), h !! l = Some o -> h' !! l = Some o).
Proof.
  intros He Hea Hc Hca Hecols Hccols.
  pose proof (ObjCompare.compare_on_store e_pos c_pos es_pos cs_pos enrolment custom_field
                e_items c_items e_rows c_rows h He Hc Hea Hca) as Hsim.
  unfold compare in Hsim.
  rewrite (compare_loop_diff_by_id e_pos c_pos es_pos cs_pos e_rows c_rows [] Hecols Hccols)
    in Hsim.
  destruct Hsim as (res & h' & items & Hrun & Hres & Hat).
  destruct (ObjFacts.compare_preserving enrolment custom_field e_pos c_pos es_pos cs_pos
              h h' res Hrun) as [Hfresh [_ Hkeep]].
  exists res, h', items.
  split; [exact Hrun|]. split; [exact Hfresh|]. split; [exact Hres|].
  split; [exact Hat|].
  intros l o Hl. apply Hkeep; [tauto|exact Hl].
Qed.

(** *** The two chains of the workflow *)

Lemma Forall_filter_keeps {A : Type} (P : A -> Prop) (keep : A -> bool) (l : list A) :
  List.Forall P l -> List.Forall P (List.filter keep l).
Proof.
  intros Hall. apply List.Forall_forall. intros x Hx.
  apply List.filter_In in Hx as [Hx _]. revert x Hx. now apply List.Forall_forall.
Qed.

(** The stages that the workflow runs on the Enrolment Dates rows. *)
Lemma ed_steps (raw : nat) (items : list nat) (rows : list (list string))
    (h : list Obj.obj) :
  holds h raw items rows ->
  List.Forall (fun r => (5 <= length r)%nat) rows ->
  exists (kept : list nat) (l1 l2 l3 : nat) (h1 h2 h3 : list Obj.obj),
    Obj.get_courses raw 2 h = (Ok l1, h1) /\
    Obj.clean_date l1 3 h1 = (Ok l2, h2) /\
    Obj.clean_date l2 4 h2 = (Ok l3, h3) /\
    kept `sublist_of` items /\
    holds h3 l3 kept (ed_students rows) /\
    unchanged_outside items h h3.
Proof.
  intros Hholds Hlen.
  destruct (filter_stage (has_course_code 2) (fun r => has_col r 2) _ raw items rows h
              (fun updated student fields hc fc =>
                 get_courses_body 2 updated student fields hc fc) Hholds)
    as (kept & Hrun1 & Hsub & Hholds1).
  { eapply List.Forall_impl; [|exact Hlen]. intros r Hr. cbv beta in Hr. apply has_col_in_range. lia. }
  pose proof (Forall_filter_keeps _ (has_course_code 2) rows Hlen) as Hlen1.
  destruct (clean_stage (length h) 3 kept _ _ Hholds1) as (h2 & Hrun2 & Hholds2 & _ & Hframe2).
  { eapply List.Forall_impl; [|exact Hlen1]. intros r Hr. cbv beta in Hr. apply has_col_in_range. lia. }
  destruct (clean_stage (length (h ++ [Obj.RowList kept])) 4 kept _ h2 Hholds2)
    as (h3 & Hrun3 & Hholds3 & _ & Hframe3).
  { apply List.Forall_map. eapply List.Forall_impl; [|exact Hlen1].
    intros r Hr. cbv beta in Hr. apply has_col_in_range. rewrite cleaned_length. lia. }
  exists kept, (length h), (length (h ++ [Obj.RowList kept])), (length h2),
    (h ++ [Obj.RowList kept]), h2, h3.
  split; [exact Hrun1|]. split; [exact Hrun2|]. split; [exact Hrun3|].
  split; [exact Hsub|]. split; [exact Hholds3|].
  apply (unchanged_outside_trans items h (h ++ [Obj.RowList kept]));
    [apply unchanged_outside_app|].
  apply (unchanged_outside_weaken kept); [intros x; now apply sublist_In|].
  now apply (unchanged_outside_trans kept _ h2).
Qed.

(** The stages that the workflow runs on the Custom Fields rows. *)
Lemma cf_steps (raw : nat) (items : list nat) (rows : list (list string))
    (h : list Obj.obj) :
  holds h raw items rows ->
  List.Forall (fun r => (4 <= length r)%nat) rows ->
  List.Forall cf_ready (List.filter (has_marker 3) rows) ->
  exists (its : list nat) (l1 l2 l3 l4 l5 : nat) (h1 h2 h3 h4 h5 : list Obj.obj),
    Obj.extract_students raw 3 h = (Ok l1, h1) /\
    Obj.add_student_id l1 3 h1 = (Ok l2, h2) /\
    Obj.add_start_date l2 3 h2 = (Ok l3, h3) /\
    Obj.add_end_date l3 3 h3 = (Ok l4, h4) /\
    Obj.strip_cf_data l4 h4 = (Ok l5, h5) /\
    holds h5 l5 its (cf_students rows) /\
    unchanged_outside items h h5.
Proof.
  intros Hholds Hlen Hready.
  destruct (filter_stage (has_marker 3) (fun r => has_col r 3) _ raw items rows h
              (fun updated student fields hc fc =>
                 extract_students_body 3 updated student fields hc fc) Hholds)
    as (kept & Hrun1 & Hsub & Hholds1).
  { eapply List.Forall_impl; [|exact Hlen]. intros r Hr. cbv beta in Hr. apply has_col_in_range. lia. }
  set (marked := List.filter (has_marker 3) rows) in *.
  destruct (add_stage (fun r => extract_student_id r 3) (length h) kept marked _ Hholds1)
    as (h2 & Hrun2 & Hholds2 & _ & Hframe2).
  { eapply List.Forall_impl; [|exact Hready]. now intros r (_ & Hid & _). }
  destruct (add_stage (fun r => extract_course_date r 3 "Course Start Date")
              (length (h ++ [Obj.RowList kept])) kept _ h2 Hholds2)
    as (h3 & Hrun3 & Hholds3 & _ & Hframe3).
  { apply List.Forall_map. eapply List.Forall_impl; [|exact Hready].
    intros r (Hr & _ & Hstart & _).
    rewrite extract_course_date_app by lia. exact Hstart. }
  destruct (add_stage (fun r => extract_course_date r 3 "Course End Date")
              (length h2) kept _ h3 Hholds3)
    as (h4 & Hrun4 & Hholds4 & _ & Hframe4).
  { apply List.Forall_map, List.Forall_map. eapply List.Forall_impl; [|exact Hready].
    intros r (Hr & _ & _ & Hend).
    rewrite <- app_assoc, extract_course_date_app by lia. exact Hend. }
  destruct Hholds4 as (Hlist4 & _ & Hat4).
  destruct (strip_stage (length h3) kept _ h4 Hlist4 Hat4) as [Hrun5 Hholds5].
  { apply List.Forall_map, List.Forall_map, List.Forall_map.
    eapply List.Forall_impl; [|exact Hready].
    intros r (Hr & _). rewrite !length_app. simpl. lia. }
  assert (map stripped
            (map (fun r => r ++ [value_of (extract_course_date r 3 "Course End Date")])
               (map (fun r => r ++ [value_of (extract_course_date r 3 "Course Start Date")])
                  (map (fun r => r ++ [value_of (extract_student_id r 3)]) marked)))
          = cf_students rows) as Hrows.
  { unfold cf_students. fold marked. now rewrite !map_map. }
  rewrite Hrows in Hrun5, Hholds5.
  eexists _, _, _, _, _, _, _, h2, h3, h4, _.
  split; [exact Hrun1|]. split; [exact Hrun2|]. split; [exact Hrun3|].
  split; [exact Hrun4|]. split; [exact Hrun5|].
  split.
  - exact Hholds5.
  - apply (unchanged_outside_trans items h (h ++ [Obj.RowList kept]));
      [apply unchanged_outside_app|].
    apply (unchanged_outside_weaken kept); [intros x; now apply sublist_In|].
    apply (unchanged_outside_trans kept _ h2); [exact Hframe2|].
    apply (unchanged_outside_trans kept _ h3); [exact Hframe3|].
    apply (unchanged_outside_trans kept _ h4); [exact Hframe4|].
    apply unchanged_outside_app.
Qed.


End StageSpec.

(** ** The stages and the store *)

(** C3 (amended): [extract_students], [get_courses], [strip_cf_data]
    and [compare] return a new list and change no object that existed
    before, so they are pure with respect to their input lists.
    [clean_date], [add_student_id], [add_start_date] and [add_end_date]
    are not.  Whenever one of them returns, its result is a new list
    object of the same row objects, the input list object and every
    object that is not a row of the input are unchanged, each row has
    as many columns as before ([clean_date]) or more (the [add_]
    stages), and the columns it had are kept but, for [clean_date],
    column [pos].  And on a list of distinct row objects that have
    column [pos], [clean_date] returns, and each row of the input is
    then what it was with column [pos] replaced by [extract_date] of
    its old value; on a list of distinct row objects from which the
    field can be taken, an [add_] stage returns, and each row of the
    input is then what it was with one field more at its end: the
    student id, the date that follows "Course Start Date", or the date
    that follows "Course End Date", taken from column [pos] of the
    row.  The input list and the returned list both lead to the updated
    rows. *)
Theorem stages_store_effects (students enrolment custom_field : nat)
    (pos e_pos c_pos es_pos cs_pos : Z) :
  (Obj.preserving_stage (Obj.extract_students students pos)
   /\ Obj.preserving_stage (Obj.get_courses students pos)
   /\ Obj.preserving_stage (Obj.strip_cf_data students)
   /\ Obj.preserving_stage (Obj.compare enrolment custom_field e_pos c_pos es_pos cs_pos))
  /\ (Obj.pure_stage students (Obj.extract_students students pos)
      /\ Obj.pure_stage students (Obj.get_courses students pos)
      /\ Obj.pure_stage students (Obj.strip_cf_data students)
      /\ Obj.pure_stage enrolment
           (Obj.compare enrolment custom_field e_pos c_pos es_pos cs_pos)
      /\ Obj.pure_stage custom_field
           (Obj.compare enrolment custom_field e_pos c_pos es_pos cs_pos))
  /\ (Obj.updating_stage (Obj.overwritten_at pos) students (Obj.clean_date students pos)
      /\ Obj.updating_stage Obj.extended students (Obj.add_student_id students pos)
      /\ Obj.updating_stage Obj.extended students (Obj.add_start_date students pos)
      /\ Obj.updating_stage Obj.extended students (Obj.add_end_date students pos))
  /\ (forall (h : list Obj.obj) (items : list nat) (rows : list (list string)),
        holds h students items rows ->
        (List.Forall (fun r => has_col r pos) rows ->
         exists h' : list Obj.obj,
           Obj.clean_date students pos h = (Ok (length h), h') /\
           holds h' (length h) items (map (cleaned pos) rows) /\
           holds h' students items (map (cleaned pos) rows) /\
           unchanged_outside items h h')
        /\ (List.Forall (fun r => exists v : string, extract_student_id r pos = Ok v) rows ->
            exists h' : list Obj.obj,
              Obj.add_student_id students pos h = (Ok (length h), h') /\
              holds h' (length h) items (map (with_student_id pos) rows) /\
              holds h' students items (map (with_student_id pos) rows) /\
              unchanged_outside items h h')
        /\ (List.Forall (fun r => exists v : string,
                           extract_course_date r pos "Course Start Date" = Ok v) rows ->
            exists h' : list Obj.obj,
              Obj.add_start_date students pos h = (Ok (length h), h') /\
              holds h' (length h) items (map (with_course_date pos "Course Start Date") rows) /\
              holds h' students items (map (with_course_date pos "Course Start Date") rows) /\
              unchanged_outside items h h')
        /\ (List.Forall (fun r => exists v : string,
                           extract_course_date r pos "Course End Date" = Ok v) rows ->
            exists h' : list Obj.obj,
              Obj.add_end_date students pos h = (Ok (length h), h') /\
              holds h' (length h) items (map (with_course_date pos "Course End Date") rows) /\
              holds h' students items (map (with_course_date pos "Course End Date") rows) /\
              unchanged_outside items h h')).
Proof.
  pose proof (ObjFacts.extract_students_preserving students pos) as H1.
  pose proof (ObjFacts.get_courses_preserving students pos) as H2.
  pose proof (ObjFacts.strip_cf_data_preserving students) as H3.
  pose proof (ObjFacts.compare_preserving enrolment custom_field e_pos c_pos es_pos cs_pos)
    as H4.
  split; [auto|]. split; [|split].
  - split; [|split; [|split; [|split]]]; apply ObjFacts.preserving_pure; assumption.
  - split; [apply ObjFacts.clean_date_updating|].
    split; [apply ObjFacts.add_student_id_updating|].
    split; [apply ObjFacts.add_start_date_updating|apply ObjFacts.add_end_date_updating].
  - intros h items rows Hholds.
    split; [|split; [|split]]; intros Hready.
    + exact (StageSpec.clean_stage students pos items rows h Hholds Hready).
    + exact (StageSpec.add_stage (fun r => extract_student_id r pos)
               students items rows h Hholds Hready).
    + exact (StageSpec.add_stage (fun r => extract_course_date r pos "Course Start Date")
               students items rows h Hholds Hready).
    + exact (StageSpec.add_stage (fun r => extract_course_date r pos "Course End Date")
               students items rows h Hholds Hready).
Qed.

Lemma stages_store_effects_witness :
  (Obj.ed_store !! 2%nat = None
   /\ snd (Obj.get_courses 1%nat 2 Obj.ed_store) !! 0%nat = Obj.ed_store !! 0%nat)
  /\ (exists h' : list Obj.obj,
        Obj.clean_date 1%nat 3 Obj.ed_store = (Ok 2%nat, h')
        /\ holds h' 2%nat [0%nat]
             [["FitNZ0001"; "A Student"; "Personal Training (PT-01-ONL)"; "15/06/2020";
               "2021-06-15 00:00:00"]]
        /\ holds h' 1%nat [0%nat]
             [["FitNZ0001"; "A Student"; "Personal Training (PT-01-ONL)"; "15/06/2020";
               "2021-06-15 00:00:00"]]
        /\ unchanged_outside [0%nat] Obj.ed_store h')
  /\ (exists h' : list Obj.obj,
        Obj.add_student_id 1%nat 3 Obj.cf_store = (Ok 2%nat, h')
        /\ holds h' 2%nat [0%nat] [cf_row_marked ++ ["FitNZ0001"]]
        /\ holds h' 1%nat [0%nat] [cf_row_marked ++ ["FitNZ0001"]]
        /\ unchanged_outside [0%nat] Obj.cf_store h')
  /\ (exists h' : list Obj.obj,
        Obj.add_end_date 1%nat 3 Obj.cf_store = (Ok 2%nat, h')
        /\ holds h' 2%nat [0%nat] [cf_row_marked ++ ["15/06/2021"]]
        /\ holds h' 1%nat [0%nat] [cf_row_marked ++ ["15/06/2021"]]
        /\ unchanged_outside [0%nat] Obj.cf_store h').
Proof.
  destruct (stages_store_effects 1%nat 1%nat 1%nat 2 0 0 0 0)
    as (_ & (_ & Hcourses & _) & _).
  destruct (stages_store_effects 1%nat 1%nat 1%nat 3 0 0 0 0) as (_ & _ & _ & Hexact).
  assert (holds Obj.ed_store 1%nat [0%nat] [ed_row_coded]) as Hed.
  { split; [reflexivity|]. split; [|repeat constructor].
    repeat constructor; simpl; intros H; exact H. }
  assert (holds Obj.cf_store 1%nat [0%nat] [cf_row_marked]) as Hcf.
  { split; [reflexivity|]. split; [|repeat constructor].
    repeat constructor; simpl; intros H; exact H. }
  split; [|split; [|split]].
  - destruct (Hcourses Obj.ed_store _ [0%nat] 2%nat eq_refl eq_refl) as (Hfresh & _ & Hrows).
    split; [exact Hfresh|].
    exact (Hrows 0%nat _ (or_introl eq_refl) eq_refl).
  - destruct (Hexact Obj.ed_store [0%nat] [ed_row_coded] Hed) as (Hclean & _).
    apply Hclean. repeat constructor; now eexists.
  - destruct (Hexact Obj.cf_store [0%nat] [cf_row_marked] Hcf) as (_ & Hid & _).
    apply Hid. repeat constructor; now eexists.
  - destruct (Hexact Obj.cf_store [0%nat] [cf_row_marked] Hcf) as (_ & _ & _ & Hend).
    apply Hend. repeat constructor; now eexists.
Defined.

(** X20: on a store in which [students] is a list of distinct row
    objects that all have the column [data_pos], [extract_students]
    returns a new list object, put at the end of the store, and changes
    nothing else; the new list holds, in their order, the row objects
    of the input whose column [data_pos] contains "FitNZ", the very
    objects of the input list and not copies of them. *)
Theorem extract_students_keeps_marked (students : nat) (data_pos : Z) (items : list nat)
    (rows : list (list string)) (h : list Obj.obj) :
  holds h students items rows ->
  List.Forall (fun r => has_col r data_pos) rows ->
  exists kept : list nat,
    Obj.extract_students students data_pos h = (Ok (length h), h ++ [Obj.RowList kept]) /\
    kept `sublist_of` items /\
    holds (h ++ [Obj.RowList kept]) (length h) kept (List.filter (has_marker data_pos) rows).
Proof.
  intros Hholds Hcols.
  exact (StageSpec.filter_stage (has_marker data_pos) (fun r => has_col r data_pos) _
           students items rows h
           (fun updated student fields hc fc =>
              StageSpec.extract_students_body data_pos updated student fields hc fc)
           Hholds Hcols).
Qed.

Lemma extract_students_keeps_marked_witness :
  exists kept : list nat,
    Obj.extract_students 2%nat 3 cf_two_store = (Ok 3%nat, cf_two_store ++ [Obj.RowList kept]) /\
    kept `sublist_of` [0%nat; 1%nat] /\
    holds (cf_two_store ++ [Obj.RowList kept]) 3%nat kept [cf_row_marked].
Proof.
  apply (extract_students_keeps_marked 2%nat 3 [0%nat; 1%nat] [cf_row_marked; cf_row_plain]
           cf_two_store).
  - split; [reflexivity|]. split; [|repeat constructor].
    repeat constructor; simpl; intros H; intuition discriminate.
  - repeat constructor; now eexists.
Defined.

(** X21: on a store in which [students] is a list of distinct row
    objects that all have the column [course_pos], [get_courses]
    returns a new list object, put at the end of the store, and changes
    nothing else; the new list holds, in their order, the row objects
    of the input whose course matches the pattern of a course code,
    something, "(", something, "-", something, "-", something, ")". *)
Theorem get_courses_keeps_coded (students : nat) (course_pos : Z) (items : list nat)
    (rows : list (list string)) (h : list Obj.obj) :
  holds h students items rows ->
  List.Forall (fun r => has_col r course_pos) rows ->
  exists kept : list nat,
    Obj.get_courses students course_pos h = (Ok (length h), h ++ [Obj.RowList kept]) /\
    kept `sublist_of` items /\
    holds (h ++ [Obj.RowList kept]) (length h) kept
      (List.filter (has_course_code course_pos) rows).
Proof.
  intros Hholds Hcols.
  exact (StageSpec.filter_stage (has_course_code course_pos) (fun r => has_col r course_pos) _
           students items rows h
           (fun updated student fields hc fc =>
              StageSpec.get_courses_body course_pos updated student fields hc fc)
           Hholds Hcols).
Qed.

Lemma get_courses_keeps_coded_witness :
  exists kept : list nat,
    Obj.get_courses 2%nat 2 ed_two_store = (Ok 3%nat, ed_two_store ++ [Obj.RowList kept]) /\
    kept `sublist_of` [0%nat; 1%nat] /\
    holds (ed_two_store ++ [Obj.RowList kept]) 3%nat kept [ed_row_coded].
Proof.
  apply (get_courses_keeps_coded 2%nat 2 [0%nat; 1%nat] [ed_row_coded; ed_row_plain]
           ed_two_store).
  - split; [reflexivity|]. split; [|repeat constructor].
    repeat constructor; simpl; intros H; intuition discriminate.
  - repeat constructor; now eexists.
Defined.

(** X22: on a store in which [students] is a list of distinct row
    objects from each of which a student id can be taken,
    [add_student_id] returns a new list object of the same row objects
    and appends to each of them the student id taken from its column
    [data_pos]: afterwards the input list and the new list both lead to
    the rows with the id appended, and every object that is not one of
    these rows is as before. *)
Theorem add_student_id_appends (students : nat) (data_pos : Z) (items : list nat)
    (rows : list (list string)) (h : list Obj.obj) :
  holds h students items rows ->
  List.Forall (fun r => exists v : string, extract_student_id r data_pos = Ok v) rows ->
  exists h' : list Obj.obj,
    Obj.add_student_id students data_pos h = (Ok (length h), h') /\
    holds h' (length h) items (map (with_student_id data_pos) rows) /\
    holds h' students items (map (with_student_id data_pos) rows) /\
    unchanged_outside items h h'.
Proof.
  intros Hholds Hids.
  exact (StageSpec.add_stage (fun r => extract_student_id r data_pos)
           students items rows h Hholds Hids).
Qed.

Lemma add_student_id_appends_witness :
  exists h' : list Obj.obj,
    Obj.add_student_id 1%nat 3 Obj.cf_store = (Ok 2%nat, h') /\
    holds h' 2%nat [0%nat] [cf_row_marked ++ ["FitNZ0001"]] /\
    holds h' 1%nat [0%nat] [cf_row_marked ++ ["FitNZ0001"]] /\
    unchanged_outside [0%nat] Obj.cf_store h'.
Proof.
  apply (add_student_id_appends 1%nat 3 [0%nat] [cf_row_marked] Obj.cf_store).
  - split; [reflexivity|]. split; [|repeat constructor].
    repeat constructor; simpl; intros H; exact H.
  - repeat constructor; now eexists.
Defined.

(** X23: on a store in which [students] is a list of distinct row
    objects from each of which the labelled date can be taken,
    [add_start_date] appends to each row the date that follows
    "Course Start Date" in its column [data_pos], and [add_end_date]
    the date that follows "Course End Date"; each returns a new list
    object of the same row objects, so that the input list leads to the
    extended rows as well, and every object that is not one of these
    rows is as before. *)
Theorem add_dates_append (students : nat) (data_pos : Z) (items : list nat)
    (rows : list (list string)) (h : list Obj.obj) :
  holds h students items rows ->
  (List.Forall (fun r => exists v : string,
                  extract_course_date r data_pos "Course Start Date" = Ok v) rows ->
   exists h' : list Obj.obj,
     Obj.add_start_date students data_pos h = (Ok (length h), h') /\
     holds h' (length h) items (map (with_course_date data_pos "Course Start Date") rows) /\
     holds h' students items (map (with_course_date data_pos "Course Start Date") rows) /\
     unchanged_outside items h h') /\
  (List.Forall (fun r => exists v : string,
                  extract_course_date r data_pos "Course End Date" = Ok v) rows ->
   exists h' : list Obj.obj,
     Obj.add_end_date students data_pos h = (Ok (length h), h') /\
     holds h' (length h) items (map (with_course_date data_pos "Course End Date") rows) /\
     holds h' students items (map (with_course_date data_pos "Course End Date") rows) /\
     unchanged_outside items h h').
Proof.
  intros Hholds. split; intros Hdates.
  - exact (StageSpec.add_stage (fun r => extract_course_date r data_pos "Course Start Date")
             students items rows h Hholds Hdates).
  - exact (StageSpec.add_stage (fun r => extract_course_date r data_pos "Course End Date")
             students items rows h Hholds Hdates).
Qed.

Lemma add_dates_append_witness :
  (exists h' : list Obj.obj,
     Obj.add_start_date 1%nat 3 Obj.cf_store = (Ok 2%nat, h') /\
     holds h' 2%nat [0%nat] [cf_row_marked ++ ["15/06/2020"]] /\
     holds h' 1%nat [0%nat] [cf_row_marked ++ ["15/06/2020"]] /\
     unchanged_outside [0%nat] Obj.cf_store h') /\
  (exists h' : list Obj.obj,
     Obj.add_end_date 1%nat 3 Obj.cf_store = (Ok 2%nat, h') /\
     holds h' 2%nat [0%nat] [cf_row_marked ++ ["15/06/2021"]] /\
     holds h' 1%nat [0%nat] [cf_row_marked ++ ["15/06/2021"]] /\
     unchanged_outside [0%nat] Obj.cf_store h').
Proof.
  assert (holds Obj.cf_store 1%nat [0%nat] [cf_row_marked]) as Hholds.
  { split; [reflexivity|]. split; [|repeat constructor].
    repeat constructor; simpl; intros H; exact H. }
  destruct (add_dates_append 1%nat 3 [0%nat] [cf_row_marked] Obj.cf_store Hholds)
    as [Hstart Hend].
  split; [apply Hstart|apply Hend]; repeat constructor; now eexists.
Defined.

(** X24: on a store in which [students] is a list of distinct row
    objects that all have the column [date_pos], [clean_date] returns a
    new list object of the same row objects and overwrites, in each of
    them, the column [date_pos] by the date that [extract_date] makes
    of it: afterwards the input list and the new list both lead to the
    rows with that column rewritten, and every object that is not one
    of these rows is as before. *)
Theorem clean_date_overwrites (students : nat) (date_pos : Z) (items : list nat)
    (rows : list (list string)) (h : list Obj.obj) :
  holds h students items rows ->
  List.Forall (fun r => has_col r date_pos) rows ->
  exists h' : list Obj.obj,
    Obj.clean_date students date_pos h = (Ok (length h), h') /\
    holds h' (length h) items (map (cleaned date_pos) rows) /\
    holds h' students items (map (cleaned date_pos) rows) /\
    unchanged_outside items h h'.
Proof.
  intros Hholds Hcols.
  exact (StageSpec.clean_stage students date_pos items rows h Hholds Hcols).
Qed.

Lemma clean_date_overwrites_witness :
  exists h' : list Obj.obj,
    Obj.clean_date 1%nat 3 Obj.ed_store = (Ok 2%nat, h') /\
    holds h' 2%nat [0%nat]
      [["FitNZ0001"; "A Student"; "Personal Training (PT-01-ONL)"; "15/06/2020";
        "2021-06-15 00:00:00"]] /\
    holds h' 1%nat [0%nat]
      [["FitNZ0001"; "A Student"; "Personal Training (PT-01-ONL)"; "15/06/2020";
        "2021-06-15 00:00:00"]] /\
    unchanged_outside [0%nat] Obj.ed_store h'.
Proof.
  apply (clean_date_overwrites 1%nat 3 [0%nat] [ed_row_coded] Obj.ed_store).
  - split; [reflexivity|]. split; [|repeat constructor].
    repeat constructor; simpl; intros H; exact H.
  - repeat constructor; now eexists.
Defined.

(** X25: on a store in which [data] is a list of rows of at least
    eight columns, [strip_cf_data] changes no object of the store: it
    puts at the end of the store a new list object and, for every row
    of the input in order, a new row object of its columns 5, 6 and 7;
    the new list leads to these new rows, which are distinct objects. *)
Theorem strip_cf_data_projects (data : nat) (items : list nat)
    (rows : list (list string)) (h : list Obj.obj) :
  h !! data = Some (Obj.RowList items) ->
  Obj.rows_at h items rows ->
  List.Forall (fun r => (8 <= length r)%nat) rows ->
  Obj.strip_cf_data data h
  = (Ok (length h),
     h ++ Obj.RowList (seq (S (length h)) (length rows))
          :: map Obj.Row (map stripped rows)) /\
  holds (h ++ Obj.RowList (seq (S (length h)) (length rows))
           :: map Obj.Row (map stripped rows))
        (length h) (seq (S (length h)) (length rows)) (map stripped rows).
Proof.
  intros Hdata Hat Hlen.
  exact (StageSpec.strip_stage data items rows h Hdata Hat Hlen).
Qed.

Lemma strip_cf_data_projects_witness :
  Obj.strip_cf_data 1%nat
    [Obj.Row (cf_row_marked ++ ["FitNZ0001"; "15/06/2020"; "15/06/2021"]);
     Obj.RowList [0%nat]]
  = (Ok 2%nat,
     [Obj.Row (cf_row_marked ++ ["FitNZ0001"; "15/06/2020"; "15/06/2021"]);
      Obj.RowList [0%nat];
      Obj.RowList [3%nat];
      Obj.Row ["FitNZ0001"; "15/06/2020"; "15/06/2021"]]).
Proof.
  refine (proj1 (strip_cf_data_projects 1%nat [0%nat]
                   [cf_row_marked ++ ["FitNZ0001"; "15/06/2020"; "15/06/2021"]]
                   [Obj.Row (cf_row_marked ++ ["FitNZ0001"; "15/06/2020"; "15/06/2021"]);
                    Obj.RowList [0%nat]] _ _ _)).
  - reflexivity.
  - repeat constructor.
  - repeat constructor.
Defined.

(** X26: on a store in which [enrolment] and [custom_field] are lists
    of rows that have the id and date columns, [compare] returns a list
    object that did not exist before and that leads to the change
    records of the rows, one for each Enrolment Dates row whose first
    Custom Fields row of the same id has another date; every object
    that existed before is unchanged, so both input lists lead to the
    same rows as before. *)
Theorem compare_on_lists (enrolment custom_field : nat) (e_items c_items : list nat)
    (e_rows c_rows : list (list string)) (e_pos c_pos es_pos cs_pos : Z)
    (h : list Obj.obj) :
  h !! enrolment = Some (Obj.RowList e_items) ->
  Obj.rows_at h e_items e_rows ->
  h !! custom_field = Some (Obj.RowList c_items) ->
  Obj.rows_at h c_items c_rows ->
  List.Forall (fun r => has_col r es_pos /\ has_col r e_pos) e_rows ->
  List.Forall (fun r => has_col r cs_pos /\ has_col r c_pos) c_rows ->
  exists (res : nat) (h' : list Obj.obj) (items : list nat),
    Obj.compare enrolment custom_field e_pos c_pos es_pos cs_pos h = (Ok res, h') /\
    h !! res = None /\
    h' !! res = Some (Obj.RowList items) /\
    Obj.rows_at h' items (diff_by_id e_rows c_rows e_pos c_pos es_pos cs_pos) /\
    (forall (l : nat) (o : Obj.obj), h !! l = Some o -> h' !! l = Some o).
Proof.
  intros He Hea Hc Hca Hecols Hccols.
  exact (StageSpec.compare_stage enrolment custom_field e_items c_items e_rows c_rows
           e_pos c_pos es_pos cs_pos h He Hea Hc Hca Hecols Hccols).
Qed.

Lemma compare_on_lists_witness :
  exists (res : nat) (h' : list Obj.obj) (items : list nat),
    Obj.compare 1%nat 3%nat 1 1 0 0
      [Obj.Row ["1"; "01/01/2020"]; Obj.RowList [0%nat];
       Obj.Row ["1"; "02/01/2020"]; Obj.RowList [2%nat]]
    = (Ok res, h') /\
    [Obj.Row ["1"; "01/01/2020"]; Obj.RowList [0%nat];
     Obj.Row ["1"; "02/01/2020"]; Obj.RowList [2%nat]] !! res = None /\
    h' !! res = Some (Obj.RowList items) /\
    Obj.rows_at h' items [["1"; "01/01/2020"]] /\
    (forall (l : nat) (o : Obj.obj),
       [Obj.Row ["1"; "01/01/2020"]; Obj.RowList [0%nat];
        Obj.Row ["1"; "02/01/2020"]; Obj.RowList [2%nat]] !! l = Some o ->
       h' !! l = Some o).
Proof.
  apply (compare_on_lists 1%nat 3%nat [0%nat] [2%nat]
           [["1"; "01/01/2020"]] [["1"; "02/01/2020"]] 1 1 0 0).
  - reflexivity.
  - repeat constructor.
  - reflexivity.
  - repeat constructor.
  - repeat constructor; now eexists.
  - repeat constructor; now eexists.
Defined.

(** ** The workflow *)

Lemma in_world_bind {A B : Type} (m : M World A) (k : A -> M (World * list Obj.obj) B)
    (w w' : World) (h : list Obj.obj) (a : A) :
  m w = (Ok a, w') -> bind (in_world m) k (w, h) = k a (w', h).
Proof. intros Hrun. unfold bind, in_world. simpl. now rewrite Hrun. Qed.

Lemma in_world_raise {A B : Type} (m : M World A) (k : A -> M (World * list Obj.obj) B)
    (w w' : World) (h : list Obj.obj) (e : exn) :
  m w = (Raise e, w') -> bind (in_world m) k (w, h) = (Raise e, (w', h)).
Proof. intros Hrun. unfold bind, in_world. simpl. now rewrite Hrun. Qed.

Lemma in_store_bind {A B : Type} (m : M (list Obj.obj) A)
    (k : A -> M (World * list Obj.obj) B) (w : World) (h h' : list Obj.obj) (a : A) :
  m h = (Ok a, h') -> bind (in_store m) k (w, h) = k a (w, h').
Proof. intros Hrun. unfold bind, in_store. simpl. now rewrite Hrun. Qed.

(** The rows that a load has read become new objects at the end of the
    store. *)
Lemma new_rows_run (rows : list (list string)) (h : list Obj.obj) :
  new_rows rows h = (Ok (seq (length h) (length rows)), h ++ map Obj.Row rows).
Proof.
  revert h. induction rows as [|r rows IH]; intros h; simpl.
  - now rewrite app_nil_r.
  - unfold bind at 1. unfold Obj.alloc at 1.
    unfold bind at 1. rewrite IH. unfold ret.
    rewrite length_app, <- app_assoc. simpl.
    now replace (length h + 1)%nat with (S (length h)) by lia.
Qed.

Lemma new_list_run (rows : list (list string)) (h : list Obj.obj) :
  exists (l : nat) (items : list nat) (h' : list Obj.obj),
    new_list rows h = (Ok l, h') /\
    holds h' l items rows /\
    unchanged_outside [] h h' /\
    (forall x : nat, In x items -> (length h <= x)%nat).
Proof.
  exists (length (h ++ map Obj.Row rows)), (seq (length h) (length rows)),
    ((h ++ map Obj.Row rows) ++ [Obj.RowList (seq (length h) (length rows))]).
  split; [|split; [|split]].
  - unfold new_list, bind. now rewrite new_rows_run.
  - split; [now apply list_lookup_middle|].
    split; [apply List.seq_NoDup|].
    apply StageSpec.rows_at_app, StageSpec.rows_at_new.
  - rewrite <- app_assoc. apply StageSpec.unchanged_outside_app.
  - intros x Hx. apply List.in_seq in Hx. lia.
Qed.

Lemma read_rows_at_run (items : list nat) (rows : list (list string)) (h : list Obj.obj) :
  Obj.rows_at h items rows -> read_rows_at items h = (Ok rows, h).
Proof.
  intros Hat. induction Hat as [|l r items rows Hl _ IH]; [reflexivity|].
  simpl. unfold bind at 1. unfold Obj.read_row. rewrite Hl.
  unfold bind. now rewrite IH.
Qed.

Lemma read_all_run (l : nat) (items : list nat) (rows : list (list string))
    (h : list Obj.obj) :
  h !! l = Some (Obj.RowList items) -> Obj.rows_at h items rows ->
  read_all l h = (Ok rows, h).
Proof.
  intros Hl Hat. unfold read_all, bind, Obj.read_list. rewrite Hl.
  now apply read_rows_at_run.
Qed.

(** X27: the stages that [process_enrolment_dates] runs on the Custom
    Fields rows, one after the other.  On a store in which [raw] is a
    list of distinct row objects of at least four columns, of which
    those with "FitNZ" in column 3 have at least five columns and hold
    a student id and both dates, the chain returns a list of new row
    objects: for each row with "FitNZ" in column 3, in order, the
    columns 5, 6 and 7 of the row with id, start date and end date
    appended.  For a row of exactly five columns these are the id, the
    start date and the end date.  No object is changed but the rows of
    [raw]. *)
Theorem cf_pipeline_records (raw : nat) (items : list nat) (rows : list (list string))
    (h : list Obj.obj) :
  holds h raw items rows ->
  List.Forall (fun r => (4 <= length r)%nat) rows ->
  List.Forall cf_ready (List.filter (has_marker 3) rows) ->
  (exists (h' : list Obj.obj) (res : nat) (its : list nat),
     bind (Obj.extract_students raw 3) (fun cf1 =>
     bind (Obj.add_student_id cf1 3) (fun cf2 =>
     bind (Obj.add_start_date cf2 3) (fun cf3 =>
     bind (Obj.add_end_date cf3 3) (fun cf4 =>
     Obj.strip_cf_data cf4)))) h = (Ok res, h') /\
     holds h' res its (cf_students rows) /\
     unchanged_outside items h h') /\
  (forall r : list string,
     length r = 5%nat ->
     cf_student r = [value_of (extract_student_id r 3);
                     value_of (extract_course_date r 3 "Course Start Date");
                     value_of (extract_course_date r 3 "Course End Date")]).
Proof.
  intros Hholds Hlen Hready. split.
  - destruct (StageSpec.cf_steps raw items rows h Hholds Hlen Hready)
      as (its & l1 & l2 & l3 & l4 & l5 & h1 & h2 & h3 & h4 & h5
          & Hrun1 & Hrun2 & Hrun3 & Hrun4 & Hrun5 & Hholds5 & Hframe).
    exists h5, l5, its.
    split; [|split; [exact Hholds5|exact Hframe]].
    rewrite (StageSpec.run_bind _ _ _ _ _ Hrun1), (StageSpec.run_bind _ _ _ _ _ Hrun2).
    rewrite (StageSpec.run_bind _ _ _ _ _ Hrun3), (StageSpec.run_bind _ _ _ _ _ Hrun4).
    exact Hrun5.
  - intros r Hr. unfold cf_student. rewrite StageSpec.cf_extended by lia.
    destruct r as [|a [|b [|c [|d [|e [|f r]]]]]]; try discriminate Hr.
    reflexivity.
Qed.

Lemma cf_pipeline_records_witness :
  exists (h' : list Obj.obj) (res : nat) (its : list nat),
    bind (Obj.extract_students 2%nat 3) (fun cf1 =>
    bind (Obj.add_student_id cf1 3) (fun cf2 =>
    bind (Obj.add_start_date cf2 3) (fun cf3 =>
    bind (Obj.add_end_date cf3 3) (fun cf4 =>
    Obj.strip_cf_data cf4)))) cf_two_store = (Ok res, h') /\
    holds h' res its [["FitNZ0001"; "15/06/2020"; "15/06/2021"]] /\
    unchanged_outside [0%nat; 1%nat] cf_two_store h'.
Proof.
  apply (cf_pipeline_records 2%nat [0%nat; 1%nat] [cf_row_marked; cf_row_plain] cf_two_store).
  - split; [reflexivity|]. split; [|repeat constructor].
    repeat constructor; simpl; intros H; intuition discriminate.
  - repeat constructor.
  - repeat constructor; now eexists.
Defined.

(** X28: the stages that [process_enrolment_dates] runs on the
    Enrolment Dates rows, one after the other.  On a store in which
    [raw] is a list of distinct row objects of at least five columns,
    [get_courses] on column 2 and then [clean_date] on column 3 and on
    column 4 return a list of the row objects of [raw], in order, whose
    course has a course code, and these rows now have both date columns
    rewritten by [extract_date].  No object is changed but the rows of
    [raw]. *)
Theorem ed_pipeline_records (raw : nat) (items : list nat) (rows : list (list string))
    (h : list Obj.obj) :
  holds h raw items rows ->
  List.Forall (fun r => (5 <= length r)%nat) rows ->
  exists (h' : list Obj.obj) (res : nat) (kept : list nat),
    bind (Obj.get_courses raw 2) (fun ed1 =>
    bind (Obj.clean_date ed1 3) (fun ed2 =>
    Obj.clean_date ed2 4)) h = (Ok res, h') /\
    kept `sublist_of` items /\
    holds h' res kept (ed_students rows) /\
    unchanged_outside items h h'.
Proof.
  intros Hholds Hlen.
  destruct (StageSpec.ed_steps raw items rows h Hholds Hlen)
    as (kept & l1 & l2 & l3 & h1 & h2 & h3 & Hrun1 & Hrun2 & Hrun3 & Hsub & Hholds3 & Hframe).
  exists h3, l3, kept.
  split; [|split; [exact Hsub|split; [exact Hholds3|exact Hframe]]].
  rewrite (StageSpec.run_bind _ _ _ _ _ Hrun1), (StageSpec.run_bind _ _ _ _ _ Hrun2).
  exact Hrun3.
Qed.

Lemma ed_pipeline_records_witness :
  exists (h' : list Obj.obj) (res : nat) (kept : list nat),
    bind (Obj.get_courses 2%nat 2) (fun ed1 =>
    bind (Obj.clean_date ed1 3) (fun ed2 =>
    Obj.clean_date ed2 4)) ed_two_store = (Ok res, h') /\
    kept `sublist_of` [0%nat; 1%nat] /\
    holds h' res kept
      [["FitNZ0001"; "A Student"; "Personal Training (PT-01-ONL)"; "15/06/2020";
        "15/06/2021"]] /\
    unchanged_outside [0%nat; 1%nat] ed_two_store h'.
Proof.
  apply (ed_pipeline_records 2%nat [0%nat; 1%nat] [ed_row_coded; ed_row_plain] ed_two_store).
  - split; [reflexivity|]. split; [|repeat constructor].
    repeat constructor; simpl; intros H; intuition discriminate.
  - repeat constructor.
Defined.

(** *** The steps of the workflow in the world *)

Lemma input_run (prompt line : string) (rest : list string) (w : World) :
  stdin w = line :: rest ->
  exists w' : World,
    input prompt w = (Ok line, w') /\ stdin w' = rest /\ same_files w w'.
Proof.
  intros Hin. unfold input. cbn [stdin set_stdout]. rewrite Hin.
  eexists. split; [reflexivity|]. split; [reflexivity|]. repeat split.
Qed.

Lemma print_run (s : string) (w : World) :
  exists w' : World,
    print s w = (Ok tt, w') /\ stdin w' = stdin w /\ same_files w w'.
Proof. eexists. split; [reflexivity|]. split; [reflexivity|]. repeat split. Qed.

Lemma confirm_files_run (o_file : string) (r_files : list string) (line : string)
    (rest : list string) (w : World) :
  stdin w = line :: rest ->
  exists w' : World,
    confirm_files o_file r_files w = (Ok tt, w') /\ stdin w' = rest /\ same_files w w'.
Proof.
  intros Hin. unfold confirm_files.
  destruct (print_run (nl +:+ "To process the " +:+ o_file
                       +:+ " the following files are required:" +:+ nl) w)
    as (w1 & Hrun1 & Hin1 & Hsame1).
  rewrite (StageSpec.run_bind _ _ _ _ _ Hrun1).
  destruct (for_each_print_effect r_files w1) as (w2 & Hrun2 & Hin2 & Hsame2).
  rewrite (StageSpec.run_bind _ _ _ _ _ Hrun2).
  match goal with
  | |- context [bind (print ?s) _ w2] =>
      destruct (print_run s w2) as (w3 & Hrun3 & Hin3 & Hsame3)
  end.
  rewrite (StageSpec.run_bind _ _ _ _ _ Hrun3).
  match goal with
  | |- context [bind (input ?p) _ w3] =>
      destruct (input_run p line rest w3) as (w4 & Hrun4 & Hin4 & Hsame4)
  end.
  { now rewrite Hin3, Hin2, Hin1. }
  rewrite (StageSpec.run_bind _ _ _ _ _ Hrun4).
  exists w4. split; [reflexivity|]. split; [exact Hin4|].
  apply (same_files_trans w w1); [exact Hsame1|].
  apply (same_files_trans w1 w2); [exact Hsame2|].
  now apply (same_files_trans w2 w3).
Qed.

(** A report that opens at once and passes its checks is returned as
    it is read, and the world is as before. *)
Lemma load_data_found (file_name source : string) (w : World) (file : csv_file) :
  assoc (file_name +:+ ".csv") (csv_files w) = Some file ->
  List.Forall (fun r : list string => r <> []) (records file) ->
  (source = "ed" -> exists r, check_ed (loaded file) w = (Ok r, w)) ->
  load_data file_name source w = (Ok (loaded file, false, []), w).
Proof.
  intros Hfile Hrecords Hcheck.
  unfold load_data. unfold bind at 1.
  rewrite (load_loop_opens _ _ _ _ file (loaded file));
    [reflexivity|exact Hfile|now apply read_rows_total|exact Hcheck].
Qed.

(** What [save_data_upload] leaves behind when the file opens. *)
Lemma save_data_upload_run (i_data : list (list string)) (headings d_name : string)
    (w : World) :
  existsb (String.eqb (d_name +:+ clock w (ticks w) +:+ ".txt")) (locked w) = false ->
  exists w' : World,
    save_data_upload i_data headings d_name w = (Ok tt, w') /\
    stdin w' = stdin w /\ csv_files w' = csv_files w /\ locked w' = locked w /\
    clock w' = clock w /\ ticks w' = S (ticks w) /\
    disk w' = assoc_set (d_name +:+ clock w (ticks w) +:+ ".txt")
                (upload_content headings i_data) (disk w).
Proof.
  set (f_name := d_name +:+ clock w (ticks w) +:+ ".txt").
  intros Hopen.
  unfold save_data_upload, bind, generate_time_string, try_io, open_w, write, print, ret.
  cbn -[String.append assoc assoc_set existsb build_save_data].
  fold f_name. rewrite Hopen.
  cbn -[String.append assoc assoc_set existsb build_save_data].
  rewrite Hopen.
  cbn -[String.append assoc assoc_set existsb build_save_data].
  rewrite !assoc_set_twice, !assoc_set_same.
  cbn -[String.append assoc assoc_set existsb build_save_data].
  rewrite !assoc_set_twice, !assoc_set_same.
  cbn -[String.append assoc assoc_set existsb build_save_data].
  eexists. split; [reflexivity|].
  cbn -[String.append assoc assoc_set existsb build_save_data].
  repeat (split; [reflexivity|]).
  rewrite !assoc_set_twice. f_equal. rewrite build_save_data_lines.
  unfold upload_content. simpl. now rewrite !str_app_assoc.
Qed.

Lemma rows_at_extended (h h' : list Obj.obj) (locs : list nat) (rows : list (list string)) :
  (forall (l : nat) (o : Obj.obj), h !! l = Some o -> h' !! l = Some o) ->
  Obj.rows_at h locs rows -> Obj.rows_at h' locs rows.
Proof.
  intros Hkeep Hat. induction Hat as [|l r locs rows Hl _ IH]; constructor; [|exact IH].
  now apply Hkeep.
Qed.

Lemma ed_students_cols (rows : list (list string)) :
  List.Forall (fun r => (5 <= length r)%nat) rows ->
  List.Forall (fun r => (5 <= length r)%nat) (ed_students rows).
Proof.
  intros Hlen. unfold ed_students.
  apply List.Forall_map, List.Forall_map, StageSpec.Forall_filter_keeps.
  eapply List.Forall_impl; [|exact Hlen].
  intros r Hr. cbv beta in Hr. now rewrite !StageSpec.cleaned_length.
Qed.

Lemma cf_students_cols (rows : list (list string)) :
  List.Forall (fun r => length r = 3%nat) (cf_students rows).
Proof.
  unfold cf_students. apply List.Forall_map, List.Forall_forall. reflexivity.
Qed.

(** X29: a run of [process_enrolment_dates] in which both reports open
    at once and are in order.  The operator presses enter and names the
    two files; the Enrolment Dates rows have five columns and none of
    the required ones is empty; the Custom Fields rows with "FitNZ" in
    column 3 hold the id and both dates.  Then the run returns, and it
    has written two files: Start_Changes_<time> holds the header and
    the change records of the start dates, End_Changes_<next time>
    those of the end dates, where the records compare the Enrolment
    Dates rows that have a course code, their dates rewritten, with the
    columns 5, 6 and 7 of the extended Custom Fields rows.  No other
    file is written: the warnings of the load are not logged. *)
Theorem process_enrolment_dates_writes (w : World) (h : list Obj.obj)
    (enter ed_name cf_name : string) (rest : list string) (ed_file cf_file : csv_file) :
  stdin w = enter :: ed_name :: cf_name :: rest ->
  assoc (ed_name +:+ ".csv") (csv_files w) = Some ed_file ->
  assoc (cf_name +:+ ".csv") (csv_files w) = Some cf_file ->
  List.Forall (fun r : list string => r <> []) (records ed_file) ->
  List.Forall (fun r => (5 <= length r)%nat) (loaded ed_file) ->
  flat_map row_errors (loaded ed_file) = [] ->
  List.Forall (fun r : list string => r <> []) (records cf_file) ->
  List.Forall (fun r => (4 <= length r)%nat) (loaded cf_file) ->
  List.Forall cf_ready (List.filter (has_marker 3) (loaded cf_file)) ->
  existsb (String.eqb ("Start_Changes_" +:+ clock w (ticks w) +:+ ".txt")) (locked w)
  = false ->
  existsb (String.eqb ("End_Changes_" +:+ clock w (S (ticks w)) +:+ ".txt")) (locked w)
  = false ->
  exists (w' : World) (h' : list Obj.obj),
    process_enrolment_dates (w, h) = (Ok tt, (w', h')) /\
    stdin w' = rest /\
    disk w'
    = assoc_set ("End_Changes_" +:+ clock w (S (ticks w)) +:+ ".txt")
        (upload_content "Student ID,End Date"
           (diff_by_id (ed_students (loaded ed_file)) (cf_students (loaded cf_file))
              4 2 0 0))
        (assoc_set ("Start_Changes_" +:+ clock w (ticks w) +:+ ".txt")
           (upload_content "Student ID,Start Date"
              (diff_by_id (ed_students (loaded ed_file)) (cf_students (loaded cf_file))
                 3 1 0 0))
           (disk w)).
Proof.
  intros Hin Hed Hcf Hedrec Hedlen Hederr Hcfrec Hcflen Hcfready Hstart Hend.
  unfold process_enrolment_dates. cbv zeta.
  (* the prompts and the Enrolment Dates report *)
  destruct (print_run (nl +:+ "Enrolment Dates data.") w) as (w1 & Hrun1 & Hin1 & Hsame1).
  rewrite (in_world_bind _ _ _ _ _ _ Hrun1).
  destruct (confirm_files_run "Enrolment Dates Report"
              ["Enrolments (Learning Platform)"; "Custom Fields"]
              enter (ed_name :: cf_name :: rest) w1) as (w2 & Hrun2 & Hin2 & Hsame2);
    [now rewrite Hin1|].
  rewrite (in_world_bind _ _ _ _ _ _ Hrun2).
  destruct (input_run (nl +:+ "What is the name of the Enrolment Dates file? --> ")
              ed_name (cf_name :: rest) w2 Hin2) as (w3 & Hrun3 & Hin3 & Hsame3).
  rewrite (in_world_bind _ _ _ _ _ _ Hrun3).
  pose proof (same_files_trans _ _ _ Hsame1 (same_files_trans _ _ _ Hsame2 Hsame3))
    as Hsame13.
  assert (load_data ed_name "ed" w3 = (Ok (loaded ed_file, false, []), w3)) as Hrun4.
  { apply load_data_found; [|exact Hedrec|].
    - destruct Hsame13 as (-> & _). exact Hed.
    - intros _. destruct (check_ed_returns _ w3 Hedlen Hederr) as (flag & Hcheck & _).
      eexists. exact Hcheck. }
  rewrite (in_world_bind _ _ _ _ _ _ Hrun4). cbn [fst].
  destruct (new_list_run (loaded ed_file) h)
    as (raw_ed & ed_items & h1 & Hrun5 & Hholds5 & _ & _).
  rewrite (in_store_bind _ _ _ _ _ _ Hrun5).
  destruct (StageSpec.ed_steps raw_ed ed_items (loaded ed_file) h1 Hholds5 Hedlen)
    as (kept & e1 & e2 & e3 & g1 & g2 & g3 & He1 & He2 & He3 & _ & Hholds_ed & _).
  rewrite (in_store_bind _ _ _ _ _ _ He1), (in_store_bind _ _ _ _ _ _ He2).
  rewrite (in_store_bind _ _ _ _ _ _ He3).
  (* the Custom Fields report *)
  destruct (input_run (nl +:+ "What is the name of the Custom Fields file? --> ")
              cf_name rest w3 Hin3) as (w4 & Hrun6 & Hin4 & Hsame4).
  rewrite (in_world_bind _ _ _ _ _ _ Hrun6).
  pose proof (same_files_trans _ _ _ Hsame13 Hsame4) as (Hcsv4 & Hlock4 & Hdisk4 & Hclock4 & Hticks4).
  assert (load_data cf_name "cf" w4 = (Ok (loaded cf_file, false, []), w4)) as Hrun7.
  { apply load_data_found; [now rewrite Hcsv4|exact Hcfrec|discriminate]. }
  rewrite (in_world_bind _ _ _ _ _ _ Hrun7). cbn [fst].
  destruct (new_list_run (loaded cf_file) g3)
    as (raw_cf & cf_items & h2 & Hrun8 & Hholds8 & Hframe8 & Hfresh8).
  rewrite (in_store_bind _ _ _ _ _ _ Hrun8).
  destruct (StageSpec.cf_steps raw_cf cf_items (loaded cf_file) h2 Hholds8 Hcflen Hcfready)
    as (its & c1 & c2 & c3 & c4 & c5 & k1 & k2 & k3 & k4 & h5
        & Hc1 & Hc2 & Hc3 & Hc4 & Hc5 & Hholds_cf & Hframe_cf).
  rewrite (in_store_bind _ _ _ _ _ _ Hc1), (in_store_bind _ _ _ _ _ _ Hc2).
  rewrite (in_store_bind _ _ _ _ _ _ Hc3), (in_store_bind _ _ _ _ _ _ Hc4).
  rewrite (in_store_bind _ _ _ _ _ _ Hc5).
  (* the Enrolment Dates rows are as they were *)
  assert (holds h5 e3 kept (ed_students (loaded ed_file))) as Hholds_ed5.
  { destruct Hholds_ed as (Hlist & Hnodup & Hat).
    apply (StageSpec.holds_unchanged cf_items h2).
    - exact Hframe_cf.
    - intros Hin'. apply Hfresh8 in Hin'. apply lookup_lt_Some in Hlist. lia.
    - intros x Hx Hin'. apply Hfresh8 in Hin'.
      pose proof (StageSpec.rows_at_lt _ _ _ _ Hat Hx). lia.
    - apply (StageSpec.holds_unchanged [] g3); [exact Hframe8|tauto|tauto|].
      split; [exact Hlist|]. split; [exact Hnodup|exact Hat]. }
  destruct Hholds_ed5 as (Hed_list & _ & Hed_at).
  destruct Hholds_cf as (Hcf_list & _ & Hcf_at).
  pose proof (ed_students_cols _ Hedlen) as Hed_cols.
  pose proof (cf_students_cols (loaded cf_file)) as Hcf_cols.
  (* the two comparisons *)
  destruct (StageSpec.compare_stage e3 c5 kept its _ _ 3 1 0 0 h5
              Hed_list Hed_at Hcf_list Hcf_at)
    as (s1 & h6 & sitems & Hs1 & _ & Hs_list & Hs_at & Hkeep6).
  { eapply List.Forall_impl; [|exact Hed_cols]. intros r Hr. cbv beta in Hr.
    split; apply StageSpec.has_col_in_range; lia. }
  { eapply List.Forall_impl; [|exact Hcf_cols]. intros r Hr. cbv beta in Hr.
    split; apply StageSpec.has_col_in_range; lia. }
  rewrite (in_store_bind _ _ _ _ _ _ Hs1).
  destruct (StageSpec.compare_stage e3 c5 kept its _ _ 4 2 0 0 h6
              (Hkeep6 _ _ Hed_list) (rows_at_extended _ _ _ _ Hkeep6 Hed_at)
              (Hkeep6 _ _ Hcf_list) (rows_at_extended _ _ _ _ Hkeep6 Hcf_at))
    as (s2 & h7 & eitems & Hs2 & _ & He_list & He_at & Hkeep7).
  { eapply List.Forall_impl; [|exact Hed_cols]. intros r Hr. cbv beta in Hr.
    split; apply StageSpec.has_col_in_range; lia. }
  { eapply List.Forall_impl; [|exact Hcf_cols]. intros r Hr. cbv beta in Hr.
    split; apply StageSpec.has_col_in_range; lia. }
  rewrite (in_store_bind _ _ _ _ _ _ Hs2).
  (* the two files *)
  rewrite (in_store_bind _ _ _ _ _ _
             (read_all_run s1 sitems _ h7 (Hkeep7 _ _ Hs_list)
                (rows_at_extended _ _ _ _ Hkeep7 Hs_at))).
  destruct (save_data_upload_run
              (diff_by_id (ed_students (loaded ed_file)) (cf_students (loaded cf_file))
                 3 1 0 0) "Student ID,Start Date" "Start_Changes_" w4)
    as (w5 & Hrun9 & Hin5 & Hcsv5 & Hlock5 & Hclock5 & Hticks5 & Hdisk5).
  { now rewrite Hclock4, Hticks4, Hlock4. }
  rewrite (in_world_bind _ _ _ _ _ _ Hrun9).
  rewrite (in_store_bind _ _ _ _ _ _ (read_all_run s2 eitems _ h7 He_list He_at)).
  destruct (save_data_upload_run
              (diff_by_id (ed_students (loaded ed_file)) (cf_students (loaded cf_file))
                 4 2 0 0) "Student ID,End Date" "End_Changes_" w5)
    as (w6 & Hrun10 & Hin6 & Hcsv6 & Hlock6 & Hclock6 & Hticks6 & Hdisk6).
  { now rewrite Hclock5, Hticks5, Hlock5, Hclock4, Hticks4, Hlock4. }
  rewrite (in_world_bind _ _ _ _ _ _ Hrun10).
  exists w6, h7. split; [reflexivity|].
  split; [now rewrite Hin6, Hin5|].
  rewrite Hdisk6, Hdisk5, Hclock5, Hticks5, Hclock4, Hticks4, Hdisk4. reflexivity.
Qed.

Lemma process_enrolment_dates_writes_witness :
  exists (w' : World) (h' : list Obj.obj),
    process_enrolment_dates (flow_world, []) = (Ok tt, (w', h')) /\
    stdin w' = [] /\
    disk w'
    = [("Start_Changes_200101-000000.txt", "Student ID,Start Date" +:+ nl);
       ("End_Changes_200101-000000.txt",
        "Student ID,End Date" +:+ nl +:+ "FitNZ0001,15/06/2021" +:+ nl)].
Proof.
  apply (process_enrolment_dates_writes flow_world [] "" "enrolments" "custom" []
           {| header_line := "Student ID,Student,Course,Enrolment Date,Expiry Date";
              records := [ed_row_coded; ed_row_plain] |}
           {| header_line := "Id,First,Second,Details,Last";
              records := [cf_row_late; cf_row_plain] |}).
  - reflexivity.
  - reflexivity.
  - reflexivity.
  - repeat constructor; discriminate.
  - repeat constructor.
  - reflexivity.
  - repeat constructor; discriminate.
  - repeat constructor.
  - constructor; [|constructor].
    split; [simpl; lia|]. split; [|split]; eexists; reflexivity.
  - reflexivity.
  - reflexivity.
Defined.

(** *** The run that ends at the validator *)

Lemma process_error_log_run (errors : list string) (source line : string)
    (rest : list string) (w : World) :
  stdin w = line :: rest ->
  exists w' : World,
    process_error_log errors source w = (Raise SystemExit, w') /\
    stdin w' = rest /\
    forall name : string,
      name <> "Error_log__" +:+ clock w (ticks w) +:+ ".txt" ->
      file_content name w' = file_content name w.
Proof.
  intros Hin. unfold process_error_log.
  destruct (print_run (nl +:+ "The following errors have been identified in the "
                       +:+ source +:+ " data: " +:+ nl) w) as (w1 & Hrun1 & Hin1 & Hsame1).
  rewrite (StageSpec.run_bind _ _ _ _ _ Hrun1).
  destruct (for_each_print_effect errors w1) as (w2 & Hrun2 & Hin2 & Hsame2).
  rewrite (StageSpec.run_bind _ _ _ _ _ Hrun2).
  pose proof (same_files_trans _ _ _ Hsame1 Hsame2) as (_ & _ & Hdisk2 & Hclock2 & Hticks2).
  unfold bind at 1. unfold generate_time_string at 1.
  unfold bind at 1. unfold print at 1.
  set (w3 := set_stdout (set_ticks w2 (S (ticks w2))) _).
  rewrite Hclock2, Hticks2.
  destruct (save_error_log_run source errors
              ("Error_log_" +:+ "_" +:+ clock w (ticks w) +:+ ".txt") w3)
    as (w4 & Hrun4 & Hin4 & _ & _ & Hdisk4).
  rewrite (StageSpec.run_bind _ _ _ _ _ Hrun4).
  unfold bind at 1. unfold print at 1.
  unfold bind, input, raise. cbn [stdin set_stdout set_stdin].
  rewrite Hin4. change (stdin w3) with (stdin w2). rewrite Hin2, Hin1, Hin.
  eexists. split; [reflexivity|]. split; [reflexivity|].
  intros name Hname. unfold file_content. cbn [disk set_stdin set_stdout].
  change (disk w3) with (disk w2) in Hdisk4. rewrite Hdisk2 in Hdisk4.
  destruct (existsb _ (locked w3)); rewrite Hdisk4; [reflexivity|].
  apply assoc_set_other. intros Heq. apply Hname. symmetry. exact Heq.
Qed.

Lemma check_ed_aborts (report_data : list (list string)) (line : string)
    (rest : list string) (w : World) :
  List.Forall (fun student : list string => (5 <= length student)%nat) report_data ->
  List.Exists missing_required report_data ->
  stdin w = line :: rest ->
  exists w' : World,
    check_ed report_data w = (Raise SystemExit, w') /\
    stdin w' = rest /\
    forall name : string,
      name <> "Error_log__" +:+ clock w (ticks w) +:+ ".txt" ->
      file_content name w' = file_content name w.
Proof.
  intros Hrows Hmissing Hin.
  destruct (check_ed_scan_total report_data []
              [nl +:+ "Enrolment Dates (Learning Platform) Report Warnings:" +:+ nl] Hrows)
    as (errors & warnings & Hscan & _ & Hlt).
  specialize (Hlt Hmissing).
  destruct (process_error_log_run errors "Enrolment Dates (Learning Platform) Report"
              line rest w Hin) as (w' & Hrun & Hin' & Hfiles).
  exists w'. split; [|split; [exact Hin'|exact Hfiles]].
  unfold check_ed, lift. unfold bind at 1. rewrite Hscan. cbn [fst snd].
  destruct (Nat.ltb_spec 0 (length errors)) as [_|?]; [|lia].
  unfold bind. now rewrite Hrun.
Qed.

Lemma load_data_aborts (file_name line : string) (rest : list string) (w : World)
    (file : csv_file) :
  assoc (file_name +:+ ".csv") (csv_files w) = Some file ->
  List.Forall (fun r : list string => r <> []) (records file) ->
  List.Forall (fun student : list string => (5 <= length student)%nat) (loaded file) ->
  List.Exists missing_required (loaded file) ->
  stdin w = line :: rest ->
  exists w' : World,
    load_data file_name "ed" w = (Raise SystemExit, w') /\
    stdin w' = rest /\
    forall name : string,
      name <> "Error_log__" +:+ clock w (ticks w) +:+ ".txt" ->
      file_content name w' = file_content name w.
Proof.
  intros Hfile Hrecords Hrows Hmissing Hin.
  destruct (check_ed_aborts (loaded file) line rest w Hrows Hmissing Hin)
    as (w' & Hrun & Hin' & Hfiles).
  exists w'. split; [|split; [exact Hin'|exact Hfiles]].
  unfold load_data. unfold bind at 1. rewrite Hin.
  cbn [load_loop]. unfold try_io, open_r. rewrite Hfile.
  unfold lift. unfold bind at 1. rewrite (read_rows_total _ [] Hrecords).
  cbn [app String.eqb Ascii.eqb Bool.eqb]. fold (loaded file).
  unfold bind. now rewrite Hrun.
Qed.

(** X30: a run of [process_enrolment_dates] on an Enrolment Dates
    report in which a row lacks the Course, the Enrolment Date or the
    Expiry Date.  After the operator has pressed enter and named the
    report, the run ends in [SystemExit] at the validator: the only
    further line read is the answer to its last prompt, the Custom
    Fields file is never asked for, no object is made in the store, and
    no file is written but the error log. *)
Theorem process_enrolment_dates_aborts (w : World) (h : list Obj.obj)
    (enter ed_name line : string) (rest : list string) (ed_file : csv_file) :
  stdin w = enter :: ed_name :: line :: rest ->
  assoc (ed_name +:+ ".csv") (csv_files w) = Some ed_file ->
  List.Forall (fun r : list string => r <> []) (records ed_file) ->
  List.Forall (fun r => (5 <= length r)%nat) (loaded ed_file) ->
  List.Exists missing_required (loaded ed_file) ->
  exists w' : World,
    process_enrolment_dates (w, h) = (Raise SystemExit, (w', h)) /\
    stdin w' = rest /\
    forall name : string,
      name <> "Error_log__" +:+ clock w (ticks w) +:+ ".txt" ->
      file_content name w' = file_content name w.
Proof.
  intros Hin Hed Hedrec Hedlen Hmissing.
  unfold process_enrolment_dates. cbv zeta.
  destruct (print_run (nl +:+ "Enrolment Dates data.") w) as (w1 & Hrun1 & Hin1 & Hsame1).
  rewrite (in_world_bind _ _ _ _ _ _ Hrun1).
  destruct (confirm_files_run "Enrolment Dates Report"
              ["Enrolments (Learning Platform)"; "Custom Fields"]
              enter (ed_name :: line :: rest) w1) as (w2 & Hrun2 & Hin2 & Hsame2);
    [now rewrite Hin1|].
  rewrite (in_world_bind _ _ _ _ _ _ Hrun2).
  destruct (input_run (nl +:+ "What is the name of the Enrolment Dates file? --> ")
              ed_name (line :: rest) w2 Hin2) as (w3 & Hrun3 & Hin3 & Hsame3).
  rewrite (in_world_bind _ _ _ _ _ _ Hrun3).
  pose proof (same_files_trans _ _ _ Hsame1 (same_files_trans _ _ _ Hsame2 Hsame3))
    as (Hcsv3 & _ & Hdisk3 & Hclock3 & Hticks3).
  destruct (load_data_aborts ed_name line rest w3 ed_file) as (w4 & Hrun4 & Hin4 & Hfiles);
    [now rewrite Hcsv3|exact Hedrec|exact Hedlen|exact Hmissing|exact Hin3|].
  rewrite (in_world_raise _ _ _ _ _ _ Hrun4).
  exists w4. split; [reflexivity|]. split; [exact Hin4|].
  intros name Hname. rewrite Hfiles by now rewrite Hclock3, Hticks3.
  unfold file_content. now rewrite Hdisk3.
Qed.

Lemma process_enrolment_dates_aborts_witness :
  exists w' : World,
    process_enrolment_dates
      (set_stdin (world_with ed_missing_course) [""; "enrolments"; ""; "left"], [])
    = (Raise SystemExit, (w', [])) /\
    stdin w' = ["left"] /\
    forall name : string,
      name <> "Error_log__200101-000000.txt" -> file_content name w' = None.
Proof.
  apply (process_enrolment_dates_aborts
           (set_stdin (world_with ed_missing_course) [""; "enrolments"; ""; "left"]) []
           "" "enrolments" "" ["left"]
           {| header_line := "Student ID,Student,Course,Enrolment Date,Expiry Date";
              records := ed_missing_course |}).
  - reflexivity.
  - reflexivity.
  - repeat constructor; discriminate.
  - repeat constructor.
  - apply List.Exists_cons_hd. left. reflexivity.
Defined.
